(** * Trafilytics: anonymisation, de-duplication and daily tally

    A shallow embedding of [src/main.cpp]: [hashMAC], [performWiFiScan],
    [reportAnalytics], the JSON builders, the date extraction, the parsing
    of the modem's clock, the identity of the device, [setup] and the body
    of [loop].  The global variables of the sketch become one record that
    every function takes and returns; the hardware collaborators (radio
    scan, modem, GPS, remote database) become explicit inputs, and the
    remote calls a function issues become a list it returns.  Serial
    printing and SD-card logging change no global of the sketch and are
    left out; the conversion of the GPS sentence to decimal degrees is
    floating-point arithmetic and enters as the pair of texts it yields.
    The globals only [setup] writes (the device address, the access key
    and the device-info flag) are returned beside the record. *)

From Stdlib Require Import ZArith List Lia Strings.Byte Ascii String DecimalString.
From stdpp Require Import gmap strings list.

Local Open Scope Z_scope.
#[local] Set Warnings "-clear-no-such-hyp".

(** ** Machine integers *)

(** [uint32_t] and [uint64_t] arithmetic wraps around. *)
Definition wrap32 (x : Z) : Z := x mod 2 ^ 32.
Definition wrap64 (x : Z) : Z := x mod 2 ^ 64.

(** [x++] on a [uint32_t]. *)
Definition incr32 (x : Z) : Z := wrap32 (x + 1).

Definition is_uint32 (x : Z) : Prop := 0 <= x < 2 ^ 32.
Definition is_int (x : Z) : Prop := - 2 ^ 31 <= x < 2 ^ 31.

(** ** The anonymiser: [hashMAC] *)

Definition FNV_OFFSET_BASIS : Z := 0xcbf29ce484222325.
Definition FNV_PRIME : Z := 0x100000001b3.

(** A [uint8_t] widened to [uint64_t]. *)
Definition u8 (b : byte) : Z := Z.of_N (Byte.to_N b).

(** [macAddr[i]]: the identifier is read through a pointer. *)
Definition macAt (macAddr : list byte) (i : nat) : byte := nth i macAddr x00.

(** [((uint8_t* )&ephemeralSalt)[i]]: the bytes of the salt in memory
    order, least significant first on the little-endian ESP32. *)
Definition saltByte (ephemeralSalt : Z) (i : nat) : Z :=
  Z.land (Z.shiftr ephemeralSalt (8 * Z.of_nat i)) 255.

(** One round of either loop: [hash ^= b; hash *= FNV_PRIME;]. *)
Definition mix (hash b : Z) : Z := wrap64 (Z.lxor hash b * FNV_PRIME).

(** The value of [hash] after both loops of [hashMAC]. *)
Definition hashMAC_value (ephemeralSalt : Z) (macAddr : list byte) : Z :=
  let hash := FNV_OFFSET_BASIS in
  let hash := fold_left (fun h i => mix h (u8 (macAt macAddr i))) (seq 0 6) hash in
  let hash := fold_left (fun h i => mix h (saltByte ephemeralSalt i)) (seq 0 4) hash in
  hash.

Definition hexDigit (n : Z) : ascii :=
  match n with
  | 0 => "0" | 1 => "1" | 2 => "2" | 3 => "3" | 4 => "4" | 5 => "5"
  | 6 => "6" | 7 => "7" | 8 => "8" | 9 => "9" | 10 => "a" | 11 => "b"
  | 12 => "c" | 13 => "d" | 14 => "e" | _ => "f"
  end%char.

(** [sprintf(hexBuffer, "%016llx", hash)]: sixteen lower-case hexadecimal
    digits, most significant first, zero padded. *)
Definition hex16 (hash : Z) : string :=
  string_of_list_ascii
    (map (fun k => hexDigit (Z.land (Z.shiftr hash (4 * Z.of_nat k)) 15))
         (rev (seq 0 16))).

Definition hashMAC (ephemeralSalt : Z) (macAddr : list byte) : string :=
  hex16 (hashMAC_value ephemeralSalt macAddr).

(** The reference the specification names: 64-bit FNV-1a over a byte
    sequence, written as the textbook fold. *)
Definition fnv1a_64 (data : list Z) : Z :=
  fold_left (fun h b => wrap64 (Z.lxor h b * 0x100000001b3)) data 0xcbf29ce484222325.

(** The ten bytes the specification feeds to it: the identifier, then the
    four bytes of the salt. *)
Definition salt_bytes (salt : Z) : list Z :=
  [Z.land salt 255; Z.land (Z.shiftr salt 8) 255;
   Z.land (Z.shiftr salt 16) 255; Z.land (Z.shiftr salt 24) 255].

Definition ascii_bytes (s : string) : list Z :=
  map (fun c => Z.of_N (N_of_ascii c)) (list_ascii_of_string s).

(** ** The global state of the sketch

    One field per global variable that the modelled functions read or
    write, under the names and in the groups of the source.  Every
    [uint32_t] is a [Z] kept in range by [wrap32] at each write; each
    [std::set<String>] is a finite set of strings. *)

Record State : Type := mkState {
  (* per-upload-cycle counters (reset every 10 scans) *)
  wifiNetworksThisCycle : Z;
  repeatedWifiNetworks : Z;
  uniqueWifiNetworks : Z;
  impressionCount : Z;
  (* cumulative counters (never reset) *)
  totalWifiNetworks : Z;
  totalScansPerformed : Z;
  totalReportsGenerated : Z;
  (* hash tracking for deduplication *)
  currentCycleHashes : gset string;
  previousCycleHashes : gset string;
  (* timing and system state *)
  lastScanTime : Z;
  scanCounter : Z;
  reportCounter : Z;
  systemStartTime : Z;
  ephemeralSalt : Z;
  (* error tracking *)
  scanErrors : Z;
  (* device identity *)
  combinedBillboardId : string;
  currentDateTime : string;
  (* daily aggregation tracking *)
  currentDate : string;
  dailyImpressions : Z;
  (* GPS location tracking *)
  gpsLatitude : string;
  gpsLongitude : string;
  gpsFixAcquired : bool;
  (* data consumption tracking (in bytes) *)
  totalDataSent : Z
}.

(** Assignment to one global; all the others keep their value. *)

Definition set_wifiNetworksThisCycle (v : Z) (st : State) : State :=
  {| wifiNetworksThisCycle := v;
     repeatedWifiNetworks := repeatedWifiNetworks st;
     uniqueWifiNetworks := uniqueWifiNetworks st;
     impressionCount := impressionCount st;
     totalWifiNetworks := totalWifiNetworks st;
     totalScansPerformed := totalScansPerformed st;
     totalReportsGenerated := totalReportsGenerated st;
     currentCycleHashes := currentCycleHashes st;
     previousCycleHashes := previousCycleHashes st;
     lastScanTime := lastScanTime st; scanCounter := scanCounter st;
     reportCounter := reportCounter st;
     systemStartTime := systemStartTime st;
     ephemeralSalt := ephemeralSalt st; scanErrors := scanErrors st;
     combinedBillboardId := combinedBillboardId st;
     currentDateTime := currentDateTime st; currentDate := currentDate st;
     dailyImpressions := dailyImpressions st; gpsLatitude := gpsLatitude st;
     gpsLongitude := gpsLongitude st; gpsFixAcquired := gpsFixAcquired st;
     totalDataSent := totalDataSent st |}.

Definition set_repeatedWifiNetworks (v : Z) (st : State) : State :=
  {| wifiNetworksThisCycle := wifiNetworksThisCycle st;
     repeatedWifiNetworks := v; uniqueWifiNetworks := uniqueWifiNetworks st;
     impressionCount := impressionCount st;
     totalWifiNetworks := totalWifiNetworks st;
     totalScansPerformed := totalScansPerformed st;
     totalReportsGenerated := totalReportsGenerated st;
     currentCycleHashes := currentCycleHashes st;
     previousCycleHashes := previousCycleHashes st;
     lastScanTime := lastScanTime st; scanCounter := scanCounter st;
     reportCounter := reportCounter st;
     systemStartTime := systemStartTime st;
     ephemeralSalt := ephemeralSalt st; scanErrors := scanErrors st;
     combinedBillboardId := combinedBillboardId st;
     currentDateTime := currentDateTime st; currentDate := currentDate st;
     dailyImpressions := dailyImpressions st; gpsLatitude := gpsLatitude st;
     gpsLongitude := gpsLongitude st; gpsFixAcquired := gpsFixAcquired st;
     totalDataSent := totalDataSent st |}.

Definition set_uniqueWifiNetworks (v : Z) (st : State) : State :=
  {| wifiNetworksThisCycle := wifiNetworksThisCycle st;
     repeatedWifiNetworks := repeatedWifiNetworks st;
     uniqueWifiNetworks := v; impressionCount := impressionCount st;
     totalWifiNetworks := totalWifiNetworks st;
     totalScansPerformed := totalScansPerformed st;
     totalReportsGenerated := totalReportsGenerated st;
     currentCycleHashes := currentCycleHashes st;
     previousCycleHashes := previousCycleHashes st;
     lastScanTime := lastScanTime st; scanCounter := scanCounter st;
     reportCounter := reportCounter st;
     systemStartTime := systemStartTime st;
     ephemeralSalt := ephemeralSalt st; scanErrors := scanErrors st;
     combinedBillboardId := combinedBillboardId st;
     currentDateTime := currentDateTime st; currentDate := currentDate st;
     dailyImpressions := dailyImpressions st; gpsLatitude := gpsLatitude st;
     gpsLongitude := gpsLongitude st; gpsFixAcquired := gpsFixAcquired st;
     totalDataSent := totalDataSent st |}.

Definition set_impressionCount (v : Z) (st : State) : State :=
  {| wifiNetworksThisCycle := wifiNetworksThisCycle st;
     repeatedWifiNetworks := repeatedWifiNetworks st;
     uniqueWifiNetworks := uniqueWifiNetworks st; impressionCount := v;
     totalWifiNetworks := totalWifiNetworks st;
     totalScansPerformed := totalScansPerformed st;
     totalReportsGenerated := totalReportsGenerated st;
     currentCycleHashes := currentCycleHashes st;
     previousCycleHashes := previousCycleHashes st;
     lastScanTime := lastScanTime st; scanCounter := scanCounter st;
     reportCounter := reportCounter st;
     systemStartTime := systemStartTime st;
     ephemeralSalt := ephemeralSalt st; scanErrors := scanErrors st;
     combinedBillboardId := combinedBillboardId st;
     currentDateTime := currentDateTime st; currentDate := currentDate st;
     dailyImpressions := dailyImpressions st; gpsLatitude := gpsLatitude st;
     gpsLongitude := gpsLongitude st; gpsFixAcquired := gpsFixAcquired st;
     totalDataSent := totalDataSent st |}.

Definition set_totalWifiNetworks (v : Z) (st : State) : State :=
  {| wifiNetworksThisCycle := wifiNetworksThisCycle st;
     repeatedWifiNetworks := repeatedWifiNetworks st;
     uniqueWifiNetworks := uniqueWifiNetworks st;
     impressionCount := impressionCount st; totalWifiNetworks := v;
     totalScansPerformed := totalScansPerformed st;
     totalReportsGenerated := totalReportsGenerated st;
     currentCycleHashes := currentCycleHashes st;
     previousCycleHashes := previousCycleHashes st;
     lastScanTime := lastScanTime st; scanCounter := scanCounter st;
     reportCounter := reportCounter st;
     systemStartTime := systemStartTime st;
     ephemeralSalt := ephemeralSalt st; scanErrors := scanErrors st;
     combinedBillboardId := combinedBillboardId st;
     currentDateTime := currentDateTime st; currentDate := currentDate st;
     dailyImpressions := dailyImpressions st; gpsLatitude := gpsLatitude st;
     gpsLongitude := gpsLongitude st; gpsFixAcquired := gpsFixAcquired st;
     totalDataSent := totalDataSent st |}.

Definition set_totalScansPerformed (v : Z) (st : State) : State :=
  {| wifiNetworksThisCycle := wifiNetworksThisCycle st;
     repeatedWifiNetworks := repeatedWifiNetworks st;
     uniqueWifiNetworks := uniqueWifiNetworks st;
     impressionCount := impressionCount st;
     totalWifiNetworks := totalWifiNetworks st; totalScansPerformed := v;
     totalReportsGenerated := totalReportsGenerated st;
     currentCycleHashes := currentCycleHashes st;
     previousCycleHashes := previousCycleHashes st;
     lastScanTime := lastScanTime st; scanCounter := scanCounter st;
     reportCounter := reportCounter st;
     systemStartTime := systemStartTime st;
     ephemeralSalt := ephemeralSalt st; scanErrors := scanErrors st;
     combinedBillboardId := combinedBillboardId st;
     currentDateTime := currentDateTime st; currentDate := currentDate st;
     dailyImpressions := dailyImpressions st; gpsLatitude := gpsLatitude st;
     gpsLongitude := gpsLongitude st; gpsFixAcquired := gpsFixAcquired st;
     totalDataSent := totalDataSent st |}.

Definition set_totalReportsGenerated (v : Z) (st : State) : State :=
  {| wifiNetworksThisCycle := wifiNetworksThisCycle st;
     repeatedWifiNetworks := repeatedWifiNetworks st;
     uniqueWifiNetworks := uniqueWifiNetworks st;
     impressionCount := impressionCount st;
     totalWifiNetworks := totalWifiNetworks st;
     totalScansPerformed := totalScansPerformed st;
     totalReportsGenerated := v; currentCycleHashes := currentCycleHashes st;
     previousCycleHashes := previousCycleHashes st;
     lastScanTime := lastScanTime st; scanCounter := scanCounter st;
     reportCounter := reportCounter st;
     systemStartTime := systemStartTime st;
     ephemeralSalt := ephemeralSalt st; scanErrors := scanErrors st;
     combinedBillboardId := combinedBillboardId st;
     currentDateTime := currentDateTime st; currentDate := currentDate st;
     dailyImpressions := dailyImpressions st; gpsLatitude := gpsLatitude st;
     gpsLongitude := gpsLongitude st; gpsFixAcquired := gpsFixAcquired st;
     totalDataSent := totalDataSent st |}.

Definition set_currentCycleHashes (v : gset string) (st : State) : State :=
  {| wifiNetworksThisCycle := wifiNetworksThisCycle st;
     repeatedWifiNetworks := repeatedWifiNetworks st;
     uniqueWifiNetworks := uniqueWifiNetworks st;
     impressionCount := impressionCount st;
     totalWifiNetworks := totalWifiNetworks st;
     totalScansPerformed := totalScansPerformed st;
     totalReportsGenerated := totalReportsGenerated st;
     currentCycleHashes := v; previousCycleHashes := previousCycleHashes st;
     lastScanTime := lastScanTime st; scanCounter := scanCounter st;
     reportCounter := reportCounter st;
     systemStartTime := systemStartTime st;
     ephemeralSalt := ephemeralSalt st; scanErrors := scanErrors st;
     combinedBillboardId := combinedBillboardId st;
     currentDateTime := currentDateTime st; currentDate := currentDate st;
     dailyImpressions := dailyImpressions st; gpsLatitude := gpsLatitude st;
     gpsLongitude := gpsLongitude st; gpsFixAcquired := gpsFixAcquired st;
     totalDataSent := totalDataSent st |}.

Definition set_previousCycleHashes (v : gset string) (st : State) : State :=
  {| wifiNetworksThisCycle := wifiNetworksThisCycle st;
     repeatedWifiNetworks := repeatedWifiNetworks st;
     uniqueWifiNetworks := uniqueWifiNetworks st;
     impressionCount := impressionCount st;
     totalWifiNetworks := totalWifiNetworks st;
     totalScansPerformed := totalScansPerformed st;
     totalReportsGenerated := totalReportsGenerated st;
     currentCycleHashes := currentCycleHashes st; previousCycleHashes := v;
     lastScanTime := lastScanTime st; scanCounter := scanCounter st;
     reportCounter := reportCounter st;
     systemStartTime := systemStartTime st;
     ephemeralSalt := ephemeralSalt st; scanErrors := scanErrors st;
     combinedBillboardId := combinedBillboardId st;
     currentDateTime := currentDateTime st; currentDate := currentDate st;
     dailyImpressions := dailyImpressions st; gpsLatitude := gpsLatitude st;
     gpsLongitude := gpsLongitude st; gpsFixAcquired := gpsFixAcquired st;
     totalDataSent := totalDataSent st |}.

Definition set_lastScanTime (v : Z) (st : State) : State :=
  {| wifiNetworksThisCycle := wifiNetworksThisCycle st;
     repeatedWifiNetworks := repeatedWifiNetworks st;
     uniqueWifiNetworks := uniqueWifiNetworks st;
     impressionCount := impressionCount st;
     totalWifiNetworks := totalWifiNetworks st;
     totalScansPerformed := totalScansPerformed st;
     totalReportsGenerated := totalReportsGenerated st;
     currentCycleHashes := currentCycleHashes st;
     previousCycleHashes := previousCycleHashes st; lastScanTime := v;
     scanCounter := scanCounter st; reportCounter := reportCounter st;
     systemStartTime := systemStartTime st;
     ephemeralSalt := ephemeralSalt st; scanErrors := scanErrors st;
     combinedBillboardId := combinedBillboardId st;
     currentDateTime := currentDateTime st; currentDate := currentDate st;
     dailyImpressions := dailyImpressions st; gpsLatitude := gpsLatitude st;
     gpsLongitude := gpsLongitude st; gpsFixAcquired := gpsFixAcquired st;
     totalDataSent := totalDataSent st |}.

Definition set_scanCounter (v : Z) (st : State) : State :=
  {| wifiNetworksThisCycle := wifiNetworksThisCycle st;
     repeatedWifiNetworks := repeatedWifiNetworks st;
     uniqueWifiNetworks := uniqueWifiNetworks st;
     impressionCount := impressionCount st;
     totalWifiNetworks := totalWifiNetworks st;
     totalScansPerformed := totalScansPerformed st;
     totalReportsGenerated := totalReportsGenerated st;
     currentCycleHashes := currentCycleHashes st;
     previousCycleHashes := previousCycleHashes st;
     lastScanTime := lastScanTime st; scanCounter := v;
     reportCounter := reportCounter st;
     systemStartTime := systemStartTime st;
     ephemeralSalt := ephemeralSalt st; scanErrors := scanErrors st;
     combinedBillboardId := combinedBillboardId st;
     currentDateTime := currentDateTime st; currentDate := currentDate st;
     dailyImpressions := dailyImpressions st; gpsLatitude := gpsLatitude st;
     gpsLongitude := gpsLongitude st; gpsFixAcquired := gpsFixAcquired st;
     totalDataSent := totalDataSent st |}.

Definition set_reportCounter (v : Z) (st : State) : State :=
  {| wifiNetworksThisCycle := wifiNetworksThisCycle st;
     repeatedWifiNetworks := repeatedWifiNetworks st;
     uniqueWifiNetworks := uniqueWifiNetworks st;
     impressionCount := impressionCount st;
     totalWifiNetworks := totalWifiNetworks st;
     totalScansPerformed := totalScansPerformed st;
     totalReportsGenerated := totalReportsGenerated st;
     currentCycleHashes := currentCycleHashes st;
     previousCycleHashes := previousCycleHashes st;
     lastScanTime := lastScanTime st; scanCounter := scanCounter st;
     reportCounter := v; systemStartTime := systemStartTime st;
     ephemeralSalt := ephemeralSalt st; scanErrors := scanErrors st;
     combinedBillboardId := combinedBillboardId st;
     currentDateTime := currentDateTime st; currentDate := currentDate st;
     dailyImpressions := dailyImpressions st; gpsLatitude := gpsLatitude st;
     gpsLongitude := gpsLongitude st; gpsFixAcquired := gpsFixAcquired st;
     totalDataSent := totalDataSent st |}.

Definition set_scanErrors (v : Z) (st : State) : State :=
  {| wifiNetworksThisCycle := wifiNetworksThisCycle st;
     repeatedWifiNetworks := repeatedWifiNetworks st;
     uniqueWifiNetworks := uniqueWifiNetworks st;
     impressionCount := impressionCount st;
     totalWifiNetworks := totalWifiNetworks st;
     totalScansPerformed := totalScansPerformed st;
     totalReportsGenerated := totalReportsGenerated st;
     currentCycleHashes := currentCycleHashes st;
     previousCycleHashes := previousCycleHashes st;
     lastScanTime := lastScanTime st; scanCounter := scanCounter st;
     reportCounter := reportCounter st;
     systemStartTime := systemStartTime st;
     ephemeralSalt := ephemeralSalt st; scanErrors := v;
     combinedBillboardId := combinedBillboardId st;
     currentDateTime := currentDateTime st; currentDate := currentDate st;
     dailyImpressions := dailyImpressions st; gpsLatitude := gpsLatitude st;
     gpsLongitude := gpsLongitude st; gpsFixAcquired := gpsFixAcquired st;
     totalDataSent := totalDataSent st |}.

Definition set_currentDateTime (v : string) (st : State) : State :=
  {| wifiNetworksThisCycle := wifiNetworksThisCycle st;
     repeatedWifiNetworks := repeatedWifiNetworks st;
     uniqueWifiNetworks := uniqueWifiNetworks st;
     impressionCount := impressionCount st;
     totalWifiNetworks := totalWifiNetworks st;
     totalScansPerformed := totalScansPerformed st;
     totalReportsGenerated := totalReportsGenerated st;
     currentCycleHashes := currentCycleHashes st;
     previousCycleHashes := previousCycleHashes st;
     lastScanTime := lastScanTime st; scanCounter := scanCounter st;
     reportCounter := reportCounter st;
     systemStartTime := systemStartTime st;
     ephemeralSalt := ephemeralSalt st; scanErrors := scanErrors st;
     combinedBillboardId := combinedBillboardId st; currentDateTime := v;
     currentDate := currentDate st; dailyImpressions := dailyImpressions st;
     gpsLatitude := gpsLatitude st; gpsLongitude := gpsLongitude st;
     gpsFixAcquired := gpsFixAcquired st;
     totalDataSent := totalDataSent st |}.

Definition set_currentDate (v : string) (st : State) : State :=
  {| wifiNetworksThisCycle := wifiNetworksThisCycle st;
     repeatedWifiNetworks := repeatedWifiNetworks st;
     uniqueWifiNetworks := uniqueWifiNetworks st;
     impressionCount := impressionCount st;
     totalWifiNetworks := totalWifiNetworks st;
     totalScansPerformed := totalScansPerformed st;
     totalReportsGenerated := totalReportsGenerated st;
     currentCycleHashes := currentCycleHashes st;
     previousCycleHashes := previousCycleHashes st;
     lastScanTime := lastScanTime st; scanCounter := scanCounter st;
     reportCounter := reportCounter st;
     systemStartTime := systemStartTime st;
     ephemeralSalt := ephemeralSalt st; scanErrors := scanErrors st;
     combinedBillboardId := combinedBillboardId st;
     currentDateTime := currentDateTime st; currentDate := v;
     dailyImpressions := dailyImpressions st; gpsLatitude := gpsLatitude st;
     gpsLongitude := gpsLongitude st; gpsFixAcquired := gpsFixAcquired st;
     totalDataSent := totalDataSent st |}.

Definition set_dailyImpressions (v : Z) (st : State) : State :=
  {| wifiNetworksThisCycle := wifiNetworksThisCycle st;
     repeatedWifiNetworks := repeatedWifiNetworks st;
     uniqueWifiNetworks := uniqueWifiNetworks st;
     impressionCount := impressionCount st;
     totalWifiNetworks := totalWifiNetworks st;
     totalScansPerformed := totalScansPerformed st;
     totalReportsGenerated := totalReportsGenerated st;
     currentCycleHashes := currentCycleHashes st;
     previousCycleHashes := previousCycleHashes st;
     lastScanTime := lastScanTime st; scanCounter := scanCounter st;
     reportCounter := reportCounter st;
     systemStartTime := systemStartTime st;
     ephemeralSalt := ephemeralSalt st; scanErrors := scanErrors st;
     combinedBillboardId := combinedBillboardId st;
     currentDateTime := currentDateTime st; currentDate := currentDate st;
     dailyImpressions := v; gpsLatitude := gpsLatitude st;
     gpsLongitude := gpsLongitude st; gpsFixAcquired := gpsFixAcquired st;
     totalDataSent := totalDataSent st |}.

Definition set_gpsLatitude (v : string) (st : State) : State :=
  {| wifiNetworksThisCycle := wifiNetworksThisCycle st;
     repeatedWifiNetworks := repeatedWifiNetworks st;
     uniqueWifiNetworks := uniqueWifiNetworks st;
     impressionCount := impressionCount st;
     totalWifiNetworks := totalWifiNetworks st;
     totalScansPerformed := totalScansPerformed st;
     totalReportsGenerated := totalReportsGenerated st;
     currentCycleHashes := currentCycleHashes st;
     previousCycleHashes := previousCycleHashes st;
     lastScanTime := lastScanTime st; scanCounter := scanCounter st;
     reportCounter := reportCounter st;
     systemStartTime := systemStartTime st;
     ephemeralSalt := ephemeralSalt st; scanErrors := scanErrors st;
     combinedBillboardId := combinedBillboardId st;
     currentDateTime := currentDateTime st; currentDate := currentDate st;
     dailyImpressions := dailyImpressions st; gpsLatitude := v;
     gpsLongitude := gpsLongitude st; gpsFixAcquired := gpsFixAcquired st;
     totalDataSent := totalDataSent st |}.

Definition set_gpsLongitude (v : string) (st : State) : State :=
  {| wifiNetworksThisCycle := wifiNetworksThisCycle st;
     repeatedWifiNetworks := repeatedWifiNetworks st;
     uniqueWifiNetworks := uniqueWifiNetworks st;
     impressionCount := impressionCount st;
     totalWifiNetworks := totalWifiNetworks st;
     totalScansPerformed := totalScansPerformed st;
     totalReportsGenerated := totalReportsGenerated st;
     currentCycleHashes := currentCycleHashes st;
     previousCycleHashes := previousCycleHashes st;
     lastScanTime := lastScanTime st; scanCounter := scanCounter st;
     reportCounter := reportCounter st;
     systemStartTime := systemStartTime st;
     ephemeralSalt := ephemeralSalt st; scanErrors := scanErrors st;
     combinedBillboardId := combinedBillboardId st;
     currentDateTime := currentDateTime st; currentDate := currentDate st;
     dailyImpressions := dailyImpressions st; gpsLatitude := gpsLatitude st;
     gpsLongitude := v; gpsFixAcquired := gpsFixAcquired st;
     totalDataSent := totalDataSent st |}.

Definition set_gpsFixAcquired (v : bool) (st : State) : State :=
  {| wifiNetworksThisCycle := wifiNetworksThisCycle st;
     repeatedWifiNetworks := repeatedWifiNetworks st;
     uniqueWifiNetworks := uniqueWifiNetworks st;
     impressionCount := impressionCount st;
     totalWifiNetworks := totalWifiNetworks st;
     totalScansPerformed := totalScansPerformed st;
     totalReportsGenerated := totalReportsGenerated st;
     currentCycleHashes := currentCycleHashes st;
     previousCycleHashes := previousCycleHashes st;
     lastScanTime := lastScanTime st; scanCounter := scanCounter st;
     reportCounter := reportCounter st;
     systemStartTime := systemStartTime st;
     ephemeralSalt := ephemeralSalt st; scanErrors := scanErrors st;
     combinedBillboardId := combinedBillboardId st;
     currentDateTime := currentDateTime st; currentDate := currentDate st;
     dailyImpressions := dailyImpressions st; gpsLatitude := gpsLatitude st;
     gpsLongitude := gpsLongitude st; gpsFixAcquired := v;
     totalDataSent := totalDataSent st |}.

Definition set_totalDataSent (v : Z) (st : State) : State :=
  {| wifiNetworksThisCycle := wifiNetworksThisCycle st;
     repeatedWifiNetworks := repeatedWifiNetworks st;
     uniqueWifiNetworks := uniqueWifiNetworks st;
     impressionCount := impressionCount st;
     totalWifiNetworks := totalWifiNetworks st;
     totalScansPerformed := totalScansPerformed st;
     totalReportsGenerated := totalReportsGenerated st;
     currentCycleHashes := currentCycleHashes st;
     previousCycleHashes := previousCycleHashes st;
     lastScanTime := lastScanTime st; scanCounter := scanCounter st;
     reportCounter := reportCounter st;
     systemStartTime := systemStartTime st;
     ephemeralSalt := ephemeralSalt st; scanErrors := scanErrors st;
     combinedBillboardId := combinedBillboardId st;
     currentDateTime := currentDateTime st; currentDate := currentDate st;
     dailyImpressions := dailyImpressions st; gpsLatitude := gpsLatitude st;
     gpsLongitude := gpsLongitude st; gpsFixAcquired := gpsFixAcquired st;
     totalDataSent := v |}.

Definition set_systemStartTime (v : Z) (st : State) : State :=
  {| wifiNetworksThisCycle := wifiNetworksThisCycle st;
     repeatedWifiNetworks := repeatedWifiNetworks st;
     uniqueWifiNetworks := uniqueWifiNetworks st;
     impressionCount := impressionCount st;
     totalWifiNetworks := totalWifiNetworks st;
     totalScansPerformed := totalScansPerformed st;
     totalReportsGenerated := totalReportsGenerated st;
     currentCycleHashes := currentCycleHashes st;
     previousCycleHashes := previousCycleHashes st;
     lastScanTime := lastScanTime st; scanCounter := scanCounter st;
     reportCounter := reportCounter st; systemStartTime := v;
     ephemeralSalt := ephemeralSalt st; scanErrors := scanErrors st;
     combinedBillboardId := combinedBillboardId st;
     currentDateTime := currentDateTime st; currentDate := currentDate st;
     dailyImpressions := dailyImpressions st; gpsLatitude := gpsLatitude st;
     gpsLongitude := gpsLongitude st; gpsFixAcquired := gpsFixAcquired st;
     totalDataSent := totalDataSent st |}.

Definition set_ephemeralSalt (v : Z) (st : State) : State :=
  {| wifiNetworksThisCycle := wifiNetworksThisCycle st;
     repeatedWifiNetworks := repeatedWifiNetworks st;
     uniqueWifiNetworks := uniqueWifiNetworks st;
     impressionCount := impressionCount st;
     totalWifiNetworks := totalWifiNetworks st;
     totalScansPerformed := totalScansPerformed st;
     totalReportsGenerated := totalReportsGenerated st;
     currentCycleHashes := currentCycleHashes st;
     previousCycleHashes := previousCycleHashes st;
     lastScanTime := lastScanTime st; scanCounter := scanCounter st;
     reportCounter := reportCounter st;
     systemStartTime := systemStartTime st; ephemeralSalt := v;
     scanErrors := scanErrors st;
     combinedBillboardId := combinedBillboardId st;
     currentDateTime := currentDateTime st; currentDate := currentDate st;
     dailyImpressions := dailyImpressions st; gpsLatitude := gpsLatitude st;
     gpsLongitude := gpsLongitude st; gpsFixAcquired := gpsFixAcquired st;
     totalDataSent := totalDataSent st |}.

Definition set_combinedBillboardId (v : string) (st : State) : State :=
  {| wifiNetworksThisCycle := wifiNetworksThisCycle st;
     repeatedWifiNetworks := repeatedWifiNetworks st;
     uniqueWifiNetworks := uniqueWifiNetworks st;
     impressionCount := impressionCount st;
     totalWifiNetworks := totalWifiNetworks st;
     totalScansPerformed := totalScansPerformed st;
     totalReportsGenerated := totalReportsGenerated st;
     currentCycleHashes := currentCycleHashes st;
     previousCycleHashes := previousCycleHashes st;
     lastScanTime := lastScanTime st; scanCounter := scanCounter st;
     reportCounter := reportCounter st;
     systemStartTime := systemStartTime st;
     ephemeralSalt := ephemeralSalt st; scanErrors := scanErrors st;
     combinedBillboardId := v; currentDateTime := currentDateTime st;
     currentDate := currentDate st; dailyImpressions := dailyImpressions st;
     gpsLatitude := gpsLatitude st; gpsLongitude := gpsLongitude st;
     gpsFixAcquired := gpsFixAcquired st;
     totalDataSent := totalDataSent st |}.

(** The globals as their initialisers leave them, before [setup]. *)
Definition initialGlobals : State :=
  {| wifiNetworksThisCycle := 0; repeatedWifiNetworks := 0; uniqueWifiNetworks := 0;
     impressionCount := 0; totalWifiNetworks := 0; totalScansPerformed := 0;
     totalReportsGenerated := 0; currentCycleHashes := ∅; previousCycleHashes := ∅;
     lastScanTime := 0; scanCounter := 0; reportCounter := 0; systemStartTime := 0;
     ephemeralSalt := 0; scanErrors := 0; combinedBillboardId := EmptyString;
     currentDateTime := EmptyString; currentDate := EmptyString; dailyImpressions := 0;
     gpsLatitude := "0.0"; gpsLongitude := "0.0"; gpsFixAcquired := false;
     totalDataSent := 0 |}.

(** ** Configuration *)

Definition SCAN_INTERVAL_MS : Z := 5000.
Definition SCANS_PER_UPLOAD : Z := 10.
Definition MAX_NETWORKS_PER_SCAN : Z := 20.
Definition RESTART_AFTER_MS : Z := 43200000.

(** ** Arduino strings *)

(** The double-quote character of the JSON texts. *)
Definition dq : string := String (ascii_of_nat 34) EmptyString.

(** [s.indexOf(c)]: position of the first [c], or [-1]. *)
Fixpoint indexOf (c : ascii) (s : string) : Z :=
  match s with
  | EmptyString => -1
  | String a rest =>
      if Ascii.eqb a c then 0
      else let r := indexOf c rest in if r <? 0 then -1 else r + 1
  end.

(** [String(n)] for an unsigned number: its decimal digits. *)
Definition String_of_uint32 (n : Z) : string :=
  NilEmpty.string_of_uint (N.to_uint (Z.to_N n)).

Definition strlen (s : string) : Z := Z.of_nat (String.length s).

(** [extractDateFromDateTime]: the text before the first space. *)
Definition extractDateFromDateTime (dateTime : string) : string :=
  let spaceIndex := indexOf " " dateTime in
  if spaceIndex >? 0 then substring 0 (Z.to_nat spaceIndex) dateTime
  else "Unknown".

(** ** The collaborators, as inputs *)

(** What the radio driver answers during one [performWiFiScan]:
    [WiFi.scanNetworks()] and, for each index, [WiFi.BSSID(i)]. *)
Record ScanResult : Type := mkScan {
  networksFound : Z;
  BSSID : nat -> list byte
}.

(** A scan that found the access points of [aps], in that order. *)
Definition scanOf (aps : list (list byte)) : ScanResult :=
  mkScan (Z.of_nat (length aps)) (fun i => nth i aps []).

(** What the collaborators answer during one [reportAnalytics]. *)
Record ReportEnv : Type := mkReportEnv {
  (* updateGPSLocation(): the new latitude and longitude on success *)
  gpsRefresh : option (string * string);
  (* app.ready() *)
  appReady : bool;
  (* getTimeFromSIM7600() *)
  simTime : string;
  (* Database.get<int>(aClient, path) and aClient.lastError().code() after it *)
  dbValue : string -> Z;
  dbErrorCode : string -> Z
}.

(** The calls made on the remote database. *)
Inductive RemoteCall : Type :=
  | DbGet (path : string)
  | DbSet (path json task : string).

(** ** [performWiFiScan] *)

(** The state threaded through the [for] loop: the globals and the two
    local counters. *)
Record ScanLoop : Type := mkScanLoop {
  globals : State;
  uniqueInThisScan : Z;
  repeatedInThisScan : Z
}.

(** One iteration of the [for] loop, for a fingerprint already computed. *)
Definition classifyHash (hashedBSSID : string) (acc : ScanLoop) : ScanLoop :=
  let st := globals acc in
  if decide (hashedBSSID ∈ currentCycleHashes st) then
    mkScanLoop st (uniqueInThisScan acc) (repeatedInThisScan acc + 1)
  else
    let st := set_currentCycleHashes ({[hashedBSSID]} ∪ currentCycleHashes st) st in
    let st :=
      if decide (hashedBSSID ∈ previousCycleHashes st) then st
      else set_totalWifiNetworks (incr32 (totalWifiNetworks st)) st in
    mkScanLoop st (uniqueInThisScan acc + 1) (repeatedInThisScan acc).

(** One iteration of the [for] loop at index [i]. *)
Definition scanIteration (sc : ScanResult) (acc : ScanLoop) (i : nat) : ScanLoop :=
  let bssid := BSSID sc i in
  let hashedBSSID := hashMAC (ephemeralSalt (globals acc)) bssid in
  classifyHash hashedBSSID acc.

(** The loop variables after the iterations [0 .. k-1], entered with the
    globals [st] and both local counters at zero. *)
Definition scanLoopAfter (sc : ScanResult) (st : State) (k : nat) : ScanLoop :=
  fold_left (scanIteration sc) (seq 0 k) (mkScanLoop st 0 0).

Definition processCountOf (found : Z) : Z :=
  if found >? MAX_NETWORKS_PER_SCAN then MAX_NETWORKS_PER_SCAN else found.

Definition performWiFiScan (sc : ScanResult) (st : State) : State :=
  let found := networksFound sc in
  let st := set_totalScansPerformed (incr32 (totalScansPerformed st)) st in
  if found <? 0 then
    set_scanErrors (incr32 (scanErrors st)) st
  else if found =? 0 then
    st
  else
    let st := set_impressionCount (wrap32 (impressionCount st + found)) st in
    let processCount := processCountOf found in
    let acc := scanLoopAfter sc st (Z.to_nat processCount) in
    let st := globals acc in
    let st := set_wifiNetworksThisCycle (wrap32 (wifiNetworksThisCycle st + found)) st in
    let st := set_uniqueWifiNetworks (wrap32 (uniqueWifiNetworks st + uniqueInThisScan acc)) st in
    let st := set_repeatedWifiNetworks (wrap32 (repeatedWifiNetworks st + repeatedInThisScan acc)) st in
    st.

(** ** [reportAnalytics] *)

Definition buildDailyDataJSON (st : State) : string :=
  "{" +:+ dq +:+ "billboard_id" +:+ dq +:+ ":" +:+ dq +:+ combinedBillboardId st +:+ dq +:+ ","
      +:+ dq +:+ "date" +:+ dq +:+ ":" +:+ dq +:+ currentDate st +:+ dq +:+ ","
      +:+ dq +:+ "daily_impressions" +:+ dq +:+ ":" +:+ String_of_uint32 (dailyImpressions st) +:+ ","
      +:+ dq +:+ "last_updated" +:+ dq +:+ ":" +:+ dq +:+ currentDateTime st +:+ dq
      +:+ "}".

Definition locationJSON (st : State) : string :=
  "{" +:+ dq +:+ "Lat" +:+ dq +:+ ":" +:+ dq +:+ gpsLatitude st +:+ dq +:+ ","
      +:+ dq +:+ "Long" +:+ dq +:+ ":" +:+ dq +:+ gpsLongitude st +:+ dq +:+ "}".

Definition impressionsPathOf (st : State) : string :=
  "/devices/" +:+ combinedBillboardId st +:+ "/data/" +:+ currentDate st +:+ "/daily_impressions".

Definition dailyPathOf (st : State) : string :=
  "/devices/" +:+ combinedBillboardId st +:+ "/data/" +:+ currentDate st.

Definition locationPathOf (st : State) : string :=
  "/devices/" +:+ combinedBillboardId st +:+ "/device_info/Location".

(** [updateGPSLocation]: on success the coordinates are replaced. *)
Definition updateGPSLocation (env : ReportEnv) (st : State) : State * bool :=
  match gpsRefresh env with
  | Some (lat, lon) => (set_gpsLongitude lon (set_gpsLatitude lat st), true)
  | None => (st, false)
  end.

(** The branch taken when the clock answered: the day-change test. *)
Definition dayChange (env : ReportEnv) (newDate : string) (st : State)
  : State * list RemoteCall :=
  if negb (String.eqb newDate (currentDate st)) && (strlen (currentDate st) >? 0) then
    let st := set_currentDate newDate st in
    let impressionsPath := impressionsPathOf st in
    let existingImpressions := dbValue env impressionsPath in
    if (dbErrorCode env impressionsPath =? 0) && (existingImpressions >? 0) then
      (set_dailyImpressions (wrap32 existingImpressions) st, [DbGet impressionsPath])
    else
      (set_dailyImpressions 0 st, [DbGet impressionsPath])
  else if strlen (currentDate st) =? 0 then
    (set_currentDate newDate st, [])
  else
    (st, []).

(** The upload, made only with a usable stored date. *)
Definition uploadDaily (st : State) : State * list RemoteCall :=
  if (strlen (currentDate st) >? 0) && negb (String.eqb (currentDate st) "Unknown") then
    let json := buildDailyDataJSON st in
    let path := dailyPathOf st in
    let locationPath := locationPathOf st in
    let locationJson := locationJSON st in
    (set_totalDataSent
       (wrap32 (totalDataSent st + (strlen json + strlen locationJson + 400))) st,
     [DbSet path json "dailyDataTask";
      DbSet locationPath locationJson "locationUpdateTask"])
  else
    (st, []).

Definition reportAnalytics (env : ReportEnv) (st : State) : State * list RemoteCall :=
  let st := set_reportCounter (incr32 (reportCounter st)) st in
  let st := set_totalReportsGenerated (incr32 (totalReportsGenerated st)) st in
  let st := set_dailyImpressions (wrap32 (dailyImpressions st + impressionCount st)) st in
  let st :=
    match updateGPSLocation env st with
    | (st, true) => set_gpsFixAcquired true st
    | (st, false) => st
    end in
  if appReady env then
    let st := set_currentDateTime (simTime env) st in
    let newDate := extractDateFromDateTime (currentDateTime st) in
    if negb (String.eqb newDate "Unknown")
       && negb (String.eqb (currentDateTime st) "Time unavailable") then
      let '(st, fetched) := dayChange env newDate st in
      let '(st, published) := uploadDaily st in
      (st, fetched ++ published)
    else
      (st, [])
  else
    (st, []).

(** ** [setup], the resume of the daily tally

    The block under [// Load existing daily impressions from Firebase],
    which [setup] runs once the database client is ready. *)
Definition loadExistingImpressions (env : ReportEnv) (st : State)
  : State * list RemoteCall :=
  let impressionsPath := impressionsPathOf st in
  let existingImpressions := dbValue env impressionsPath in
  if (dbErrorCode env impressionsPath =? 0) && (existingImpressions >? 0) then
    (set_dailyImpressions (wrap32 existingImpressions) st, [DbGet impressionsPath])
  else
    (st, [DbGet impressionsPath]).

(** ** [loop] *)

(** The block under [// Reset cycle tracking]. *)
Definition resetCycleTracking (st : State) : State :=
  let st := set_previousCycleHashes (currentCycleHashes st) st in
  let st := set_currentCycleHashes ∅ st in
  let st := set_wifiNetworksThisCycle 0 st in
  let st := set_repeatedWifiNetworks 0 st in
  let st := set_uniqueWifiNetworks 0 st in
  let st := set_impressionCount 0 st in
  let st := set_scanCounter 0 st in
  st.

(** What one pass of [loop] reads from outside: [millis()], and the
    answers to use should this pass scan and report. *)
Record LoopInput : Type := mkLoopInput {
  currentTime : Z;
  scanned : ScanResult;
  reportEnv : ReportEnv
}.

(** The body of [if (scanCounter >= SCANS_PER_UPLOAD)]. *)
Definition endOfCycle (env : ReportEnv) (st : State) : State * list RemoteCall :=
  let '(st, calls) := reportAnalytics env st in
  (resetCycleTracking st, calls).

(** One pass of [loop].  [None] is [ESP.restart()]: the process ends and
    every global is lost. *)
Definition loop (inp : LoopInput) (st : State) : option (State * list RemoteCall) :=
  if wrap32 (currentTime inp - systemStartTime st) >=? RESTART_AFTER_MS then
    None
  else if wrap32 (currentTime inp - lastScanTime st) >=? SCAN_INTERVAL_MS then
    let st := performWiFiScan (scanned inp) st in
    let st := set_lastScanTime (currentTime inp) st in
    let st := set_scanCounter (incr32 (scanCounter st)) st in
    if scanCounter st >=? SCANS_PER_UPLOAD then
      Some (endOfCycle (reportEnv inp) st)
    else
      Some (st, [])
  else
    Some (st, []).

(** States reachable from one another by passes of [loop] that did not
    restart the device. *)
Inductive reaches : State -> State -> Prop :=
  | reaches_refl st : reaches st st
  | reaches_step st inp st' calls st'' :
      loop inp st = Some (st', calls) -> reaches st' st'' -> reaches st st''.

(** ** Auxiliary views of the scan loop *)

(** The globals with which [performWiFiScan] enters its [for] loop when
    the scan found something. *)
Definition loopEntry (sc : ScanResult) (st : State) : State :=
  set_impressionCount (wrap32 (impressionCount st + networksFound sc))
    (set_totalScansPerformed (incr32 (totalScansPerformed st)) st).


(** The two globals the [for] loop writes, set together. *)
Definition withDedup (c : gset string) (t : Z) (st : State) : State :=
  set_totalWifiNetworks t (set_currentCycleHashes c st).

(** The fingerprints of the first [k] results of a scan. *)
Definition scanHashes (sc : ScanResult) (salt : Z) (k : nat) : list string :=
  map (fun i => hashMAC salt (BSSID sc i)) (seq 0 k).

(** The loop run over fingerprints already computed. *)
Definition classifyAll (hs : list string) (acc : ScanLoop) : ScanLoop :=
  fold_left (fun a h => classifyHash h a) hs acc.

(** The fingerprints one [performWiFiScan] classifies: those of the
    first [processCount] results, none when the scan failed or was empty. *)
Definition processed (salt : Z) (sc : ScanResult) : list string :=
  scanHashes sc salt (Z.to_nat (processCountOf (networksFound sc))).

Definition processedAll (salt : Z) (scs : list ScanResult) : list string :=
  concat (map (processed salt) scs).

(** Several scans in a row, within one cycle. *)
Definition scanAll (scs : list ScanResult) (st : State) : State :=
  fold_left (fun s sc => performWiFiScan sc s) scs st.

(** The test under which [reportAnalytics] reaches the day-change branch:
    the database client is ready, the clock answered with a usable date,
    and that date differs from a stored date that is not empty. *)
Definition dayChanged (env : ReportEnv) (st : State) : bool :=
  let newDate := extractDateFromDateTime (simTime env) in
  appReady env
  && (negb (String.eqb newDate "Unknown")
      && negb (String.eqb (simTime env) "Time unavailable"))
  && (negb (String.eqb newDate (currentDate st)) && (strlen (currentDate st) >? 0)).

(** The path read on a day change to [newDate]. *)
Definition newDayPath (st : State) (newDate : string) : string :=
  "/devices/" +:+ combinedBillboardId st +:+ "/data/" +:+ newDate +:+ "/daily_impressions".

(** The globals of a pass of [loop] that scanned, when it tests whether
    the cycle is over. *)
Definition afterScan (inp : LoopInput) (st : State) : State :=
  let st := performWiFiScan (scanned inp) st in
  let st := set_lastScanTime (currentTime inp) st in
  set_scanCounter (incr32 (scanCounter st)) st.

(** Passes of [loop] in a row; [None] once the device restarted. *)
Fixpoint runLoop (inps : list LoopInput) (st : State) : option State :=
  match inps with
  | [] => Some st
  | inp :: rest =>
      match loop inp st with
      | Some (st', _) => runLoop rest st'
      | None => None
      end
  end.

(** The globals that counting and de-duplication own. *)
Definition sameCounting (st st' : State) : Prop :=
  wifiNetworksThisCycle st' = wifiNetworksThisCycle st
  /\ repeatedWifiNetworks st' = repeatedWifiNetworks st
  /\ uniqueWifiNetworks st' = uniqueWifiNetworks st
  /\ impressionCount st' = impressionCount st
  /\ totalWifiNetworks st' = totalWifiNetworks st
  /\ totalScansPerformed st' = totalScansPerformed st
  /\ currentCycleHashes st' = currentCycleHashes st
  /\ previousCycleHashes st' = previousCycleHashes st
  /\ scanCounter st' = scanCounter st
  /\ scanErrors st' = scanErrors st.

(** ** Sample inputs *)

Definition macA : list byte := [x00; x11; x22; x33; x44; x55].
Definition macB : list byte := [xde; xad; xbe; xef; x00; x01].

Definition bootedGlobals : State :=
  set_currentDate "2025-12-02"
    (set_currentDateTime "2025-12-02 10:30:45 UTC"
       (set_combinedBillboardId "BB01_A1B2C3D4E5F6"
          (set_systemStartTime 2000 (set_ephemeralSalt 0x1234abcd initialGlobals)))).

Definition quietEnv : ReportEnv :=
  mkReportEnv None true "2025-12-02 10:31:40 UTC" (fun _ => 0) (fun _ => 0).

Definition samplePass : LoopInput :=
  mkLoopInput 7000 (scanOf [macA; macA; macB]) quietEnv.

Definition afterSamplePass : State :=
  match loop samplePass bootedGlobals with
  | Some (st, _) => st
  | None => bootedGlobals
  end.

Definition sampleScan : ScanResult := scanOf [macA; macA; macB].

(** The globals at the start of the cycle that follows [afterSamplePass]:
    both sample fingerprints are in the previous generation. *)
Definition nextCycleGlobals : State := resetCycleTracking afterSamplePass.

Definition hashA : string := hashMAC (ephemeralSalt afterSamplePass) macA.

Definition onlyB : list ScanResult := [scanOf [macB]].

(** A failed scan, as the driver reports it. *)
Definition failedScan : ScanResult := mkScan (-2) (fun _ => []).

(** A scan that found the same access point twenty-one times. *)
Definition crowdedScan : ScanResult := scanOf (repeat macA 21).

(** The same, but for a last entry beyond the cap. *)
Definition crowdedScan' : ScanResult := scanOf (repeat macA 20 ++ [macB]).

(** The clock has moved to the next day; the remote store has 42 for it. *)
Definition nextDayEnv : ReportEnv :=
  mkReportEnv None true "2025-12-03 00:00:12 UTC" (fun _ => 42) (fun _ => 0).

(** Nine scans of a cycle done, each of [A, A, B], five seconds apart. *)
Definition ninePasses : State :=
  match runLoop (map (fun t => mkLoopInput t sampleScan quietEnv)
                     [7000; 12000; 17000; 22000; 27000; 32000; 37000; 42000; 47000])
                bootedGlobals with
  | Some st => st
  | None => bootedGlobals
  end.

(** The tenth pass, which ends the cycle. *)
Definition tenthPass : LoopInput := mkLoopInput 52000 sampleScan quietEnv.

Definition afterTenPasses : State := (endOfCycle quietEnv (afterScan tenthPass ninePasses)).1.

Definition tenthPassCalls : list RemoteCall :=
  (endOfCycle quietEnv (afterScan tenthPass ninePasses)).2.

(** The same clock and store, with the database client not ready. *)
Definition offlineNextDayEnv : ReportEnv :=
  mkReportEnv None false "2025-12-03 00:00:12 UTC" (fun _ => 42) (fun _ => 0).

Definition unavailableEnv : ReportEnv :=
  mkReportEnv None true "Time unavailable" (fun _ => 0) (fun _ => 0).

(** ** More of the Arduino [String]

    [indexOf] from a position, [substring] between two positions and
    membership of a character, as the Arduino core defines them. *)

(** The character [c] occurs in [s]. *)
Definition occurs (c : ascii) (s : string) : Prop := In c (list_ascii_of_string s).

(** [s.indexOf(c, fromIndex)]: [-1] when [fromIndex] is at or past the
    end, else the position of the first [c] at or after [fromIndex]. *)
Definition indexOfFrom (c : ascii) (s : string) (fromIndex : Z) : Z :=
  if (fromIndex <? 0) || (fromIndex >=? strlen s) then -1
  else
    let r := indexOf c (substring (Z.to_nat fromIndex) (String.length s) s) in
    if r <? 0 then -1 else fromIndex + r.

(** [s.substring(left, right)]: the characters from [left] up to, not
    including, [right]; the bounds are swapped when out of order and
    clipped to the length. *)
Definition String_substring (s : string) (left right : nat) : string :=
  if (right <? left)%nat then substring right (left - right) s
  else substring left (right - left) s.

(** ** [getTimeFromSIM7600] *)

(** The text built from the quoted part of a [+CCLK] answer:
    [yy/MM/dd,hh:mm:ss+zz] becomes [20yy-MM-dd hh:mm:ss UTC]. *)
Definition formatClock (timeStr : string) : string :=
  let year := "20" +:+ String_substring timeStr 0 2 in
  let month := String_substring timeStr 3 5 in
  let day := String_substring timeStr 6 8 in
  let time := String_substring timeStr 9 17 in
  year +:+ "-" +:+ month +:+ "-" +:+ day +:+ " " +:+ time +:+ " UTC".

(** One attempt, on the text read from the modem: the part between the
    first two double quotes, if it has at least 17 characters. *)
Definition parseClock (response : string) : option string :=
  let startPos := indexOf (ascii_of_nat 34) response + 1 in
  let endPos := indexOfFrom (ascii_of_nat 34) response startPos in
  if (startPos >? 0) && (endPos >? startPos) then
    let timeStr := String_substring response (Z.to_nat startPos) (Z.to_nat endPos) in
    if strlen timeStr >=? 17 then Some (formatClock timeStr) else None
  else None.

(** The attempts [attempt], [attempt + 1], ... while [remaining] lasts;
    [responses n] is what the modem answered to attempt [n] (empty when
    nothing arrived in time). *)
Fixpoint clockAttempts (responses : nat -> string) (attempt remaining : nat) : string :=
  match remaining with
  | O => "Time unavailable"
  | S remaining' =>
      match parseClock (responses attempt) with
      | Some formattedTime => formattedTime
      | None => clockAttempts responses (S attempt) remaining'
      end
  end.

Definition getTimeFromSIM7600 (responses : nat -> string) : string :=
  clockAttempts responses 0 3.

(** ** More sample inputs *)

(** A modem that answers the clock query at once. *)
Definition clockAnswer : string :=
  "+CCLK: " +:+ dq +:+ "25/12/02,10:30:45+00" +:+ dq.

Definition promptModem : nat -> string := fun _ => clockAnswer.

(** A modem that stays silent twice and answers the third time. *)
Definition slowModem : nat -> string :=
  fun n => match n with 2%nat => clockAnswer | _ => EmptyString end.

(** A modem that never answers. *)
Definition silentModem : nat -> string := fun _ => EmptyString.

(** ** The invariant of the cycle counters

    What holds of the counters and the two sets between two passes of
    [loop]: the scan counter has not reached the upload threshold, the
    two raw counters agree, the unique counter is the size of the current
    set, and the counts stay within what the scans so far can have
    produced. *)
Definition cycleInv (st : State) : Prop :=
  0 <= scanCounter st < SCANS_PER_UPLOAD
  /\ impressionCount st = wifiNetworksThisCycle st
  /\ uniqueWifiNetworks st = Z.of_nat (size (currentCycleHashes st))
  /\ 0 <= repeatedWifiNetworks st
  /\ uniqueWifiNetworks st + repeatedWifiNetworks st
     <= MAX_NETWORKS_PER_SCAN * scanCounter st
  /\ Z.of_nat (size (previousCycleHashes st)) <= MAX_NETWORKS_PER_SCAN * SCANS_PER_UPLOAD.

(** Whether a pass of [loop] at this time scans. *)
Definition scanDue (inp : LoopInput) (st : State) : bool :=
  wrap32 (currentTime inp - lastScanTime st) >=? SCAN_INTERVAL_MS.

(** The raw detections a scan contributes: its count, when positive. *)
Definition rawDetections (sc : ScanResult) : Z := Z.max 0 (networksFound sc).

(** The statements of [reportAnalytics] that precede the test of the
    database client: the two report counters, the daily tally and the
    refresh of the position. *)
Definition reportPreamble (env : ReportEnv) (st : State) : State :=
  let st := set_reportCounter (incr32 (reportCounter st)) st in
  let st := set_totalReportsGenerated (incr32 (totalReportsGenerated st)) st in
  let st := set_dailyImpressions (wrap32 (dailyImpressions st + impressionCount st)) st in
  match updateGPSLocation env st with
  | (st, true) => set_gpsFixAcquired true st
  | (st, false) => st
  end.

(** The test made on the answer of the clock. *)
Definition clockValid (env : ReportEnv) : bool :=
  negb (String.eqb (extractDateFromDateTime (simTime env)) "Unknown")
  && negb (String.eqb (simTime env) "Time unavailable").

(** The test made before the upload, on the stored date. *)
Definition dateUsable (st : State) : bool :=
  (strlen (currentDate st) >? 0) && negb (String.eqb (currentDate st) "Unknown").

(** The inverse of [FNV_PRIME] modulo 2^64, and the range of a byte. *)
Definition FNV_PRIME_INVERSE : Z := 0xce965057aff6957b.

Definition is_byte (b : Z) : Prop := 0 <= b < 256.

(** ** [getMacAddress], [generateAccessKey], [buildDeviceInfoJSON] *)

Definition FIRMWARE_VERSION : string := "1.0.0-PROD".

Definition hexDigitUpper (n : Z) : ascii :=
  match n with
  | 0 => "0" | 1 => "1" | 2 => "2" | 3 => "3" | 4 => "4" | 5 => "5"
  | 6 => "6" | 7 => "7" | 8 => "8" | 9 => "9" | 10 => "A" | 11 => "B"
  | 12 => "C" | 13 => "D" | 14 => "E" | _ => "F"
  end%char.

(** [%02X] of one byte: two upper-case hexadecimal digits. *)
Definition hex2Upper (b : byte) : string :=
  String (hexDigitUpper (Z.shiftr (u8 b) 4))
    (String (hexDigitUpper (Z.land (u8 b) 15)) EmptyString).

(** [getMacAddress], on the six bytes [esp_read_mac] wrote to [baseMac]. *)
Definition getMacAddress (baseMac : list byte) : string :=
  fold_right (fun i rest => hex2Upper (macAt baseMac i) +:+ rest) EmptyString (seq 0 6).

(** [generateAccessKey]; [BILLBOARD_ID] comes from [credentials.h], which
    is not part of the sources, and [now] is [millis()]. *)
Definition generateAccessKey (BILLBOARD_ID deviceMacAddress : string) (now : Z) : string :=
  BILLBOARD_ID +:+ "_" +:+ String_substring deviceMacAddress 0 8 +:+ "_"
    +:+ String_of_uint32 now.

Definition buildDeviceInfoJSON (BILLBOARD_ID deviceMacAddress : string) (st : State) : string :=
  "{" +:+ dq +:+ "billboard_id" +:+ dq +:+ ":" +:+ dq +:+ combinedBillboardId st +:+ dq +:+ ","
      +:+ dq +:+ "device_name" +:+ dq +:+ ":" +:+ dq +:+ BILLBOARD_ID +:+ dq +:+ ","
      +:+ dq +:+ "firmware" +:+ dq +:+ ":" +:+ dq +:+ FIRMWARE_VERSION +:+ dq +:+ ","
      +:+ dq +:+ "mac_address" +:+ dq +:+ ":" +:+ dq +:+ deviceMacAddress +:+ dq +:+ ","
      +:+ dq +:+ "setup_time" +:+ dq +:+ ":" +:+ dq +:+ currentDateTime st +:+ dq +:+ ","
      +:+ dq +:+ "status" +:+ dq +:+ ":" +:+ dq +:+ "active" +:+ dq +:+ ","
      +:+ dq +:+ "Location" +:+ dq +:+ ":" +:+ "{"
      +:+ dq +:+ "Lat" +:+ dq +:+ ":" +:+ dq +:+ gpsLatitude st +:+ dq +:+ ","
      +:+ dq +:+ "Long" +:+ dq +:+ ":" +:+ dq +:+ gpsLongitude st +:+ dq
      +:+ "}"
      +:+ "}".

(** ** [setup] *)

(** What [setup] reads from outside. *)
Record SetupEnv : Type := mkSetupEnv {
  (* millis() as stored in systemStartTime *)
  bootMillis : Z;
  (* random(0xFFFFFFFF) *)
  drawnSalt : Z;
  (* the six bytes of esp_read_mac *)
  baseMac : list byte;
  (* millis() inside generateAccessKey *)
  keyMillis : Z;
  (* modem.init(), modem.waitForNetwork(), modem.gprsConnect(...) *)
  modemInit : bool;
  networkFound : bool;
  gprsConnected : bool;
  (* the answers of the modem to the clock queries *)
  clockResponses : nat -> string;
  (* waitForGPSFix(90000): latitude and longitude on success *)
  gpsFix : option (string * string);
  (* app.ready() once the wait for authentication is over, and the remote
     store as [loadExistingImpressions] reads it *)
  remote : ReportEnv
}.

(** The globals [setup] leaves, with those that [State] does not hold. *)
Record Device : Type := mkDevice {
  globalsOf : State;
  deviceMacAddress : string;
  deviceAccessKey : string;
  deviceInfoUploaded : bool
}.

Definition devicePathOf (st : State) : string :=
  "/devices/" +:+ combinedBillboardId st +:+ "/device_info".

(** [setup], from the drawing of the salt on; each failed step of the
    modem returns at once. *)
Definition setup (BILLBOARD_ID : string) (env : SetupEnv) : Device * list RemoteCall :=
  let st := set_systemStartTime (bootMillis env) initialGlobals in
  let st := set_ephemeralSalt (wrap32 (drawnSalt env)) st in
  let mac := getMacAddress (baseMac env) in
  let st := set_combinedBillboardId (BILLBOARD_ID +:+ "_" +:+ mac) st in
  let key := generateAccessKey BILLBOARD_ID mac (keyMillis env) in
  if negb (modemInit env) then (mkDevice st mac key false, [])
  else if negb (networkFound env) then (mkDevice st mac key false, [])
  else if negb (gprsConnected env) then (mkDevice st mac key false, [])
  else
    let st := set_currentDateTime (getTimeFromSIM7600 (clockResponses env)) st in
    let st := set_currentDate (extractDateFromDateTime (currentDateTime st)) st in
    let st :=
      match gpsFix env with
      | Some (lat, lon) =>
          set_gpsFixAcquired true (set_gpsLongitude lon (set_gpsLatitude lat st))
      | None => set_gpsLongitude "73.061333" (set_gpsLatitude "33.61095" st)
      end in
    if appReady (remote env) then
      let '(st, fetched) := loadExistingImpressions (remote env) st in
      let devicePath := devicePathOf st in
      let deviceJson := buildDeviceInfoJSON BILLBOARD_ID mac st in
      (mkDevice st mac key true,
       fetched ++ [DbSet devicePath deviceJson "deviceInfoTask"])
    else
      (mkDevice st mac key false, []).

(** The globals of a process in service: those [setup] left, after any
    number of passes of [loop]. *)
Definition inService (BILLBOARD_ID : string) (env : SetupEnv) (st : State) : Prop :=
  reaches (globalsOf (setup BILLBOARD_ID env).1) st.

(** A start-up with everything in order, one without a modem, and one
    where the clock does not answer. *)
Definition goodBoot : SetupEnv :=
  mkSetupEnv 2000 0x1234abcd macA 2100 true true true promptModem
             (Some ("33.700000", "73.100000"))
             (mkReportEnv None true EmptyString (fun _ => 42) (fun _ => 0)).

Definition noModemBoot : SetupEnv :=
  mkSetupEnv 2000 0x1234abcd macA 2100 false true true promptModem None
             (mkReportEnv None true EmptyString (fun _ => 42) (fun _ => 0)).

Definition noClockBoot : SetupEnv :=
  mkSetupEnv 2000 0x1234abcd macA 2100 true true true silentModem None
             (mkReportEnv None true EmptyString (fun _ => 42) (fun _ => 0)).

(** A report in which the modem's clock answers. *)
Definition clockBackEnv : ReportEnv :=
  mkReportEnv None true (getTimeFromSIM7600 promptModem) (fun _ => 0) (fun _ => 0).

(** The first pass of [loop] after the good start-up. *)
Definition firstPass : LoopInput := mkLoopInput 7100 sampleScan quietEnv.

Definition afterFirstPass : State :=
  match loop firstPass (globalsOf (setup "BB01" goodBoot).1) with
  | Some (st, _) => st
  | None => initialGlobals
  end.

(** Nine scans after the start-up in which the clock did not answer,
    and the tenth pass, in which it does. *)
Definition nineBlindScans : list LoopInput :=
  map (fun t => mkLoopInput t sampleScan unavailableEnv)
      [7000; 12000; 17000; 22000; 27000; 32000; 37000; 42000; 47000].

Definition noClockNine : State :=
  match runLoop nineBlindScans (globalsOf (setup "BB01" noClockBoot).1) with
  | Some st => st
  | None => initialGlobals
  end.

Definition clockBackPass : LoopInput := mkLoopInput 52000 sampleScan clockBackEnv.

Definition afterClockBack : State :=
  match loop clockBackPass noClockNine with
  | Some (st, _) => st
  | None => initialGlobals
  end.

Definition clockBackCalls : list RemoteCall :=
  match loop clockBackPass noClockNine with
  | Some (_, calls) => calls
  | None => []
  end.

(** Two devices of one maker, whose addresses differ in the last byte. *)
Definition macA' : list byte := [x00; x11; x22; x33; x44; x56].

(** ** The range of the daily tally *)












(** * Properties *)

(** ** Machine integers *)


Lemma wrap32_small x : is_uint32 x -> wrap32 x = x.
Proof. unfold is_uint32, wrap32. intros H. apply Z.mod_small. lia. Qed.

Lemma wrap32_add_l x y : wrap32 (wrap32 x + y) = wrap32 (x + y).
Proof. unfold wrap32. apply Zplus_mod_idemp_l. Qed.

(** ** The anonymiser *)

(** Published FNV-1a test vectors pin the constants of the reference down. *)
Example fnv1a_64_empty : fnv1a_64 [] = 0xcbf29ce484222325.
Proof. reflexivity. Qed.

Example fnv1a_64_a : fnv1a_64 (ascii_bytes "a") = 0xaf63dc4c8601ec8c.
Proof. vm_compute. reflexivity. Qed.

Example fnv1a_64_foobar : fnv1a_64 (ascii_bytes "foobar") = 0x85944171f73967e8.
Proof. vm_compute. reflexivity. Qed.

Example hex16_small : hex16 0x1a2b = "0000000000001a2b"%string.
Proof. vm_compute. reflexivity. Qed.

Example hashMAC_macA : hashMAC 0x1234abcd macA = "0e23408dc000937c"%string.
Proof. vm_compute. reflexivity. Qed.

Lemma saltByte_bytes salt :
  map (saltByte salt) (seq 0 4) = salt_bytes salt.
Proof.
  unfold saltByte, salt_bytes. simpl map.
  change (8 * Z.of_nat 0) with 0. rewrite Z.shiftr_0_r. reflexivity.
Qed.

Lemma fold_left_map_arg {A B C} (f : A -> C -> A) (g : B -> C) (l : list B) (a : A) :
  fold_left (fun h i => f h (g i)) l a = fold_left f (map g l) a.
Proof. revert a. induction l as [|x l IH]; intros a; simpl; [reflexivity | apply IH]. Qed.

Lemma macAt_all (macAddr : list byte) :
  length macAddr = 6%nat -> map (macAt macAddr) (seq 0 6) = macAddr.
Proof.
  intros H.
  destruct macAddr as [|b0 [|b1 [|b2 [|b3 [|b4 [|b5 [|b6 rest]]]]]]]; try discriminate H.
  reflexivity.
Qed.

Lemma hashMAC_value_fnv1a salt (macAddr : list byte) :
  length macAddr = 6%nat ->
  hashMAC_value salt macAddr = fnv1a_64 (map u8 macAddr ++ salt_bytes salt).
Proof.
  intros H. unfold hashMAC_value, fnv1a_64.
  rewrite fold_left_app.
  rewrite (fold_left_map_arg mix (fun i => u8 (macAt macAddr i))).
  rewrite (fold_left_map_arg mix (saltByte salt)).
  rewrite saltByte_bytes.
  rewrite <- (map_map (macAt macAddr) u8), (macAt_all _ H).
  reflexivity.
Qed.

Lemma hexDigit_inj a b :
  0 <= a < 16 -> 0 <= b < 16 -> hexDigit a = hexDigit b -> a = b.
Proof.
  intros Ha Hb.
  assert (Ea : a = 0 \/ a = 1 \/ a = 2 \/ a = 3 \/ a = 4 \/ a = 5 \/ a = 6 \/ a = 7 \/ a = 8
               \/ a = 9 \/ a = 10 \/ a = 11 \/ a = 12 \/ a = 13 \/ a = 14 \/ a = 15) by lia.
  assert (Eb : b = 0 \/ b = 1 \/ b = 2 \/ b = 3 \/ b = 4 \/ b = 5 \/ b = 6 \/ b = 7 \/ b = 8
               \/ b = 9 \/ b = 10 \/ b = 11 \/ b = 12 \/ b = 13 \/ b = 14 \/ b = 15) by lia.
  repeat (destruct Ea as [->|Ea]); try subst a;
    repeat (destruct Eb as [->|Eb]); try subst b;
    intros H; first [reflexivity | discriminate H].
Qed.

Lemma map_eq_pointwise {A B} (f g : A -> B) (l : list A) :
  map f l = map g l -> forall x, In x l -> f x = g x.
Proof.
  induction l as [|y l IH]; intros H x Hx; [destruct Hx|].
  simpl in H. injection H as H1 H2. destruct Hx as [<-|Hx]; [exact H1 | exact (IH H2 x Hx)].
Qed.

Lemma nibble_range x : 0 <= Z.land x 15 < 16.
Proof.
  change 15 with (Z.ones 4). rewrite Z.land_ones by lia.
  apply Z.mod_pos_bound. lia.
Qed.

Lemma hex16_inj a b :
  0 <= a < 2 ^ 64 -> 0 <= b < 2 ^ 64 -> hex16 a = hex16 b -> a = b.
Proof.
  intros Ha Hb H. unfold hex16 in H.
  apply (f_equal list_ascii_of_string) in H.
  rewrite !list_ascii_of_string_of_list_ascii in H.
  pose proof (map_eq_pointwise _ _ _ H) as Hk.
  assert (Hnib : forall k, (k < 16)%nat ->
            Z.land (Z.shiftr a (4 * Z.of_nat k)) 15 = Z.land (Z.shiftr b (4 * Z.of_nat k)) 15).
  { intros k Hlt. apply hexDigit_inj; try apply nibble_range.
    apply Hk. apply in_rev. rewrite rev_involutive. apply in_seq. lia. }
  apply Z.bits_inj'. intros n Hn.
  destruct (Z_lt_le_dec n 64) as [Hlow|Hhigh].
  - set (k := Z.to_nat (n / 4)). set (j := n mod 4).
    assert (Hdiv : n = 4 * Z.of_nat k + j).
    { unfold k, j. rewrite Z2Nat.id by (apply Z.div_pos; lia). apply Z.div_mod. lia. }
    assert (Hj : 0 <= j < 4) by (unfold j; apply Z.mod_pos_bound; lia).
    assert (Hk16 : (k < 16)%nat).
    { unfold k. apply Nat2Z.inj_lt. rewrite Z2Nat.id by (apply Z.div_pos; lia).
      apply Z.div_lt_upper_bound; lia. }
    specialize (Hnib k Hk16).
    apply (f_equal (fun z => Z.testbit z j)) in Hnib.
    rewrite !Z.land_spec, !Z.shiftr_spec in Hnib by lia.
    replace (j + 4 * Z.of_nat k) with n in Hnib by lia.
    assert (H15 : Z.testbit 15 j = true).
    { assert (Ej : j = 0 \/ j = 1 \/ j = 2 \/ j = 3) by lia.
      destruct Ej as [->|[->|[->| ->]]]; reflexivity. }
    rewrite H15, !andb_true_r in Hnib. exact Hnib.
  - rewrite <- (Z.mod_small a (2 ^ 64)), <- (Z.mod_small b (2 ^ 64)) by lia.
    rewrite !Z.mod_pow2_bits_high by lia. reflexivity.
Qed.

Lemma hashMAC_value_range salt (macAddr : list byte) :
  0 <= hashMAC_value salt macAddr < 2 ^ 64.
Proof.
  unfold hashMAC_value. change (seq 0 4) with [0; 1; 2; 3]%nat.
  cbv zeta. cbn [fold_left]. unfold mix at 1, wrap64.
  apply Z.mod_pos_bound. lia.
Qed.

(** Two fingerprints are the same text exactly when the 64-bit values
    are the same: nothing is lost in the printing. *)
Lemma hashMAC_eq_iff salt salt' (m m' : list byte) :
  hashMAC salt m = hashMAC salt' m' <-> hashMAC_value salt m = hashMAC_value salt' m'.
Proof.
  unfold hashMAC. split; [|intros ->; reflexivity].
  apply hex16_inj; apply hashMAC_value_range.
Qed.

(** ** The scan loop *)

Lemma withDedup_same st :
  withDedup (currentCycleHashes st) (totalWifiNetworks st) st = st.
Proof. destruct st; reflexivity. Qed.

Lemma withDedup_twice c t c' t' st :
  withDedup c' t' (withDedup c t st) = withDedup c' t' st.
Proof. reflexivity. Qed.

Lemma classifyHash_globals h acc :
  globals (classifyHash h acc) =
  withDedup ({[h]} ∪ currentCycleHashes (globals acc))
            (if decide (h ∈ currentCycleHashes (globals acc) ∪ previousCycleHashes (globals acc))
             then totalWifiNetworks (globals acc)
             else incr32 (totalWifiNetworks (globals acc)))
            (globals acc).
Proof.
  unfold classifyHash.
  destruct (decide (h ∈ currentCycleHashes (globals acc))) as [Hc|Hc]; simpl.
  - assert (Hin : h ∈ currentCycleHashes (globals acc) ∪ previousCycleHashes (globals acc)).
    { apply elem_of_union. left. exact Hc. }
    assert (Hsame : {[h]} ∪ currentCycleHashes (globals acc) = currentCycleHashes (globals acc)).
    { apply leibniz_equiv, subseteq_union_1, singleton_subseteq_l, Hc. }
    rewrite (decide_True _ _ Hin), Hsame.
    symmetry. apply withDedup_same.
  - destruct (decide (h ∈ previousCycleHashes (globals acc))) as [Hp|Hp].
    + assert (Hin : h ∈ currentCycleHashes (globals acc) ∪ previousCycleHashes (globals acc)).
      { apply elem_of_union. right. exact Hp. }
      rewrite (decide_True _ _ Hin).
      destruct (globals acc); reflexivity.
    + assert (Hout : ~ h ∈ currentCycleHashes (globals acc) ∪ previousCycleHashes (globals acc)).
      { rewrite elem_of_union. tauto. }
      rewrite (decide_False _ _ Hout). reflexivity.
Qed.

Lemma classifyHash_repeated h acc :
  h ∈ currentCycleHashes (globals acc) ->
  classifyHash h acc =
  mkScanLoop (globals acc) (uniqueInThisScan acc) (repeatedInThisScan acc + 1).
Proof. intros Hc. unfold classifyHash. rewrite (decide_True _ _ Hc). reflexivity. Qed.

Lemma classifyHash_new h acc :
  h ∉ currentCycleHashes (globals acc) ->
  h ∉ previousCycleHashes (globals acc) ->
  classifyHash h acc =
  mkScanLoop
    (set_totalWifiNetworks (incr32 (totalWifiNetworks (globals acc)))
       (set_currentCycleHashes ({[h]} ∪ currentCycleHashes (globals acc)) (globals acc)))
    (uniqueInThisScan acc + 1) (repeatedInThisScan acc).
Proof.
  intros Hc Hp. unfold classifyHash. rewrite (decide_False _ _ Hc). cbv zeta.
  change (previousCycleHashes (set_currentCycleHashes _ (globals acc)))
    with (previousCycleHashes (globals acc)).
  rewrite (decide_False _ _ Hp). reflexivity.
Qed.

Lemma classifyHash_previous h acc :
  h ∉ currentCycleHashes (globals acc) ->
  h ∈ previousCycleHashes (globals acc) ->
  classifyHash h acc =
  mkScanLoop
    (set_currentCycleHashes ({[h]} ∪ currentCycleHashes (globals acc)) (globals acc))
    (uniqueInThisScan acc + 1) (repeatedInThisScan acc).
Proof.
  intros Hc Hp. unfold classifyHash. rewrite (decide_False _ _ Hc). cbv zeta.
  change (previousCycleHashes (set_currentCycleHashes _ (globals acc)))
    with (previousCycleHashes (globals acc)).
  rewrite (decide_True _ _ Hp). reflexivity.
Qed.

Lemma classifyHash_salt h acc :
  ephemeralSalt (globals (classifyHash h acc)) = ephemeralSalt (globals acc).
Proof. rewrite classifyHash_globals. reflexivity. Qed.

Lemma classifyHash_locals h acc :
  uniqueInThisScan (classifyHash h acc) + repeatedInThisScan (classifyHash h acc)
    = uniqueInThisScan acc + repeatedInThisScan acc + 1
  /\ uniqueInThisScan acc <= uniqueInThisScan (classifyHash h acc)
  /\ repeatedInThisScan acc <= repeatedInThisScan (classifyHash h acc).
Proof.
  unfold classifyHash.
  destruct (decide (h ∈ currentCycleHashes (globals acc))); simpl; lia.
Qed.

Lemma scan_fold_hashes sc (l : list nat) acc :
  fold_left (scanIteration sc) l acc =
  classifyAll (map (fun i => hashMAC (ephemeralSalt (globals acc)) (BSSID sc i)) l) acc.
Proof.
  revert acc. induction l as [|i l IH]; intros acc; [reflexivity|].
  simpl. rewrite IH.
  assert (Hsalt : ephemeralSalt (globals (scanIteration sc acc i))
                  = ephemeralSalt (globals acc)) by apply classifyHash_salt.
  rewrite Hsalt. reflexivity.
Qed.

Lemma scanLoopAfter_hashes sc st k :
  scanLoopAfter sc st k =
  classifyAll (scanHashes sc (ephemeralSalt st) k) (mkScanLoop st 0 0).
Proof. unfold scanLoopAfter. rewrite scan_fold_hashes. reflexivity. Qed.

Lemma scanLoopAfter_S sc st k :
  scanLoopAfter sc st (S k) = scanIteration sc (scanLoopAfter sc st k) k.
Proof.
  unfold scanLoopAfter. rewrite seq_S, fold_left_app. reflexivity.
Qed.

(** How many of the fingerprints [hs] are new to the set [seen]. *)
Lemma fresh_cons (h : string) (hs : list string) (seen : gset string) :
  size (list_to_set (h :: hs) ∖ seen : gset string) =
  ((if decide (h ∈ seen) then 0 else 1)
   + size (list_to_set hs ∖ ({[h]} ∪ seen) : gset string))%nat.
Proof.
  destruct (decide (h ∈ seen)) as [Hin|Hout].
  - simpl. f_equal. set_solver.
  - replace (list_to_set (h :: hs) ∖ seen : gset string)
      with ({[h]} ∪ (list_to_set hs ∖ ({[h]} ∪ seen)) : gset string).
    + rewrite size_union by set_solver. rewrite size_singleton. reflexivity.
    + apply set_eq. intros x. simpl.
      destruct (decide (x = h)); set_solver.
Qed.

(** What the loop does to the globals and to its two counters, whatever
    the fingerprints: the current set absorbs them, the cumulative total
    is incremented once per distinct fingerprint found in neither set,
    the unique counter counts the distinct fingerprints new to the
    current set, the repeated counter the rest, and nothing else is
    written. *)
Lemma classifyAll_spec (hs : list string) acc :
  let cur := currentCycleHashes (globals acc) in
  let prev := previousCycleHashes (globals acc) in
  globals (classifyAll hs acc) =
    withDedup (list_to_set hs ∪ cur)
              (Nat.iter (size (list_to_set hs ∖ (cur ∪ prev) : gset string)) incr32
                        (totalWifiNetworks (globals acc)))
              (globals acc)
  /\ uniqueInThisScan (classifyAll hs acc)
      = uniqueInThisScan acc + Z.of_nat (size (list_to_set hs ∖ cur : gset string))
  /\ uniqueInThisScan (classifyAll hs acc) + repeatedInThisScan (classifyAll hs acc)
      = uniqueInThisScan acc + repeatedInThisScan acc + Z.of_nat (length hs).
Proof.
  revert acc. induction hs as [|h hs IH]; intros acc cur prev.
  - simpl. subst cur prev. repeat split; try lia.
    + rewrite union_empty_l_L. replace (∅ ∖ _ : gset string) with (∅ : gset string) by set_solver.
      rewrite size_empty. simpl. symmetry. apply withDedup_same.
    + replace (∅ ∖ _ : gset string) with (∅ : gset string) by set_solver.
      rewrite size_empty. simpl. lia.
  - change (classifyAll (h :: hs) acc) with (classifyAll hs (classifyHash h acc)).
    destruct (IH (classifyHash h acc)) as (Hg & Hu & Hsum).
    destruct (classifyHash_locals h acc) as (Hsum1 & Hu1 & Hr1).
    rewrite classifyHash_globals in Hg, Hu. simpl in Hg, Hu.
    fold cur prev in Hg, Hu.
    split; [|split].
    + rewrite Hg, withDedup_twice. f_equal.
      * set_solver.
      * rewrite fresh_cons.
        replace ({[h]} ∪ (cur ∪ prev)) with ({[h]} ∪ cur ∪ prev) by set_solver.
        destruct (decide (h ∈ cur ∪ prev)); [reflexivity|].
        change (1 + ?n)%nat with (S n). rewrite Nat.iter_succ_r. reflexivity.
    + rewrite Hu, fresh_cons.
      unfold classifyHash. fold cur.
      destruct (decide (h ∈ cur)); simpl; lia.
    + rewrite Hsum. simpl length. lia.
Qed.

(** ** [performWiFiScan], case by case *)

Lemma performWiFiScan_error sc st :
  networksFound sc < 0 ->
  performWiFiScan sc st =
  set_scanErrors (incr32 (scanErrors st))
    (set_totalScansPerformed (incr32 (totalScansPerformed st)) st).
Proof.
  intros H. unfold performWiFiScan.
  destruct (Z.ltb_spec (networksFound sc) 0); [reflexivity | lia].
Qed.

Lemma performWiFiScan_none sc st :
  networksFound sc = 0 ->
  performWiFiScan sc st = set_totalScansPerformed (incr32 (totalScansPerformed st)) st.
Proof. intros H. unfold performWiFiScan. rewrite H. reflexivity. Qed.

Lemma processCountOf_range found :
  0 < found -> 0 < processCountOf found <= MAX_NETWORKS_PER_SCAN
               /\ processCountOf found = Z.min found MAX_NETWORKS_PER_SCAN.
Proof.
  unfold processCountOf, MAX_NETWORKS_PER_SCAN. intros H.
  destruct (Z.gtb_spec found 20); lia.
Qed.

Lemma scanHashes_length sc salt k : length (scanHashes sc salt k) = k.
Proof. unfold scanHashes. rewrite length_map, length_seq. reflexivity. Qed.

(** A scan that found something, as one update of the globals. *)
Lemma performWiFiScan_found sc st :
  0 < networksFound sc ->
  let found := networksFound sc in
  let hs := scanHashes sc (ephemeralSalt st) (Z.to_nat (processCountOf found)) in
  let cur := currentCycleHashes st in
  let prev := previousCycleHashes st in
  let fresh := Z.of_nat (size (list_to_set hs ∖ cur : gset string)) in
  performWiFiScan sc st =
  set_repeatedWifiNetworks (wrap32 (repeatedWifiNetworks st + (processCountOf found - fresh)))
    (set_uniqueWifiNetworks (wrap32 (uniqueWifiNetworks st + fresh))
       (set_wifiNetworksThisCycle (wrap32 (wifiNetworksThisCycle st + found))
          (withDedup (list_to_set hs ∪ cur)
             (Nat.iter (size (list_to_set hs ∖ (cur ∪ prev) : gset string)) incr32
                       (totalWifiNetworks st))
             (set_impressionCount (wrap32 (impressionCount st + found))
                (set_totalScansPerformed (incr32 (totalScansPerformed st)) st))))).
Proof.
  intros Hpos found hs cur prev fresh. unfold performWiFiScan. fold found.
  destruct (Z.ltb_spec found 0); [lia|].
  destruct (Z.eqb_spec found 0); [lia|].
  cbv zeta. rewrite scanLoopAfter_hashes. simpl ephemeralSalt. fold hs.
  change (impressionCount (set_totalScansPerformed _ st)) with (impressionCount st).
  match goal with |- context [classifyAll hs ?a] =>
    destruct (classifyAll_spec hs a) as (Hg & Hu & Hsum) end.
  simpl in Hg, Hu, Hsum. fold cur prev in Hg, Hu. fold fresh in Hu.
  assert (Hr : repeatedInThisScan
                 (classifyAll hs
                    (mkScanLoop
                       (set_impressionCount (wrap32 (impressionCount st + found))
                          (set_totalScansPerformed (incr32 (totalScansPerformed st)) st)) 0 0))
               = processCountOf found - fresh).
  { unfold hs in Hsum at 3. rewrite scanHashes_length in Hsum.
    destruct (processCountOf_range found Hpos) as [? _]. lia. }
  rewrite Hg, Hu, Hr. reflexivity.
Qed.

(** ** What [reportAnalytics] and [loop] leave alone *)

(** Case analysis on every test of a function body, innermost first. *)
Ltac branch_cases :=
  repeat (simpl;
          match goal with
          | |- context [match ?x with _ => _ end] =>
              lazymatch x with
              | context [match _ with _ => _ end] => fail
              | _ => destruct x
              end
          end).

Ltac report_cases :=
  unfold reportAnalytics, dayChange, uploadDaily, updateGPSLocation;
  branch_cases; simpl.

Lemma reportAnalytics_counting env st :
  sameCounting st (reportAnalytics env st).1.
Proof. unfold sameCounting. report_cases; repeat split. Qed.

Lemma reportAnalytics_fixed env st :
  ephemeralSalt (reportAnalytics env st).1 = ephemeralSalt st
  /\ systemStartTime (reportAnalytics env st).1 = systemStartTime st
  /\ combinedBillboardId (reportAnalytics env st).1 = combinedBillboardId st
  /\ lastScanTime (reportAnalytics env st).1 = lastScanTime st.
Proof. report_cases; repeat split. Qed.

Lemma reportAnalytics_reports env st :
  totalReportsGenerated (reportAnalytics env st).1 = incr32 (totalReportsGenerated st)
  /\ reportCounter (reportAnalytics env st).1 = incr32 (reportCounter st).
Proof. report_cases; repeat split. Qed.

Lemma performWiFiScan_salt sc st :
  ephemeralSalt (performWiFiScan sc st) = ephemeralSalt st.
Proof.
  destruct (Z.lt_trichotomy (networksFound sc) 0) as [H|[H|H]].
  - rewrite performWiFiScan_error by exact H. reflexivity.
  - rewrite performWiFiScan_none by exact H. reflexivity.
  - rewrite performWiFiScan_found by exact H. reflexivity.
Qed.

Lemma endOfCycle_salt env st :
  ephemeralSalt (endOfCycle env st).1 = ephemeralSalt st.
Proof.
  unfold endOfCycle.
  pose proof (reportAnalytics_fixed env st) as (Hs & _).
  destruct (reportAnalytics env st) as [st1 calls]. simpl in *. exact Hs.
Qed.

Lemma loop_salt inp st st' calls :
  loop inp st = Some (st', calls) -> ephemeralSalt st' = ephemeralSalt st.
Proof.
  unfold loop. intros H.
  destruct (_ >=? RESTART_AFTER_MS); [discriminate|].
  destruct (_ >=? SCAN_INTERVAL_MS).
  - destruct (_ >=? SCANS_PER_UPLOAD).
    + inversion H as [Heq].
      change st' with (st', calls).1. rewrite <- Heq, endOfCycle_salt.
      simpl. apply performWiFiScan_salt.
    + inversion H; subst. simpl. apply performWiFiScan_salt.
  - inversion H; subst. reflexivity.
Qed.

Lemma reaches_salt st st' : reaches st st' -> ephemeralSalt st' = ephemeralSalt st.
Proof.
  induction 1 as [|st inp st1 calls st2 Hstep _ IH]; [reflexivity|].
  rewrite IH. eapply loop_salt, Hstep.
Qed.

Lemma scanLoopAfter_spec sc entry k :
  let hs := scanHashes sc (ephemeralSalt entry) k in
  let cur := currentCycleHashes entry in
  let prev := previousCycleHashes entry in
  let fresh := Z.of_nat (size (list_to_set hs ∖ cur : gset string)) in
  globals (scanLoopAfter sc entry k) =
    withDedup (list_to_set hs ∪ cur)
      (Nat.iter (size (list_to_set hs ∖ (cur ∪ prev) : gset string)) incr32
                (totalWifiNetworks entry)) entry
  /\ uniqueInThisScan (scanLoopAfter sc entry k) = fresh
  /\ repeatedInThisScan (scanLoopAfter sc entry k) = Z.of_nat k - fresh.
Proof.
  intros hs cur prev fresh. rewrite scanLoopAfter_hashes. fold hs.
  destruct (classifyAll_spec hs (mkScanLoop entry 0 0)) as (Hg & Hu & Hsum).
  simpl in Hg, Hu, Hsum. fold cur prev in Hg, Hu. fold fresh in Hu.
  unfold hs in Hsum at 3. rewrite scanHashes_length in Hsum.
  repeat split; [exact Hg | lia | lia].
Qed.

(** The three additions that follow the [for] loop. *)
Lemma performWiFiScan_fold sc st :
  0 < networksFound sc ->
  performWiFiScan sc st =
  let final := scanLoopAfter sc (loopEntry sc st)
                 (Z.to_nat (processCountOf (networksFound sc))) in
  set_repeatedWifiNetworks
    (wrap32 (repeatedWifiNetworks (globals final) + repeatedInThisScan final))
    (set_uniqueWifiNetworks
       (wrap32 (uniqueWifiNetworks (globals final) + uniqueInThisScan final))
       (set_wifiNetworksThisCycle
          (wrap32 (wifiNetworksThisCycle (globals final) + networksFound sc))
          (globals final))).
Proof.
  intros Hpos. unfold performWiFiScan.
  destruct (Z.ltb_spec (networksFound sc) 0); [lia|].
  destruct (Z.eqb_spec (networksFound sc) 0); [lia|].
  reflexivity.
Qed.

Lemma scanLoopAfter_salt sc st k :
  ephemeralSalt (globals (scanLoopAfter sc st k)) = ephemeralSalt st.
Proof.
  rewrite scanLoopAfter_hashes.
  match goal with |- context [classifyAll ?hs ?a] =>
    destruct (classifyAll_spec hs a) as (Hg & _) end.
  rewrite Hg. reflexivity.
Qed.

Lemma size_two (a b : string) : a <> b -> size ({[a]} ∪ {[b]} : gset string) = 2%nat.
Proof.
  intros Hne. rewrite size_union by set_solver. rewrite !size_singleton. reflexivity.
Qed.

Ltac by_evaluation := apply (bool_decide_unpack _); vm_compute; exact I.

(** ** The generation sets across scans and cycle ends *)

Lemma processed_nil salt sc : networksFound sc <= 0 -> processed salt sc = [].
Proof.
  intros H. unfold processed, processCountOf, MAX_NETWORKS_PER_SCAN.
  destruct (Z.gtb_spec (networksFound sc) 20); [lia|].
  replace (Z.to_nat (networksFound sc)) with 0%nat by lia. reflexivity.
Qed.

Lemma performWiFiScan_sets sc st :
  currentCycleHashes (performWiFiScan sc st)
    = list_to_set (processed (ephemeralSalt st) sc) ∪ currentCycleHashes st
  /\ previousCycleHashes (performWiFiScan sc st) = previousCycleHashes st.
Proof.
  destruct (Z.lt_trichotomy (networksFound sc) 0) as [H|[H|H]].
  - rewrite performWiFiScan_error by exact H.
    rewrite processed_nil by lia. simpl. split; [set_solver | reflexivity].
  - rewrite performWiFiScan_none by exact H.
    rewrite processed_nil by lia. simpl. split; [set_solver | reflexivity].
  - rewrite performWiFiScan_found by exact H. split; reflexivity.
Qed.

Lemma scanAll_salt scs st : ephemeralSalt (scanAll scs st) = ephemeralSalt st.
Proof.
  revert st. induction scs as [|sc scs IH]; intros st; [reflexivity|].
  simpl. rewrite IH. apply performWiFiScan_salt.
Qed.

Lemma scanAll_sets scs st :
  currentCycleHashes (scanAll scs st)
    = list_to_set (processedAll (ephemeralSalt st) scs) ∪ currentCycleHashes st
  /\ previousCycleHashes (scanAll scs st) = previousCycleHashes st.
Proof.
  revert st. induction scs as [|sc scs IH]; intros st.
  - change (scanAll [] st) with st.
    change (processedAll (ephemeralSalt st) []) with (@nil string).
    split; [|reflexivity].
    rewrite list_to_set_nil. symmetry. apply (left_id_L ∅ (∪)).
  - change (scanAll (sc :: scs) st) with (scanAll scs (performWiFiScan sc st)).
    destruct (IH (performWiFiScan sc st)) as (Hc & Hp).
    destruct (performWiFiScan_sets sc st) as (Hc1 & Hp1).
    rewrite Hc, Hp, Hc1, Hp1, performWiFiScan_salt.
    split; [|reflexivity].
    change (processedAll (ephemeralSalt st) (sc :: scs))
      with (processed (ephemeralSalt st) sc ++ processedAll (ephemeralSalt st) scs).
    rewrite list_to_set_app_L.
    generalize (list_to_set (processed (ephemeralSalt st) sc) : gset string).
    generalize (list_to_set (processedAll (ephemeralSalt st) scs) : gset string).
    intros X Y. set_solver.
Qed.

Lemma endOfCycle_sets env st :
  currentCycleHashes (endOfCycle env st).1 = ∅
  /\ previousCycleHashes (endOfCycle env st).1 = currentCycleHashes st.
Proof.
  unfold endOfCycle.
  pose proof (reportAnalytics_counting env st) as Hsame. unfold sameCounting in Hsame.
  destruct (reportAnalytics env st) as [st1 calls]. simpl in *.
  split; [reflexivity | tauto].
Qed.

Lemma endOfCycle_total env st :
  totalWifiNetworks (endOfCycle env st).1 = totalWifiNetworks st.
Proof.
  unfold endOfCycle.
  pose proof (reportAnalytics_counting env st) as Hsame. unfold sameCounting in Hsame.
  destruct (reportAnalytics env st) as [st1 calls]. simpl in *. tauto.
Qed.

(** A scan of the single access point [A]. *)
Lemma performWiFiScan_single A st :
  let h := hashMAC (ephemeralSalt st) A in
  totalWifiNetworks (performWiFiScan (scanOf [A]) st)
    = (if decide (h ∈ currentCycleHashes st ∪ previousCycleHashes st)
       then totalWifiNetworks st else incr32 (totalWifiNetworks st))
  /\ uniqueWifiNetworks (performWiFiScan (scanOf [A]) st)
      = wrap32 (uniqueWifiNetworks st + (if decide (h ∈ currentCycleHashes st) then 0 else 1))
  /\ currentCycleHashes (performWiFiScan (scanOf [A]) st) = {[h]} ∪ currentCycleHashes st.
Proof.
  intros h.
  assert (Hpos : 0 < networksFound (scanOf [A])) by (simpl; lia).
  pose proof (performWiFiScan_found _ st Hpos) as Hf. cbv zeta in Hf.
  assert (Hhs : scanHashes (scanOf [A]) (ephemeralSalt st)
                  (Z.to_nat (processCountOf (networksFound (scanOf [A])))) = [h])
    by reflexivity.
  rewrite Hhs in Hf. clear Hhs.
  pose proof (fresh_cons h [] (currentCycleHashes st ∪ previousCycleHashes st)) as Hn.
  pose proof (fresh_cons h [] (currentCycleHashes st)) as Hu.
  assert (Hz : forall X : gset string, size (list_to_set [] ∖ X : gset string) = 0%nat).
  { intros X. replace (list_to_set [] ∖ X : gset string) with (∅ : gset string) by set_solver.
    apply size_empty. }
  rewrite Hz in Hn, Hu. rewrite Hn, Hu in Hf. rewrite Hf. clear Hf Hn Hu Hz.
  split; [|split].
  - destruct (decide (h ∈ currentCycleHashes st ∪ previousCycleHashes st)); reflexivity.
  - destruct (decide (h ∈ currentCycleHashes st)); reflexivity.
  - unfold withDedup. cbn [currentCycleHashes set_repeatedWifiNetworks
      set_uniqueWifiNetworks set_wifiNetworksThisCycle set_totalWifiNetworks
      set_currentCycleHashes].
    rewrite list_to_set_cons, list_to_set_nil.
    generalize (currentCycleHashes st). intros X. set_solver.
Qed.

(** ** The report, branch by branch *)

(** The first three statements of [reportAnalytics] always run. *)
Lemma reportAnalytics_daily env st :
  dailyImpressions (reportAnalytics env st).1 =
  if dayChanged env st then
    let path := newDayPath st (extractDateFromDateTime (simTime env)) in
    if (dbErrorCode env path =? 0) && (dbValue env path >? 0)
    then wrap32 (dbValue env path) else 0
  else wrap32 (dailyImpressions st + impressionCount st).
Proof.
  unfold dayChanged, newDayPath, reportAnalytics, dayChange, uploadDaily,
    updateGPSLocation, impressionsPathOf.
  destruct (gpsRefresh env) as [[lat lon]|]; simpl;
    destruct (appReady env); simpl; try reflexivity;
    destruct (negb (extractDateFromDateTime (simTime env) =? "Unknown")%string
              && negb (simTime env =? "Time unavailable")%string); simpl; try reflexivity;
    destruct (negb (extractDateFromDateTime (simTime env) =? currentDate st)%string
              && (strlen (currentDate st) >? 0)); simpl;
    branch_cases; reflexivity.
Qed.

Lemma reportAnalytics_unavailable env st :
  simTime env = "Time unavailable" ->
  (reportAnalytics env st).2 = []
  /\ currentDate (reportAnalytics env st).1 = currentDate st
  /\ totalDataSent (reportAnalytics env st).1 = totalDataSent st.
Proof.
  intros Htime. unfold reportAnalytics, updateGPSLocation. rewrite Htime.
  destruct (gpsRefresh env) as [[lat lon]|]; simpl;
    destruct (appReady env); simpl; repeat split.
Qed.

Lemma dayChanged_unavailable env st :
  simTime env = "Time unavailable" -> dayChanged env st = false.
Proof.
  intros Htime. unfold dayChanged. rewrite Htime. simpl.
  apply andb_false_intro1, andb_false_r.
Qed.

Lemma endOfCycle_reset env st :
  let st' := (endOfCycle env st).1 in
  wifiNetworksThisCycle st' = 0 /\ repeatedWifiNetworks st' = 0
  /\ uniqueWifiNetworks st' = 0 /\ impressionCount st' = 0 /\ scanCounter st' = 0.
Proof.
  unfold endOfCycle. destruct (reportAnalytics env st) as [st1 calls].
  simpl. repeat split.
Qed.

Lemma endOfCycle_calls env st : (endOfCycle env st).2 = (reportAnalytics env st).2.
Proof. unfold endOfCycle. destruct (reportAnalytics env st); reflexivity. Qed.

Lemma endOfCycle_report env st :
  (endOfCycle env st).1 = resetCycleTracking (reportAnalytics env st).1.
Proof. unfold endOfCycle. destruct (reportAnalytics env st); reflexivity. Qed.

Lemma strlen_pos (s : string) : s <> EmptyString -> (strlen s >? 0) = true.
Proof.
  intros H. destruct s as [|a s]; [congruence|].
  unfold strlen. simpl String.length. apply Z.gtb_lt. lia.
Qed.

Lemma dayChanged_true env st :
  appReady env = true ->
  extractDateFromDateTime (simTime env) <> "Unknown"%string ->
  simTime env <> "Time unavailable"%string ->
  extractDateFromDateTime (simTime env) <> currentDate st ->
  currentDate st <> EmptyString ->
  dayChanged env st = true.
Proof.
  intros Hready Hknown Htime Hdiff Hstored. unfold dayChanged.
  rewrite Hready, (strlen_pos _ Hstored).
  apply String.eqb_neq in Hknown, Htime, Hdiff.
  rewrite Hknown, Htime, Hdiff. reflexivity.
Qed.

Lemma reportAnalytics_dayChanged env st :
  dayChanged env st = true ->
  currentDate (reportAnalytics env st).1 = extractDateFromDateTime (simTime env)
  /\ In (DbGet (newDayPath st (extractDateFromDateTime (simTime env))))
        (reportAnalytics env st).2.
Proof.
  unfold dayChanged. intros H.
  apply andb_prop in H as (H & Hday). apply andb_prop in H as (Hready & Hvalid).
  unfold newDayPath, reportAnalytics, dayChange, uploadDaily, updateGPSLocation,
    impressionsPathOf.
  destruct (gpsRefresh env) as [[lat lon]|]; simpl;
    rewrite Hready; simpl; rewrite Hvalid; simpl; rewrite Hday; simpl;
    branch_cases; simpl; auto.
Qed.

(** The counters a scan that found something leaves behind. *)
Lemma scan_fold_counts sc st :
  0 < networksFound sc ->
  let st' := performWiFiScan sc st in
  let final := scanLoopAfter sc (loopEntry sc st)
                 (Z.to_nat (processCountOf (networksFound sc))) in
  uniqueWifiNetworks st' = wrap32 (uniqueWifiNetworks st + uniqueInThisScan final)
  /\ repeatedWifiNetworks st' = wrap32 (repeatedWifiNetworks st + repeatedInThisScan final)
  /\ uniqueInThisScan final + repeatedInThisScan final = processCountOf (networksFound sc)
  /\ impressionCount st' = wrap32 (impressionCount st + networksFound sc)
  /\ wifiNetworksThisCycle st' = wrap32 (wifiNetworksThisCycle st + networksFound sc).
Proof.
  intros Hpos st' final.
  destruct (scanLoopAfter_spec sc (loopEntry sc st)
              (Z.to_nat (processCountOf (networksFound sc)))) as (Hg & Hu & Hr).
  fold final in Hg, Hu, Hr.
  destruct (processCountOf_range _ Hpos) as (Hrange & _).
  unfold st'. rewrite (performWiFiScan_fold sc st Hpos). cbv zeta.
  fold final. rewrite Hg.
  split; [reflexivity|]. split; [reflexivity|].
  split; [rewrite Hu, Hr; lia|]. split; reflexivity.
Qed.

Lemma scanHashes_agree sc sc' salt k :
  (forall i, (i < k)%nat -> BSSID sc' i = BSSID sc i) ->
  scanHashes sc' salt k = scanHashes sc salt k.
Proof.
  intros Hsame. unfold scanHashes. apply map_ext_in.
  intros i Hi. apply in_seq in Hi. rewrite Hsame by lia. reflexivity.
Qed.

Lemma wrap32_idem x : wrap32 (wrap32 x) = wrap32 x.
Proof. unfold wrap32. apply Z.mod_mod. lia. Qed.

Lemma wrap32_add x y : wrap32 (wrap32 x + wrap32 y) = wrap32 (x + y).
Proof. unfold wrap32. symmetry. apply Zplus_mod. Qed.

(** ** The passes of [loop] *)

Lemma performWiFiScan_scanCounter sc st :
  scanCounter (performWiFiScan sc st) = scanCounter st.
Proof.
  destruct (Z.lt_trichotomy (networksFound sc) 0) as [H|[H|H]].
  - rewrite performWiFiScan_error by exact H. reflexivity.
  - rewrite performWiFiScan_none by exact H. reflexivity.
  - rewrite performWiFiScan_found by exact H. reflexivity.
Qed.

Lemma afterScan_scanCounter inp st :
  scanCounter (afterScan inp st) = incr32 (scanCounter st).
Proof.
  unfold afterScan. cbv zeta.
  change (scanCounter (set_scanCounter ?v _)) with v.
  change (scanCounter (set_lastScanTime _ ?s)) with (scanCounter s).
  rewrite performWiFiScan_scanCounter. reflexivity.
Qed.

Lemma loop_cases inp st st' calls :
  loop inp st = Some (st', calls) ->
  ((wrap32 (currentTime inp - lastScanTime st) >=? SCAN_INTERVAL_MS) = false
   /\ st' = st /\ calls = [])
  \/ ((wrap32 (currentTime inp - lastScanTime st) >=? SCAN_INTERVAL_MS) = true
      /\ (incr32 (scanCounter st) >=? SCANS_PER_UPLOAD) = false
      /\ st' = afterScan inp st /\ calls = [])
  \/ ((wrap32 (currentTime inp - lastScanTime st) >=? SCAN_INTERVAL_MS) = true
      /\ (incr32 (scanCounter st) >=? SCANS_PER_UPLOAD) = true
      /\ (st', calls) = endOfCycle (reportEnv inp) (afterScan inp st)).
Proof.
  unfold loop. intros H.
  destruct (wrap32 (currentTime inp - systemStartTime st) >=? RESTART_AFTER_MS);
    [discriminate|].
  destruct (wrap32 (currentTime inp - lastScanTime st) >=? SCAN_INTERVAL_MS).
  - cbv zeta in H. fold (afterScan inp st) in H.
    rewrite afterScan_scanCounter in H.
    destruct (incr32 (scanCounter st) >=? SCANS_PER_UPLOAD).
    + right; right. injection H as H. repeat split. symmetry. exact H.
    + right; left. injection H as H1 H2. repeat split; congruence.
  - left. injection H as H1 H2. repeat split; congruence.
Qed.

Lemma fresh_bound (hs : list string) (seen : gset string) :
  (size (list_to_set hs ∖ seen : gset string) <= length hs)%nat.
Proof.
  revert seen. induction hs as [|h hs IH]; intros seen.
  - replace (list_to_set [] ∖ seen : gset string) with (∅ : gset string) by set_solver.
    rewrite size_empty. simpl. lia.
  - rewrite fresh_cons. specialize (IH ({[h]} ∪ seen)).
    destruct (decide (h ∈ seen)); simpl; lia.
Qed.

(** What a scan does to the cumulative counters: one more scan, and at
    most twenty increments of the cumulative unique total. *)
Lemma performWiFiScan_cumulative sc st :
  totalScansPerformed (performWiFiScan sc st) = incr32 (totalScansPerformed st)
  /\ totalReportsGenerated (performWiFiScan sc st) = totalReportsGenerated st
  /\ exists n, (n <= 20)%nat
       /\ totalWifiNetworks (performWiFiScan sc st) = Nat.iter n incr32 (totalWifiNetworks st).
Proof.
  destruct (Z.lt_trichotomy (networksFound sc) 0) as [H|[H|H]].
  - rewrite performWiFiScan_error by exact H.
    repeat split. exists 0%nat. split; [lia | reflexivity].
  - rewrite performWiFiScan_none by exact H.
    repeat split. exists 0%nat. split; [lia | reflexivity].
  - rewrite performWiFiScan_found by exact H. repeat split.
    eexists. split; [|reflexivity].
    etransitivity; [apply fresh_bound|].
    rewrite scanHashes_length.
    destruct (processCountOf_range _ H) as (Hr & _).
    unfold MAX_NETWORKS_PER_SCAN in Hr. lia.
Qed.

Lemma performWiFiScan_daily sc st :
  dailyImpressions (performWiFiScan sc st) = dailyImpressions st
  /\ currentDate (performWiFiScan sc st) = currentDate st.
Proof.
  destruct (Z.lt_trichotomy (networksFound sc) 0) as [H|[H|H]].
  - rewrite performWiFiScan_error by exact H. split; reflexivity.
  - rewrite performWiFiScan_none by exact H. split; reflexivity.
  - rewrite performWiFiScan_found by exact H. split; reflexivity.
Qed.

(** ** The range of the daily tally *)

Lemma runLoop_reaches inps st st' : runLoop inps st = Some st' -> reaches st st'.
Proof.
  revert st. induction inps as [|inp rest IH]; intros st H; simpl in H.
  - injection H as <-. apply reaches_refl.
  - destruct (loop inp st) as [[st1 calls]|] eqn:Hloop; [|discriminate H].
    eapply reaches_step; [exact Hloop | exact (IH _ H)].
Qed.






(** * The claims *)

(** C1.  Every fingerprint the [for] loop of a scan processes is
    classified against the two generation sets.  Already in the current
    set: the repeated counter of the scan goes up and no global changes.
    In neither set: it is inserted into the current set, and both the
    cumulative total and the unique counter of the scan go up by one.
    Only in the previous set: it is inserted and the unique counter goes
    up, the cumulative total does not.  The counters of the scan are then
    folded into the cycle counters.  At the start of a cycle, a scan of
    [A, A, B] leaves two unique, one repeated and a cumulative total
    grown by two. *)
Theorem fingerprint_classification
    (sc : ScanResult) (entry : State) (i : nat) (st : State) (A B : list byte) :
  let acc := scanLoopAfter sc entry i in
  let acc' := scanLoopAfter sc entry (S i) in
  let h := hashMAC (ephemeralSalt entry) (BSSID sc i) in
  let cur := currentCycleHashes (globals acc) in
  let prev := previousCycleHashes (globals acc) in
  (h ∈ cur ->
     globals acc' = globals acc
     /\ repeatedInThisScan acc' = repeatedInThisScan acc + 1
     /\ uniqueInThisScan acc' = uniqueInThisScan acc)
  /\ (h ∉ cur -> h ∉ prev ->
       globals acc' =
         set_totalWifiNetworks (incr32 (totalWifiNetworks (globals acc)))
           (set_currentCycleHashes ({[h]} ∪ cur) (globals acc))
       /\ uniqueInThisScan acc' = uniqueInThisScan acc + 1
       /\ repeatedInThisScan acc' = repeatedInThisScan acc)
  /\ (h ∉ cur -> h ∈ prev ->
       globals acc' = set_currentCycleHashes ({[h]} ∪ cur) (globals acc)
       /\ uniqueInThisScan acc' = uniqueInThisScan acc + 1
       /\ repeatedInThisScan acc' = repeatedInThisScan acc)
  /\ (0 < networksFound sc ->
       let final := scanLoopAfter sc (loopEntry sc st)
                      (Z.to_nat (processCountOf (networksFound sc))) in
       uniqueWifiNetworks (performWiFiScan sc st)
         = wrap32 (uniqueWifiNetworks st + uniqueInThisScan final)
       /\ repeatedWifiNetworks (performWiFiScan sc st)
           = wrap32 (repeatedWifiNetworks st + repeatedInThisScan final)
       /\ totalWifiNetworks (performWiFiScan sc st) = totalWifiNetworks (globals final)
       /\ currentCycleHashes (performWiFiScan sc st) = currentCycleHashes (globals final))
  /\ (hashMAC (ephemeralSalt st) A <> hashMAC (ephemeralSalt st) B ->
       currentCycleHashes st = ∅ ->
       hashMAC (ephemeralSalt st) A ∉ previousCycleHashes st ->
       hashMAC (ephemeralSalt st) B ∉ previousCycleHashes st ->
       uniqueWifiNetworks st = 0 ->
       repeatedWifiNetworks st = 0 ->
       uniqueWifiNetworks (performWiFiScan (scanOf [A; A; B]) st) = 2
       /\ repeatedWifiNetworks (performWiFiScan (scanOf [A; A; B]) st) = 1
       /\ totalWifiNetworks (performWiFiScan (scanOf [A; A; B]) st)
           = wrap32 (totalWifiNetworks st + 2)).
Proof.
  intros acc acc' h cur prev.
  assert (Hstep : acc' = classifyHash h acc).
  { unfold acc'. rewrite scanLoopAfter_S. unfold scanIteration.
    fold acc. unfold acc at 1. rewrite scanLoopAfter_salt. reflexivity. }
  split; [|split; [|split; [|split]]].
  - intros Hc. rewrite Hstep, (classifyHash_repeated h acc Hc). auto.
  - intros Hc Hp. rewrite Hstep, (classifyHash_new h acc Hc Hp). auto.
  - intros Hc Hp. rewrite Hstep, (classifyHash_previous h acc Hc Hp). auto.
  - intros Hpos final. rewrite (performWiFiScan_fold sc st Hpos).
    cbv zeta. fold final.
    destruct (scanLoopAfter_spec sc (loopEntry sc st)
                (Z.to_nat (processCountOf (networksFound sc)))) as (Hg & _).
    fold final in Hg. rewrite Hg. simpl. repeat split; reflexivity.
  - intros Hne Hcur HA HB Hu Hr.
    assert (Hpos : 0 < networksFound (scanOf [A; A; B])) by (simpl; lia).
    pose proof (performWiFiScan_found _ st Hpos) as Hf. cbv zeta in Hf.
    set (a := hashMAC (ephemeralSalt st) A) in *.
    set (b := hashMAC (ephemeralSalt st) B) in *.
    assert (Hhs : scanHashes (scanOf [A; A; B]) (ephemeralSalt st)
                    (Z.to_nat (processCountOf (networksFound (scanOf [A; A; B]))))
                  = [a; a; b]) by reflexivity.
    rewrite Hhs, Hcur in Hf.
    assert (Hfresh : size (list_to_set [a; a; b] ∖ ∅ : gset string) = 2%nat).
    { rewrite <- (size_two a b Hne). f_equal. set_solver. }
    assert (Hnew : size (list_to_set [a; a; b] ∖ (∅ ∪ previousCycleHashes st) : gset string)
                   = 2%nat).
    { rewrite <- (size_two a b Hne). f_equal. set_solver. }
    rewrite Hfresh, Hnew, Hu, Hr in Hf. rewrite Hf.
    repeat split. unfold withDedup, incr32. simpl.
    rewrite wrap32_add_l. f_equal. lia.
Qed.

Lemma fingerprint_classification_witness :
  (* the second result of [A, A, B] is a repeat *)
  (hashMAC (ephemeralSalt bootedGlobals) (BSSID sampleScan 1)
     ∈ currentCycleHashes (globals (scanLoopAfter sampleScan bootedGlobals 1))
   /\ repeatedInThisScan (scanLoopAfter sampleScan bootedGlobals 2)
      = repeatedInThisScan (scanLoopAfter sampleScan bootedGlobals 1) + 1)
  (* the first one is new to the system *)
  /\ ((hashMAC (ephemeralSalt bootedGlobals) (BSSID sampleScan 0)
         ∉ currentCycleHashes (globals (scanLoopAfter sampleScan bootedGlobals 0)))
      /\ (hashMAC (ephemeralSalt bootedGlobals) (BSSID sampleScan 0)
           ∉ previousCycleHashes (globals (scanLoopAfter sampleScan bootedGlobals 0)))
      /\ uniqueInThisScan (scanLoopAfter sampleScan bootedGlobals 1)
         = uniqueInThisScan (scanLoopAfter sampleScan bootedGlobals 0) + 1)
  (* one cycle later it is known from the previous generation *)
  /\ ((hashMAC (ephemeralSalt nextCycleGlobals) (BSSID sampleScan 0)
         ∉ currentCycleHashes (globals (scanLoopAfter sampleScan nextCycleGlobals 0)))
      /\ hashMAC (ephemeralSalt nextCycleGlobals) (BSSID sampleScan 0)
           ∈ previousCycleHashes (globals (scanLoopAfter sampleScan nextCycleGlobals 0))
      /\ globals (scanLoopAfter sampleScan nextCycleGlobals 1)
         = set_currentCycleHashes
             ({[hashMAC (ephemeralSalt nextCycleGlobals) (BSSID sampleScan 0)]}
              ∪ currentCycleHashes (globals (scanLoopAfter sampleScan nextCycleGlobals 0)))
             (globals (scanLoopAfter sampleScan nextCycleGlobals 0)))
  (* the counters of the scan reach the cycle counters *)
  /\ (0 < networksFound sampleScan
      /\ totalWifiNetworks (performWiFiScan sampleScan bootedGlobals)
         = totalWifiNetworks
             (globals (scanLoopAfter sampleScan (loopEntry sampleScan bootedGlobals)
                         (Z.to_nat (processCountOf (networksFound sampleScan))))))
  (* and [A, A, B] counts two unique, one repeated *)
  /\ (hashMAC (ephemeralSalt bootedGlobals) macA <> hashMAC (ephemeralSalt bootedGlobals) macB
      /\ uniqueWifiNetworks (performWiFiScan (scanOf [macA; macA; macB]) bootedGlobals) = 2
      /\ repeatedWifiNetworks (performWiFiScan (scanOf [macA; macA; macB]) bootedGlobals) = 1).
Proof.
  pose proof (fingerprint_classification sampleScan bootedGlobals 1 bootedGlobals macA macB)
    as H1.
  pose proof (fingerprint_classification sampleScan bootedGlobals 0 bootedGlobals macA macB)
    as H2.
  pose proof (fingerprint_classification sampleScan nextCycleGlobals 0 bootedGlobals macA macB)
    as H3.
  cbv zeta in H1, H2, H3.
  destruct H1 as (Hrep & _ & _ & Hfold & Hex).
  destruct H2 as (_ & Hnew & _).
  destruct H3 as (_ & _ & Hold & _).
  assert (Hin1 : hashMAC (ephemeralSalt bootedGlobals) (BSSID sampleScan 1)
                   ∈ currentCycleHashes (globals (scanLoopAfter sampleScan bootedGlobals 1)))
    by by_evaluation.
  assert (Hc0 : hashMAC (ephemeralSalt bootedGlobals) (BSSID sampleScan 0)
                  ∉ currentCycleHashes (globals (scanLoopAfter sampleScan bootedGlobals 0)))
    by by_evaluation.
  assert (Hp0 : hashMAC (ephemeralSalt bootedGlobals) (BSSID sampleScan 0)
                  ∉ previousCycleHashes (globals (scanLoopAfter sampleScan bootedGlobals 0)))
    by by_evaluation.
  assert (Hc2 : hashMAC (ephemeralSalt nextCycleGlobals) (BSSID sampleScan 0)
                  ∉ currentCycleHashes (globals (scanLoopAfter sampleScan nextCycleGlobals 0)))
    by by_evaluation.
  assert (Hp2 : hashMAC (ephemeralSalt nextCycleGlobals) (BSSID sampleScan 0)
                  ∈ previousCycleHashes (globals (scanLoopAfter sampleScan nextCycleGlobals 0)))
    by by_evaluation.
  assert (Hpos : 0 < networksFound sampleScan) by reflexivity.
  assert (Hne : hashMAC (ephemeralSalt bootedGlobals) macA
                <> hashMAC (ephemeralSalt bootedGlobals) macB) by by_evaluation.
  split; [|split; [|split; [|split]]].
  - split; [exact Hin1 | apply (Hrep Hin1)].
  - split; [exact Hc0 | split; [exact Hp0 | apply (Hnew Hc0 Hp0)]].
  - split; [exact Hc2 | split; [exact Hp2 | apply (Hold Hc2 Hp2)]].
  - split; [exact Hpos | apply (Hfold Hpos)].
  - split; [exact Hne|].
    assert (Hcur : currentCycleHashes bootedGlobals = ∅) by reflexivity.
    assert (HA : hashMAC (ephemeralSalt bootedGlobals) macA ∉ previousCycleHashes bootedGlobals)
      by by_evaluation.
    assert (HB : hashMAC (ephemeralSalt bootedGlobals) macB ∉ previousCycleHashes bootedGlobals)
      by by_evaluation.
    destruct (Hex Hne Hcur HA HB eq_refl eq_refl) as (Hu & Hr & _).
    split; [exact Hu | exact Hr].
Defined.

(** C2.  The memory of the de-duplicator spans two generations, the
    cycle end doing [previous := current; current := ∅].  An identifier
    seen in one cycle is, at its first processing in the next cycle,
    unique for that cycle only: the unique counter goes up, the cumulative
    total does not.  If it is missing from a whole cycle, its next
    processing finds it in neither set and the cumulative total goes up
    again.  With a single identifier [A]: cycles [A], [A] increment the
    total once; cycles [A], [B], [A] increment it for [A] a second time. *)
Theorem two_generation_memory
    (st : State) (A B : list byte) (rest cycle2 before : list ScanResult)
    (env1 env2 : ReportEnv) (u r : Z) :
  let h := hashMAC (ephemeralSalt st) A in
  let salt := ephemeralSalt st in
  (h ∈ currentCycleHashes st ->
     (h ∉ processedAll salt before ->
        let st2 := scanAll before (endOfCycle env1 (scanAll rest st)).1 in
        let acc := classifyHash h (mkScanLoop st2 u r) in
        totalWifiNetworks (globals acc) = totalWifiNetworks st2
        /\ uniqueInThisScan acc = u + 1
        /\ repeatedInThisScan acc = r)
     /\ (h ∉ processedAll salt cycle2 -> h ∉ processedAll salt before ->
         let st3 := scanAll before
                      (endOfCycle env2
                         (scanAll cycle2 (endOfCycle env1 (scanAll rest st)).1)).1 in
         let acc := classifyHash h (mkScanLoop st3 u r) in
         totalWifiNetworks (globals acc) = incr32 (totalWifiNetworks st3)
         /\ uniqueInThisScan acc = u + 1
         /\ repeatedInThisScan acc = r))
  /\ (currentCycleHashes st = ∅ ->
      h ∉ previousCycleHashes st ->
      hashMAC salt B <> h ->
      let c1 := performWiFiScan (scanOf [A]) st in
      let c2 := performWiFiScan (scanOf [A]) (endOfCycle env1 c1).1 in
      let d2 := performWiFiScan (scanOf [B]) (endOfCycle env1 c1).1 in
      let d3 := performWiFiScan (scanOf [A]) (endOfCycle env2 d2).1 in
      totalWifiNetworks c1 = incr32 (totalWifiNetworks st)
      /\ totalWifiNetworks c2 = totalWifiNetworks c1
      /\ uniqueWifiNetworks c2 = 1
      /\ totalWifiNetworks d3 = incr32 (totalWifiNetworks d2)).
Proof.
  intros h salt. split.
  - intros Hseen.
    assert (Hend1 : forall env, h ∈ previousCycleHashes (endOfCycle env (scanAll rest st)).1).
    { intros env. destruct (endOfCycle_sets env (scanAll rest st)) as (_ & Hp).
      destruct (scanAll_sets rest st) as (Hc & _).
      rewrite Hp, Hc. apply elem_of_union. right. exact Hseen. }
    assert (Hsalt1 : forall env,
               ephemeralSalt (endOfCycle env (scanAll rest st)).1 = salt).
    { intros env. rewrite endOfCycle_salt. apply scanAll_salt. }
    split.
    + intros Hnot st2 acc.
      destruct (scanAll_sets before (endOfCycle env1 (scanAll rest st)).1) as (Hc & Hp).
      destruct (endOfCycle_sets env1 (scanAll rest st)) as (Hc0 & _).
      rewrite Hsalt1, Hc0 in Hc. fold st2 in Hc, Hp.
      assert (Hcur : h ∉ currentCycleHashes st2).
      { rewrite Hc. rewrite elem_of_union, elem_of_list_to_set.
        intros [Hin|Hin]; [exact (Hnot Hin) | exact (not_elem_of_empty _ Hin)]. }
      assert (Hprev : h ∈ previousCycleHashes st2) by (rewrite Hp; apply Hend1).
      unfold acc. rewrite (classifyHash_previous h (mkScanLoop st2 u r) Hcur Hprev).
      repeat split.
    + intros Hnot2 Hnot st3 acc.
      set (s1 := (endOfCycle env1 (scanAll rest st)).1) in *.
      set (s2 := (endOfCycle env2 (scanAll cycle2 s1)).1) in *.
      destruct (scanAll_sets cycle2 s1) as (Hc2 & _).
      destruct (endOfCycle_sets env1 (scanAll rest st)) as (Hc1 & _). fold s1 in Hc1.
      destruct (endOfCycle_sets env2 (scanAll cycle2 s1)) as (Hc3 & Hp3). fold s2 in Hc3, Hp3.
      destruct (scanAll_sets before s2) as (Hc & Hp). fold st3 in Hc, Hp.
      assert (Hs1 : ephemeralSalt s1 = salt) by apply Hsalt1.
      assert (Hs2 : ephemeralSalt s2 = salt).
      { unfold s2. rewrite endOfCycle_salt, scanAll_salt. exact Hs1. }
      rewrite Hs1, Hc1 in Hc2. rewrite Hs2, Hc3 in Hc. rewrite Hp3, Hc2 in Hp.
      assert (Hcur : h ∉ currentCycleHashes st3).
      { rewrite Hc. rewrite elem_of_union, elem_of_list_to_set.
        intros [Hin|Hin]; [exact (Hnot Hin) | exact (not_elem_of_empty _ Hin)]. }
      assert (Hprev : h ∉ previousCycleHashes st3).
      { rewrite Hp. rewrite elem_of_union, elem_of_list_to_set.
        intros [Hin|Hin]; [exact (Hnot2 Hin) | exact (not_elem_of_empty _ Hin)]. }
      unfold acc. rewrite (classifyHash_new h (mkScanLoop st3 u r) Hcur Hprev).
      repeat split.
  - intros Hcur Hprev Hne c1 c2 d2 d3.
    destruct (performWiFiScan_single A st) as (Ht1 & Hu1 & Hc1). fold h in Ht1, Hu1, Hc1.
    fold c1 in Ht1, Hu1, Hc1.
    assert (Hout : h ∉ currentCycleHashes st ∪ previousCycleHashes st).
    { rewrite Hcur, elem_of_union.
      intros [Hin|Hin]; [exact (not_elem_of_empty _ Hin) | exact (Hprev Hin)]. }
    rewrite (decide_False _ _ Hout) in Ht1.
    set (e1 := (endOfCycle env1 c1).1) in *.
    assert (Hse : ephemeralSalt e1 = salt).
    { unfold e1. rewrite endOfCycle_salt. apply performWiFiScan_salt. }
    destruct (endOfCycle_sets env1 c1) as (Hec & Hep). fold e1 in Hec, Hep.
    assert (Heu : uniqueWifiNetworks e1 = 0).
    { unfold e1, endOfCycle. destruct (reportAnalytics env1 c1). reflexivity. }
    assert (Het : totalWifiNetworks e1 = totalWifiNetworks c1) by apply endOfCycle_total.
    split; [exact Ht1|].
    destruct (performWiFiScan_single A e1) as (Ht2 & Hu2 & _).
    rewrite Hse in Ht2, Hu2. fold h c2 in Ht2, Hu2.
    assert (Hin2 : h ∈ currentCycleHashes e1 ∪ previousCycleHashes e1).
    { rewrite Hep, Hc1. apply elem_of_union. right.
      apply elem_of_union. left. apply elem_of_singleton. reflexivity. }
    assert (Hnc2 : h ∉ currentCycleHashes e1).
    { rewrite Hec. apply not_elem_of_empty. }
    rewrite (decide_True _ _ Hin2) in Ht2. rewrite (decide_False _ _ Hnc2), Heu in Hu2.
    split; [rewrite Ht2; exact Het|]. split; [exact Hu2|].
    destruct (performWiFiScan_single B e1) as (_ & _ & Hdc).
    rewrite Hse, Hec in Hdc. fold salt d2 in Hdc.
    destruct (performWiFiScan_sets (scanOf [B]) e1) as (_ & Hdp). fold d2 in Hdp.
    set (e2 := (endOfCycle env2 d2).1) in *.
    assert (Hse2 : ephemeralSalt e2 = salt).
    { unfold e2. rewrite endOfCycle_salt. unfold d2. rewrite performWiFiScan_salt. exact Hse. }
    destruct (endOfCycle_sets env2 d2) as (Hec2 & Hep2). fold e2 in Hec2, Hep2.
    destruct (performWiFiScan_single A e2) as (Ht3 & _ & _).
    rewrite Hse2 in Ht3. fold h d3 in Ht3.
    assert (Hout3 : h ∉ currentCycleHashes e2 ∪ previousCycleHashes e2).
    { rewrite Hec2, Hep2, Hdc. rewrite !elem_of_union, elem_of_singleton.
      intros [Hin|[Hin|Hin]];
        [exact (not_elem_of_empty _ Hin) | exact (Hne (eq_sym Hin))
        | exact (not_elem_of_empty _ Hin)]. }
    rewrite (decide_False _ _ Hout3) in Ht3. rewrite Ht3.
    f_equal. apply endOfCycle_total.
Qed.

Lemma two_generation_memory_witness :
  (* seen in the running cycle, met again one and two cycles later *)
  (hashA ∈ currentCycleHashes afterSamplePass
   /\ (hashA ∉ processedAll (ephemeralSalt afterSamplePass) onlyB)
   /\ (let st2 := scanAll onlyB (endOfCycle quietEnv (scanAll [] afterSamplePass)).1 in
       totalWifiNetworks (globals (classifyHash hashA (mkScanLoop st2 0 0)))
       = totalWifiNetworks st2)
   /\ (let st3 := scanAll onlyB
                    (endOfCycle quietEnv
                       (scanAll onlyB
                          (endOfCycle quietEnv (scanAll [] afterSamplePass)).1)).1 in
       totalWifiNetworks (globals (classifyHash hashA (mkScanLoop st3 0 0)))
       = incr32 (totalWifiNetworks st3)))
  (* the cycles [A], [A] and [A], [B], [A] from a fresh start *)
  /\ (currentCycleHashes bootedGlobals = ∅
      /\ (hashMAC (ephemeralSalt bootedGlobals) macA ∉ previousCycleHashes bootedGlobals)
      /\ hashMAC (ephemeralSalt bootedGlobals) macB <> hashMAC (ephemeralSalt bootedGlobals) macA
      /\ (let c1 := performWiFiScan (scanOf [macA]) bootedGlobals in
          let c2 := performWiFiScan (scanOf [macA]) (endOfCycle quietEnv c1).1 in
          totalWifiNetworks c1 = incr32 (totalWifiNetworks bootedGlobals)
          /\ totalWifiNetworks c2 = totalWifiNetworks c1)).
Proof.
  pose proof (two_generation_memory afterSamplePass macA macB [] onlyB onlyB
                quietEnv quietEnv 0 0) as H1.
  pose proof (two_generation_memory bootedGlobals macA macB [] onlyB onlyB
                quietEnv quietEnv 0 0) as H2.
  cbv zeta in H1, H2. fold hashA in H1.
  destruct H1 as (Hgen & _). destruct H2 as (_ & Hrun).
  assert (Hseen : hashA ∈ currentCycleHashes afterSamplePass) by by_evaluation.
  assert (Hnot : hashA ∉ processedAll (ephemeralSalt afterSamplePass) onlyB) by by_evaluation.
  assert (Hcur : currentCycleHashes bootedGlobals = ∅) by reflexivity.
  assert (Hprev : hashMAC (ephemeralSalt bootedGlobals) macA
                    ∉ previousCycleHashes bootedGlobals) by by_evaluation.
  assert (Hne : hashMAC (ephemeralSalt bootedGlobals) macB
                <> hashMAC (ephemeralSalt bootedGlobals) macA) by by_evaluation.
  destruct (Hgen Hseen) as (Hnext & Hlater).
  split.
  - split; [exact Hseen|]. split; [exact Hnot|]. split.
    + apply (Hnext Hnot).
    + apply (Hlater Hnot Hnot).
  - split; [exact Hcur|]. split; [exact Hprev|]. split; [exact Hne|].
    destruct (Hrun Hcur Hprev Hne) as (Ha & Hb & _). split; [exact Ha | exact Hb].
Defined.

(** C3, as the code has it.  A scan that found [n > 0] results adds [n],
    the raw count, to the cycle total [wifiNetworksThisCycle] and to the
    impression count of the cycle [impressionCount], and folds the counts
    of its own classification into [uniqueWifiNetworks] and
    [repeatedWifiNetworks]; it leaves [dailyImpressions] as it was.  The
    daily tally grows at the next report, by the impression count the
    cycle has accumulated (unless that report detects a new day). *)
Theorem scan_recording (sc : ScanResult) (st : State) (env : ReportEnv) :
  0 < networksFound sc ->
  let st' := performWiFiScan sc st in
  let final := scanLoopAfter sc (loopEntry sc st)
                 (Z.to_nat (processCountOf (networksFound sc))) in
  wifiNetworksThisCycle st' = wrap32 (wifiNetworksThisCycle st + networksFound sc)
  /\ impressionCount st' = wrap32 (impressionCount st + networksFound sc)
  /\ uniqueWifiNetworks st' = wrap32 (uniqueWifiNetworks st + uniqueInThisScan final)
  /\ repeatedWifiNetworks st' = wrap32 (repeatedWifiNetworks st + repeatedInThisScan final)
  /\ uniqueInThisScan final + repeatedInThisScan final = processCountOf (networksFound sc)
  /\ dailyImpressions st' = dailyImpressions st
  /\ (dayChanged env st' = false ->
      dailyImpressions (reportAnalytics env st').1
      = wrap32 (dailyImpressions st + impressionCount st')).
Proof.
  intros Hpos st' final.
  destruct (scanLoopAfter_spec sc (loopEntry sc st)
              (Z.to_nat (processCountOf (networksFound sc)))) as (Hg & Hu & Hr).
  fold final in Hg, Hu, Hr.
  destruct (processCountOf_range _ Hpos) as (Hrange & _).
  assert (Hdaily : dailyImpressions st' = dailyImpressions st).
  { unfold st'. rewrite (performWiFiScan_found sc st Hpos). reflexivity. }
  unfold st' at 1 2 3 4. rewrite (performWiFiScan_fold sc st Hpos). cbv zeta.
  fold final. rewrite Hg.
  split; [reflexivity|]. split; [reflexivity|]. split; [reflexivity|].
  split; [reflexivity|]. split; [rewrite Hu, Hr; lia|]. split; [exact Hdaily|].
  intros Hsame. rewrite reportAnalytics_daily, Hsame, Hdaily. reflexivity.
Qed.

Lemma scan_recording_witness :
  0 < networksFound sampleScan
  /\ impressionCount (performWiFiScan sampleScan bootedGlobals)
     = wrap32 (impressionCount bootedGlobals + networksFound sampleScan)
  /\ dailyImpressions (performWiFiScan sampleScan bootedGlobals)
     = dailyImpressions bootedGlobals
  /\ dayChanged quietEnv (performWiFiScan sampleScan bootedGlobals) = false
  /\ dailyImpressions (reportAnalytics quietEnv (performWiFiScan sampleScan bootedGlobals)).1
     = wrap32 (dailyImpressions bootedGlobals
               + impressionCount (performWiFiScan sampleScan bootedGlobals)).
Proof.
  assert (Hpos : 0 < networksFound sampleScan) by reflexivity.
  assert (Hsame : dayChanged quietEnv (performWiFiScan sampleScan bootedGlobals) = false)
    by (vm_compute; reflexivity).
  pose proof (scan_recording sampleScan bootedGlobals quietEnv Hpos) as H.
  cbv zeta in H. destruct H as (_ & Himp & _ & _ & _ & Hdaily & Hreport).
  split; [exact Hpos|]. split; [exact Himp|]. split; [exact Hdaily|].
  split; [exact Hsame | exact (Hreport Hsame)].
Defined.

(** C3 as stated fails: a pass of [loop] that scans [A, A, B], three raw
    detections, leaves the daily tally at 0. *)
Lemma scan_daily_tally_counterexample :
  loop samplePass bootedGlobals = Some (afterSamplePass, [])
  /\ networksFound (scanned samplePass) = 3
  /\ dailyImpressions bootedGlobals = 0
  /\ dailyImpressions afterSamplePass = 0
  /\ dailyImpressions afterSamplePass
     <> dailyImpressions bootedGlobals + networksFound (scanned samplePass).
Proof.
  split; [vm_compute; reflexivity|]. split; [reflexivity|].
  split; [reflexivity|]. split; [vm_compute; reflexivity|].
  vm_compute. discriminate.
Qed.

(** C4, as the code has it.  When the database client is ready and the
    clock gives a valid date that differs from the stored, non-empty date,
    the stored date becomes that date and the daily tally becomes the
    value fetched from the remote store for the new date when the fetch
    succeeded with a value above zero, and zero otherwise; the running
    total of the day before plays no part. *)
Theorem day_rollover (env : ReportEnv) (st : State) :
  let newDate := extractDateFromDateTime (simTime env) in
  let path := newDayPath st newDate in
  appReady env = true ->
  newDate <> "Unknown"%string ->
  simTime env <> "Time unavailable"%string ->
  newDate <> currentDate st ->
  currentDate st <> EmptyString ->
  is_int (dbValue env path) ->
  currentDate (reportAnalytics env st).1 = newDate
  /\ dailyImpressions (reportAnalytics env st).1
     = (if (dbErrorCode env path =? 0) && (dbValue env path >? 0)
        then dbValue env path else 0)
  /\ In (DbGet path) (reportAnalytics env st).2.
Proof.
  intros newDate path Hready Hknown Htime Hdiff Hstored Hint.
  pose proof (dayChanged_true env st Hready Hknown Htime Hdiff Hstored) as Hday.
  destruct (reportAnalytics_dayChanged env st Hday) as (Hdate & Hget).
  split; [exact Hdate|]. split; [|exact Hget].
  rewrite reportAnalytics_daily, Hday. cbv zeta. fold newDate path.
  destruct (dbErrorCode env path =? 0); simpl; [|reflexivity].
  destruct (Z.gtb_spec (dbValue env path) 0); [|reflexivity].
  apply wrap32_small. unfold is_int in Hint. unfold is_uint32. lia.
Qed.

Lemma day_rollover_witness :
  appReady nextDayEnv = true
  /\ extractDateFromDateTime (simTime nextDayEnv) = "2025-12-03"%string
  /\ currentDate ninePasses = "2025-12-02"%string
  /\ currentDate (reportAnalytics nextDayEnv ninePasses).1 = "2025-12-03"%string
  /\ dailyImpressions (reportAnalytics nextDayEnv ninePasses).1 = 42.
Proof.
  pose proof (day_rollover nextDayEnv ninePasses) as H. cbv zeta in H.
  assert (Hready : appReady nextDayEnv = true) by reflexivity.
  assert (Hknown : extractDateFromDateTime (simTime nextDayEnv) <> "Unknown"%string)
    by (vm_compute; discriminate).
  assert (Htime : simTime nextDayEnv <> "Time unavailable"%string)
    by (vm_compute; discriminate).
  assert (Hdiff : extractDateFromDateTime (simTime nextDayEnv) <> currentDate ninePasses)
    by (vm_compute; discriminate).
  assert (Hstored : currentDate ninePasses <> EmptyString) by (vm_compute; discriminate).
  assert (Hint : is_int (dbValue nextDayEnv
                           (newDayPath ninePasses
                              (extractDateFromDateTime (simTime nextDayEnv)))))
    by (unfold is_int; simpl; lia).
  destruct (H Hready Hknown Htime Hdiff Hstored Hint) as (Hdate & Hdaily & _).
  split; [exact Hready|]. split; [vm_compute; reflexivity|].
  split; [vm_compute; reflexivity|]. split; [exact Hdate | exact Hdaily].
Defined.

(** C4 as stated fails when the database client is not ready: the clock
    is on 2025-12-03, the stored date is 2025-12-02, and the tenth pass of
    the cycle keeps the stored date and adds the 30 impressions of the
    cycle to the tally of the old day. *)
Lemma day_rollover_counterexample :
  extractDateFromDateTime (simTime offlineNextDayEnv) = "2025-12-03"%string
  /\ simTime offlineNextDayEnv <> "Time unavailable"%string
  /\ currentDate ninePasses = "2025-12-02"%string
  /\ dailyImpressions ninePasses = 0
  /\ exists st',
      loop (mkLoopInput 52000 sampleScan offlineNextDayEnv) ninePasses = Some (st', [])
      /\ currentDate st' = "2025-12-02"%string
      /\ currentDate st' <> extractDateFromDateTime (simTime offlineNextDayEnv)
      /\ dailyImpressions st' = 30.
Proof.
  split; [vm_compute; reflexivity|]. split; [vm_compute; discriminate|].
  split; [vm_compute; reflexivity|]. split; [vm_compute; reflexivity|].
  eexists. split; [vm_compute; reflexivity|].
  split; [vm_compute; reflexivity|]. split; [vm_compute; discriminate|].
  vm_compute. reflexivity.
Qed.

(** C5, as the code has it.  When the clock answers "Time unavailable",
    the report makes no remote call (so no JSON is built for one), the
    stored date is kept and the daily tally is neither reset nor replaced;
    the tally has nevertheless received the impressions of the cycle,
    which [reportAnalytics] adds before it asks for the time.  The end of
    the cycle then rolls the generations and zeroes the cycle counters as
    usual. *)
Theorem time_unavailable_skip (env : ReportEnv) (st : State) :
  simTime env = "Time unavailable"%string ->
  (reportAnalytics env st).2 = []
  /\ currentDate (reportAnalytics env st).1 = currentDate st
  /\ dailyImpressions (reportAnalytics env st).1
      = wrap32 (dailyImpressions st + impressionCount st)
  /\ totalDataSent (reportAnalytics env st).1 = totalDataSent st
  /\ (endOfCycle env st).2 = []
  /\ previousCycleHashes (endOfCycle env st).1 = currentCycleHashes st
  /\ currentCycleHashes (endOfCycle env st).1 = ∅
  /\ wifiNetworksThisCycle (endOfCycle env st).1 = 0
  /\ repeatedWifiNetworks (endOfCycle env st).1 = 0
  /\ uniqueWifiNetworks (endOfCycle env st).1 = 0
  /\ impressionCount (endOfCycle env st).1 = 0
  /\ scanCounter (endOfCycle env st).1 = 0.
Proof.
  intros Htime.
  destruct (reportAnalytics_unavailable env st Htime) as (Hcalls & Hdate & Hsent).
  destruct (endOfCycle_sets env st) as (Hcur & Hprev).
  destruct (endOfCycle_reset env st) as (H1 & H2 & H3 & H4 & H5).
  rewrite endOfCycle_calls.
  rewrite reportAnalytics_daily, (dayChanged_unavailable env st Htime).
  repeat split; assumption.
Qed.

Lemma time_unavailable_skip_witness :
  simTime unavailableEnv = "Time unavailable"%string
  /\ (reportAnalytics unavailableEnv ninePasses).2 = []
  /\ dailyImpressions (reportAnalytics unavailableEnv ninePasses).1
      = wrap32 (dailyImpressions ninePasses + impressionCount ninePasses)
  /\ currentCycleHashes (endOfCycle unavailableEnv ninePasses).1 = ∅.
Proof.
  pose proof (time_unavailable_skip unavailableEnv ninePasses eq_refl)
    as (Hcalls & _ & Hdaily & _ & _ & _ & Hcur & _).
  split; [reflexivity|]. split; [exact Hcalls|]. split; [exact Hdaily | exact Hcur].
Defined.

(** C5 as stated fails: in the tenth pass of a cycle of scans of
    [A, A, B], with the clock unavailable, no call is made and yet the
    daily tally moves from 0 to 30. *)
Lemma time_unavailable_tally_counterexample :
  simTime unavailableEnv = "Time unavailable"%string
  /\ exists st',
      loop (mkLoopInput 52000 sampleScan unavailableEnv) ninePasses = Some (st', [])
      /\ dailyImpressions ninePasses = 0
      /\ dailyImpressions st' = 30
      /\ dailyImpressions st' <> dailyImpressions ninePasses.
Proof.
  split; [reflexivity|].
  eexists. split; [vm_compute; reflexivity|].
  split; [vm_compute; reflexivity|]. split; [vm_compute; reflexivity|].
  vm_compute. discriminate.
Qed.

(** C6, as the code has it.  On a scan error [performWiFiScan] increments
    the error tally and, before that, the cumulative count of scans; the
    batch is discarded and nothing else is written: no cycle count of
    detections, no cumulative unique total, no hash set, no daily tally.
    The pass of [loop] that made the poll records it like any other: it
    stamps [lastScanTime] and increments [scanCounter]. *)
Theorem scan_error_effect (inp : LoopInput) (st : State) :
  networksFound (scanned inp) < 0 ->
  let st' := performWiFiScan (scanned inp) st in
  st' = set_scanErrors (incr32 (scanErrors st))
          (set_totalScansPerformed (incr32 (totalScansPerformed st)) st)
  /\ scanErrors st' = incr32 (scanErrors st)
  /\ totalScansPerformed st' = incr32 (totalScansPerformed st)
  /\ currentCycleHashes st' = currentCycleHashes st
  /\ previousCycleHashes st' = previousCycleHashes st
  /\ wifiNetworksThisCycle st' = wifiNetworksThisCycle st
  /\ uniqueWifiNetworks st' = uniqueWifiNetworks st
  /\ repeatedWifiNetworks st' = repeatedWifiNetworks st
  /\ impressionCount st' = impressionCount st
  /\ totalWifiNetworks st' = totalWifiNetworks st
  /\ dailyImpressions st' = dailyImpressions st
  /\ ((wrap32 (currentTime inp - systemStartTime st) >=? RESTART_AFTER_MS) = false ->
      (wrap32 (currentTime inp - lastScanTime st) >=? SCAN_INTERVAL_MS) = true ->
      (incr32 (scanCounter st) >=? SCANS_PER_UPLOAD) = false ->
      loop inp st
      = Some (set_scanCounter (incr32 (scanCounter st))
                (set_lastScanTime (currentTime inp) st'), [])).
Proof.
  intros Herr st'. unfold st'.
  rewrite (performWiFiScan_error _ st Herr).
  repeat (split; [reflexivity|]).
  intros Hup Hdue Hmore. unfold loop.
  rewrite Hup, Hdue, (performWiFiScan_error _ st Herr).
  cbv zeta.
  change (scanCounter (set_lastScanTime _ _)) with (scanCounter st).
  change (scanCounter (set_scanCounter ?v _)) with v.
  rewrite Hmore. reflexivity.
Qed.

Lemma scan_error_effect_witness :
  networksFound failedScan < 0
  /\ scanErrors (performWiFiScan failedScan bootedGlobals)
     = incr32 (scanErrors bootedGlobals)
  /\ totalScansPerformed (performWiFiScan failedScan bootedGlobals)
     = incr32 (totalScansPerformed bootedGlobals)
  /\ loop (mkLoopInput 7000 failedScan quietEnv) bootedGlobals
     = Some (set_scanCounter (incr32 (scanCounter bootedGlobals))
               (set_lastScanTime 7000 (performWiFiScan failedScan bootedGlobals)), []).
Proof.
  assert (Herr : networksFound (scanned (mkLoopInput 7000 failedScan quietEnv)) < 0)
    by reflexivity.
  pose proof (scan_error_effect (mkLoopInput 7000 failedScan quietEnv) bootedGlobals Herr)
    as H.
  cbv zeta in H. destruct H as (_ & He & Ht & _ & _ & _ & _ & _ & _ & _ & _ & Hloop).
  split; [exact Herr|]. split; [exact He|]. split; [exact Ht|].
  apply Hloop; reflexivity.
Defined.

(** C6 as stated fails: a failed scan moves the cumulative count of scans
    from 0 to 1, and the pass that made it moves the scan counter of the
    cycle from 0 to 1. *)
Lemma scan_error_counterexample :
  networksFound failedScan < 0
  /\ totalScansPerformed bootedGlobals = 0
  /\ totalScansPerformed (performWiFiScan failedScan bootedGlobals) = 1
  /\ exists st',
      loop (mkLoopInput 7000 failedScan quietEnv) bootedGlobals = Some (st', [])
      /\ scanCounter bootedGlobals = 0
      /\ scanCounter st' = 1
      /\ totalScansPerformed st' <> totalScansPerformed bootedGlobals.
Proof.
  split; [reflexivity|]. split; [reflexivity|]. split; [reflexivity|].
  eexists. split; [vm_compute; reflexivity|].
  split; [reflexivity|]. split; [reflexivity|]. vm_compute. discriminate.
Qed.

(** C7.  The block that ends a report cycle zeroes every counter of the
    cycle (total, unique, repeated, impressions, scan counter) and writes
    none of the cumulative counters.  It runs in every pass of [loop]
    that reaches the tenth scan, after the report, which has counted
    itself.  And no pass ever resets a cumulative counter: each one is
    either left alone or incremented. *)
Theorem cycle_reset_frame (inp : LoopInput) (st st' : State) (calls : list RemoteCall) :
  (wifiNetworksThisCycle (resetCycleTracking st) = 0
   /\ uniqueWifiNetworks (resetCycleTracking st) = 0
   /\ repeatedWifiNetworks (resetCycleTracking st) = 0
   /\ impressionCount (resetCycleTracking st) = 0
   /\ scanCounter (resetCycleTracking st) = 0
   /\ totalWifiNetworks (resetCycleTracking st) = totalWifiNetworks st
   /\ totalScansPerformed (resetCycleTracking st) = totalScansPerformed st
   /\ totalReportsGenerated (resetCycleTracking st) = totalReportsGenerated st)
  /\ (loop inp st = Some (st', calls) ->
      ((wrap32 (currentTime inp - lastScanTime st) >=? SCAN_INTERVAL_MS) = true ->
       (incr32 (scanCounter st) >=? SCANS_PER_UPLOAD) = true ->
       st' = resetCycleTracking (reportAnalytics (reportEnv inp) (afterScan inp st)).1
       /\ wifiNetworksThisCycle st' = 0
       /\ uniqueWifiNetworks st' = 0
       /\ repeatedWifiNetworks st' = 0
       /\ impressionCount st' = 0
       /\ scanCounter st' = 0
       /\ totalReportsGenerated st' = incr32 (totalReportsGenerated st))
      /\ (totalScansPerformed st' = totalScansPerformed st
          \/ totalScansPerformed st' = incr32 (totalScansPerformed st))
      /\ (totalReportsGenerated st' = totalReportsGenerated st
          \/ totalReportsGenerated st' = incr32 (totalReportsGenerated st))
      /\ (exists n, (n <= 20)%nat
           /\ totalWifiNetworks st' = Nat.iter n incr32 (totalWifiNetworks st))).
Proof.
  split; [repeat split|].
  intros Hloop.
  destruct (performWiFiScan_cumulative (scanned inp) st) as (Hscans & Hreports & n & Hn & Htotal).
  assert (Hend : (st', calls) = endOfCycle (reportEnv inp) (afterScan inp st) ->
            st' = resetCycleTracking (reportAnalytics (reportEnv inp) (afterScan inp st)).1
            /\ totalScansPerformed st' = incr32 (totalScansPerformed st)
            /\ totalReportsGenerated st' = incr32 (totalReportsGenerated st)
            /\ totalWifiNetworks st' = Nat.iter n incr32 (totalWifiNetworks st)).
  { intros Heq.
    assert (Hst : st' = (endOfCycle (reportEnv inp) (afterScan inp st)).1)
      by (rewrite <- Heq; reflexivity).
    rewrite endOfCycle_report in Hst.
    pose proof (reportAnalytics_counting (reportEnv inp) (afterScan inp st)) as Hsame.
    unfold sameCounting in Hsame.
    destruct Hsame as (_ & _ & _ & _ & Hw & Hs & _).
    destruct (reportAnalytics_reports (reportEnv inp) (afterScan inp st)) as (Hr & _).
    split; [exact Hst|]. subst st'.
    change (totalScansPerformed (resetCycleTracking ?s)) with (totalScansPerformed s).
    change (totalReportsGenerated (resetCycleTracking ?s)) with (totalReportsGenerated s).
    change (totalWifiNetworks (resetCycleTracking ?s)) with (totalWifiNetworks s).
    rewrite Hs, Hr, Hw. unfold afterScan. simpl.
    rewrite Hscans, Hreports, Htotal. auto. }
  destruct (loop_cases inp st st' calls Hloop)
    as [(Hdue & -> & _) | [(Hdue & Hmore & -> & _) | (Hdue & Hmore & Heq)]].
  - split; [intros Hdue'; congruence|].
    split; [left; reflexivity|]. split; [left; reflexivity|].
    exists 0%nat. split; [lia | reflexivity].
  - split; [intros _ Hmore'; congruence|].
    unfold afterScan. simpl.
    split; [right; exact Hscans|]. split; [left; exact Hreports|].
    exists n. split; [exact Hn | exact Htotal].
  - destruct (Hend Heq) as (Hst & Hs & Hr & Hw).
    split.
    + intros _ _. split; [exact Hst|].
      rewrite Hst at 1 2 3 4 5. repeat (split; [reflexivity|]). exact Hr.
    + split; [right; exact Hs|]. split; [right; exact Hr|].
      exists n. split; [exact Hn | exact Hw].
Qed.

Lemma cycle_reset_frame_witness :
  loop tenthPass ninePasses = Some (afterTenPasses, tenthPassCalls)
  /\ scanCounter ninePasses = 9
  /\ wifiNetworksThisCycle ninePasses = 27
  /\ wifiNetworksThisCycle afterTenPasses = 0
  /\ scanCounter afterTenPasses = 0
  /\ totalReportsGenerated afterTenPasses = incr32 (totalReportsGenerated ninePasses)
  /\ (totalScansPerformed afterTenPasses = totalScansPerformed ninePasses
      \/ totalScansPerformed afterTenPasses = incr32 (totalScansPerformed ninePasses)).
Proof.
  assert (Hloop : loop tenthPass ninePasses = Some (afterTenPasses, tenthPassCalls))
    by (vm_compute; reflexivity).
  destruct (cycle_reset_frame tenthPass ninePasses afterTenPasses tenthPassCalls)
    as (_ & Hpass).
  destruct (Hpass Hloop) as (Hend & Hscans & _).
  destruct Hend as (_ & Hw & _ & _ & _ & Hc & Hr);
    [vm_compute; reflexivity | vm_compute; reflexivity |].
  split; [exact Hloop|]. split; [vm_compute; reflexivity|].
  split; [vm_compute; reflexivity|]. split; [exact Hw|]. split; [exact Hc|].
  split; [exact Hr | exact Hscans].
Defined.

(** C8.  [hashMAC] is the 64-bit FNV-1a hash (offset basis
    0xcbf29ce484222325, prime 0x100000001b3) of the six identifier bytes
    followed by the four bytes of the salt, printed as sixteen hexadecimal
    digits; and it is deterministic: it reads nothing but the identifier
    and the salt, and no pass of [loop] changes the salt, so the same
    identifier gets the same fingerprint at any two moments of a process.
    The printing loses nothing: two fingerprints are equal exactly when
    the two hash values are. *)
Theorem hashMAC_is_salted_fnv1a (st st' : State) (macAddr : list byte) :
  length macAddr = 6%nat ->
  reaches st st' ->
  hashMAC (ephemeralSalt st) macAddr
    = hex16 (fnv1a_64 (map u8 macAddr ++ salt_bytes (ephemeralSalt st)))
  /\ hashMAC (ephemeralSalt st') macAddr = hashMAC (ephemeralSalt st) macAddr
  /\ (forall other : list byte,
      length other = 6%nat ->
      hashMAC (ephemeralSalt st) macAddr = hashMAC (ephemeralSalt st) other
      <-> fnv1a_64 (map u8 macAddr ++ salt_bytes (ephemeralSalt st))
          = fnv1a_64 (map u8 other ++ salt_bytes (ephemeralSalt st))).
Proof.
  intros Hlen Hreach. split; [|split].
  - unfold hashMAC. rewrite hashMAC_value_fnv1a by exact Hlen. reflexivity.
  - rewrite (reaches_salt _ _ Hreach). reflexivity.
  - intros other Hother.
    rewrite hashMAC_eq_iff, !hashMAC_value_fnv1a by assumption. reflexivity.
Qed.

Lemma hashMAC_is_salted_fnv1a_witness :
  length macA = 6%nat
  /\ reaches bootedGlobals afterSamplePass
  /\ hashMAC (ephemeralSalt bootedGlobals) macA
      = hex16 (fnv1a_64 (map u8 macA ++ salt_bytes (ephemeralSalt bootedGlobals)))
  /\ hashMAC (ephemeralSalt afterSamplePass) macA
      = hashMAC (ephemeralSalt bootedGlobals) macA.
Proof.
  assert (Hreach : reaches bootedGlobals afterSamplePass).
  { apply (reaches_step _ samplePass afterSamplePass [] _).
    - vm_compute. reflexivity.
    - apply reaches_refl. }
  split; [reflexivity|]. split; [exact Hreach|].
  destruct (hashMAC_is_salted_fnv1a bootedGlobals afterSamplePass macA eq_refl Hreach)
    as (Hfnv & Hsame & _).
  split; [exact Hfnv | exact Hsame].
Defined.




(** C10.  A scan that found more than 20 results classifies only the
    first 20: the current set receives their fingerprints and no other,
    the result does not depend on the later entries, and the counts of
    the scan add up to 20; yet the impression count and the cycle total
    grow by the full number found.  So unique plus repeated can fall
    short of the cycle total, as after a scan of 21 results; while a scan
    of at most 20 results counts each of them as unique or repeated, and
    keeps unique plus repeated in step with the cycle total. *)
Theorem safety_cap_asymmetry (sc sc' : ScanResult) (st : State) :
  let st' := performWiFiScan sc st in
  let final := scanLoopAfter sc (loopEntry sc st)
                 (Z.to_nat (processCountOf (networksFound sc))) in
  (MAX_NETWORKS_PER_SCAN < networksFound sc ->
     currentCycleHashes st'
       = list_to_set (scanHashes sc (ephemeralSalt st) 20) ∪ currentCycleHashes st
     /\ uniqueWifiNetworks st' = wrap32 (uniqueWifiNetworks st + uniqueInThisScan final)
     /\ repeatedWifiNetworks st' = wrap32 (repeatedWifiNetworks st + repeatedInThisScan final)
     /\ uniqueInThisScan final + repeatedInThisScan final = 20
     /\ impressionCount st' = wrap32 (impressionCount st + networksFound sc)
     /\ wifiNetworksThisCycle st' = wrap32 (wifiNetworksThisCycle st + networksFound sc)
     /\ (networksFound sc' = networksFound sc ->
         (forall i, (i < 20)%nat -> BSSID sc' i = BSSID sc i) ->
         performWiFiScan sc' st = st'))
  /\ (0 < networksFound sc <= MAX_NETWORKS_PER_SCAN ->
      uniqueWifiNetworks st' = wrap32 (uniqueWifiNetworks st + uniqueInThisScan final)
      /\ repeatedWifiNetworks st' = wrap32 (repeatedWifiNetworks st + repeatedInThisScan final)
      /\ uniqueInThisScan final + repeatedInThisScan final = networksFound sc
      /\ wifiNetworksThisCycle st' = wrap32 (wifiNetworksThisCycle st + networksFound sc)
      /\ (wrap32 (uniqueWifiNetworks st + repeatedWifiNetworks st)
            = wrap32 (wifiNetworksThisCycle st) ->
          wrap32 (uniqueWifiNetworks st' + repeatedWifiNetworks st')
            = wrap32 (wifiNetworksThisCycle st')))
  /\ (let crowded := performWiFiScan crowdedScan bootedGlobals in
      networksFound crowdedScan = 21
      /\ wifiNetworksThisCycle crowded = 21
      /\ uniqueWifiNetworks crowded + repeatedWifiNetworks crowded = 20
      /\ uniqueWifiNetworks crowded + repeatedWifiNetworks crowded
         < wifiNetworksThisCycle crowded).
Proof.
  intros st' final.
  assert (Hcounts : 0 < networksFound sc ->
            uniqueWifiNetworks st' = wrap32 (uniqueWifiNetworks st + uniqueInThisScan final)
            /\ repeatedWifiNetworks st'
               = wrap32 (repeatedWifiNetworks st + repeatedInThisScan final)
            /\ uniqueInThisScan final + repeatedInThisScan final
               = processCountOf (networksFound sc)
            /\ impressionCount st' = wrap32 (impressionCount st + networksFound sc)
            /\ wifiNetworksThisCycle st'
               = wrap32 (wifiNetworksThisCycle st + networksFound sc)).
  { intros Hpos.
    destruct (scan_fold_counts sc st Hpos) as (H1 & H2 & H3 & H4 & H5).
    repeat split; assumption. }
  split; [|split].
  - intros Hbig. unfold MAX_NETWORKS_PER_SCAN in Hbig.
    assert (Hpos : 0 < networksFound sc) by lia.
    assert (Hcap : processCountOf (networksFound sc) = 20).
    { destruct (processCountOf_range _ Hpos) as (_ & Hmin).
      rewrite Hmin. unfold MAX_NETWORKS_PER_SCAN. lia. }
    destruct (Hcounts Hpos) as (Hu & Hr & Hsum & Hi & Hw).
    rewrite Hcap in Hsum.
    split; [|split; [exact Hu|]; split; [exact Hr|]; split; [exact Hsum|];
             split; [exact Hi|]; split; [exact Hw|]].
    + unfold st'. rewrite (performWiFiScan_found sc st Hpos), Hcap. reflexivity.
    + intros Hfound Hsame. unfold st'.
      assert (Hpos' : 0 < networksFound sc') by lia.
      rewrite (performWiFiScan_found sc' st Hpos'), (performWiFiScan_found sc st Hpos).
      rewrite Hfound, Hcap. change (Z.to_nat 20) with 20%nat.
      rewrite (scanHashes_agree sc sc' (ephemeralSalt st) 20 Hsame). reflexivity.
  - intros (Hpos & Hsmall). unfold MAX_NETWORKS_PER_SCAN in Hsmall.
    assert (Hall : processCountOf (networksFound sc) = networksFound sc).
    { destruct (processCountOf_range _ Hpos) as (_ & Hmin).
      rewrite Hmin. unfold MAX_NETWORKS_PER_SCAN. lia. }
    destruct (Hcounts Hpos) as (Hu & Hr & Hsum & Hi & Hw).
    rewrite Hall in Hsum.
    split; [exact Hu|]. split; [exact Hr|]. split; [exact Hsum|]. split; [exact Hw|].
    intros Hinv. rewrite Hu, Hr, Hw, wrap32_add, wrap32_idem.
    replace (uniqueWifiNetworks st + uniqueInThisScan final
             + (repeatedWifiNetworks st + repeatedInThisScan final))
      with (uniqueWifiNetworks st + repeatedWifiNetworks st + networksFound sc) by lia.
    rewrite <- (wrap32_add_l (uniqueWifiNetworks st + repeatedWifiNetworks st)), Hinv.
    apply wrap32_add_l.
  - vm_compute. repeat split; reflexivity.
Qed.

Lemma safety_cap_asymmetry_witness :
  (MAX_NETWORKS_PER_SCAN < networksFound crowdedScan
   /\ networksFound crowdedScan' = networksFound crowdedScan
   /\ (forall i, (i < 20)%nat -> BSSID crowdedScan' i = BSSID crowdedScan i)
   /\ impressionCount (performWiFiScan crowdedScan bootedGlobals)
      = wrap32 (impressionCount bootedGlobals + networksFound crowdedScan)
   /\ performWiFiScan crowdedScan' bootedGlobals = performWiFiScan crowdedScan bootedGlobals)
  /\ (0 < networksFound sampleScan <= MAX_NETWORKS_PER_SCAN
      /\ wrap32 (uniqueWifiNetworks bootedGlobals + repeatedWifiNetworks bootedGlobals)
         = wrap32 (wifiNetworksThisCycle bootedGlobals)
      /\ wrap32 (uniqueWifiNetworks (performWiFiScan sampleScan bootedGlobals)
                 + repeatedWifiNetworks (performWiFiScan sampleScan bootedGlobals))
         = wrap32 (wifiNetworksThisCycle (performWiFiScan sampleScan bootedGlobals))).
Proof.
  pose proof (safety_cap_asymmetry crowdedScan crowdedScan' bootedGlobals) as H1.
  pose proof (safety_cap_asymmetry sampleScan sampleScan bootedGlobals) as H2.
  cbv zeta in H1, H2.
  destruct H1 as (Hbig & _). destruct H2 as (_ & Hsmall & _).
  assert (Hover : MAX_NETWORKS_PER_SCAN < networksFound crowdedScan) by reflexivity.
  assert (Hfound : networksFound crowdedScan' = networksFound crowdedScan) by reflexivity.
  assert (Hsame : forall i, (i < 20)%nat -> BSSID crowdedScan' i = BSSID crowdedScan i).
  { intros i Hi. do 20 (destruct i as [|i]; [reflexivity|]). lia. }
  assert (Hfew : 0 < networksFound sampleScan <= MAX_NETWORKS_PER_SCAN)
    by (split; [reflexivity | discriminate]).
  assert (Hinv : wrap32 (uniqueWifiNetworks bootedGlobals + repeatedWifiNetworks bootedGlobals)
                 = wrap32 (wifiNetworksThisCycle bootedGlobals)) by reflexivity.
  destruct (Hbig Hover) as (_ & _ & _ & _ & Himp & _ & Hagree).
  destruct (Hsmall Hfew) as (_ & _ & _ & _ & Hstep).
  split.
  - split; [exact Hover|]. split; [exact Hfound|]. split; [exact Hsame|].
    split; [exact Himp | exact (Hagree Hfound Hsame)].
  - split; [exact Hfew|]. split; [exact Hinv | exact (Hstep Hinv)].
Defined.

(** * Further properties *)

(** ** Strings *)

Lemma append_cons (x : ascii) (a b : string) : String x a +:+ b = String x (a +:+ b).
Proof. reflexivity. Qed.

Lemma append_nil (b : string) : EmptyString +:+ b = b.
Proof. reflexivity. Qed.

Lemma append_assoc (a b c : string) : (a +:+ b) +:+ c = a +:+ (b +:+ c).
Proof.
  induction a as [|x a IH]; [reflexivity|].
  rewrite !append_cons, IH. reflexivity.
Qed.

Lemma strlen_cons (x : ascii) (s : string) : strlen (String x s) = strlen s + 1.
Proof. unfold strlen. simpl String.length. lia. Qed.

Lemma strlen_append (a b : string) : strlen (a +:+ b) = strlen a + strlen b.
Proof.
  induction a as [|x a IH]; [reflexivity|].
  rewrite append_cons, !strlen_cons, IH. lia.
Qed.

Lemma strlen_nonneg (s : string) : 0 <= strlen s.
Proof. unfold strlen. lia. Qed.

Lemma length_append (a b : string) :
  String.length (a +:+ b) = (String.length a + String.length b)%nat.
Proof. pose proof (strlen_append a b) as H. unfold strlen in H. lia. Qed.

Lemma substring_prefix (a b : string) : substring 0 (String.length a) (a +:+ b) = a.
Proof.
  induction a as [|x a IH]; [destruct b; reflexivity|].
  rewrite append_cons. simpl. rewrite IH. reflexivity.
Qed.

Lemma substring_skip (a b : string) (m : nat) :
  substring (String.length a) m (a +:+ b) = substring 0 m b.
Proof.
  induction a as [|x a IH]; [reflexivity|].
  rewrite append_cons. simpl. exact IH.
Qed.

Lemma substring_length (s : string) (n m : nat) :
  (n + m <= String.length s)%nat -> String.length (substring n m s) = m.
Proof.
  revert n m. induction s as [|x s IH]; intros n m H; simpl in H.
  - assert (n = 0%nat) by lia. assert (m = 0%nat) by lia. subst. reflexivity.
  - destruct n as [|n].
    + destruct m as [|m]; [reflexivity|]. simpl. rewrite IH by lia. reflexivity.
    + simpl. apply IH. lia.
Qed.

Lemma occurs_cons c x (s : string) : occurs c (String x s) <-> x = c \/ occurs c s.
Proof. reflexivity. Qed.

Lemma occurs_append c (a b : string) : occurs c (a +:+ b) <-> occurs c a \/ occurs c b.
Proof.
  induction a as [|x a IH].
  - rewrite append_nil. unfold occurs at 2. simpl. tauto.
  - rewrite append_cons, !occurs_cons, IH. tauto.
Qed.

Lemma indexOf_cons c x (s : string) :
  indexOf c (String x s) =
  if Ascii.eqb x c then 0 else if indexOf c s <? 0 then -1 else indexOf c s + 1.
Proof. reflexivity. Qed.

Lemma indexOf_bounds c s : -1 <= indexOf c s <= strlen s - 1.
Proof.
  induction s as [|x s IH]; [split; discriminate|].
  rewrite indexOf_cons, strlen_cons. pose proof (strlen_nonneg s).
  destruct (Ascii.eqb x c); [lia|].
  destruct (Z.ltb_spec (indexOf c s) 0); lia.
Qed.

Lemma indexOf_absent c s : indexOf c s = -1 <-> ~ occurs c s.
Proof.
  induction s as [|x s IH].
  - split; [intros _ []| reflexivity].
  - rewrite indexOf_cons, occurs_cons.
    destruct (Ascii.eqb_spec x c) as [->|Hne].
    + split; [discriminate | intros H; exfalso; apply H; left; reflexivity].
    + destruct (indexOf_bounds c s) as (Hlow & _).
      destruct (Z.ltb_spec (indexOf c s) 0) as [Hneg|Hpos].
      * split; [|reflexivity]. intros _ [Heq|Hin]; [congruence|].
        apply IH; [lia | exact Hin].
      * split; [lia|]. intros Hno. exfalso.
        assert (Hm : indexOf c s = -1) by (apply IH; tauto). lia.
Qed.

Lemma indexOf_first c (pre post : string) :
  ~ occurs c pre -> indexOf c (pre +:+ String c post) = strlen pre.
Proof.
  induction pre as [|x pre IH]; intros Hno.
  - rewrite append_nil, indexOf_cons, Ascii.eqb_refl. reflexivity.
  - rewrite occurs_cons in Hno. rewrite append_cons, indexOf_cons, strlen_cons.
    destruct (Ascii.eqb_spec x c) as [->|Hne]; [tauto|].
    rewrite IH by tauto. pose proof (strlen_nonneg pre).
    destruct (Z.ltb_spec (strlen pre) 0); lia.
Qed.

Lemma indexOf_split c s :
  0 <= indexOf c s ->
  exists pre post, s = pre +:+ String c post /\ ~ occurs c pre /\ strlen pre = indexOf c s.
Proof.
  induction s as [|x s IH]; [simpl; lia|].
  rewrite indexOf_cons.
  destruct (Ascii.eqb_spec x c) as [->|Hne]; intros Hpos.
  - exists EmptyString, s. repeat split. intros [].
  - destruct (Z.ltb_spec (indexOf c s) 0) as [Hneg|Hge]; [lia|].
    destruct (IH Hge) as (pre & post & -> & Hno & Hlen).
    exists (String x pre), post. split; [reflexivity|]. split.
    + rewrite occurs_cons. tauto.
    + rewrite strlen_cons. lia.
Qed.

Lemma substring_all (s : string) (m : nat) :
  (String.length s <= m)%nat -> substring 0 m s = s.
Proof.
  revert m. induction s as [|x s IH]; intros m H.
  - destruct m; reflexivity.
  - simpl in H. destruct m as [|m]; [lia|]. simpl. rewrite IH by lia. reflexivity.
Qed.

Lemma substring_middle (a b c : string) :
  substring (String.length a) (String.length b) (a +:+ b +:+ c) = b.
Proof. rewrite substring_skip. apply substring_prefix. Qed.

Lemma substring_zero (s : string) : substring 0 0 s = EmptyString.
Proof. destruct s; reflexivity. Qed.

Lemma substring_cons (x : ascii) (s : string) (m : nat) :
  substring 0 (S m) (String x s) = String x (substring 0 m s).
Proof. reflexivity. Qed.

Lemma indexOf_skip c x (s : string) :
  x <> c -> occurs c s -> indexOf c (String x s) = indexOf c s + 1.
Proof.
  intros Hne Hocc. rewrite indexOf_cons.
  destruct (Ascii.eqb_spec x c) as [Heq|_]; [contradiction|].
  destruct (indexOf_bounds c s) as (Hlow & _).
  destruct (Z.ltb_spec (indexOf c s) 0) as [Hneg|]; [|reflexivity].
  exfalso. assert (Hm : indexOf c s = -1) by lia.
  apply indexOf_absent in Hm. exact (Hm Hocc).
Qed.

(** ** [extractDateFromDateTime] *)

Lemma extractDate_prefix (date rest : string) :
  date <> EmptyString -> ~ occurs " " date ->
  extractDateFromDateTime (date +:+ String " " rest) = date.
Proof.
  intros Hne Hno. unfold extractDateFromDateTime.
  rewrite (indexOf_first " " date rest Hno).
  assert (Hpos : 0 < strlen date).
  { destruct date as [|x d]; [congruence|]. rewrite strlen_cons.
    pose proof (strlen_nonneg d). lia. }
  destruct (Z.gtb_spec (strlen date) 0); [|lia].
  unfold strlen. rewrite Nat2Z.id. apply substring_prefix.
Qed.

Lemma extractDate_cases (s : string) :
  (indexOf " " s <= 0 /\ extractDateFromDateTime s = "Unknown"%string)
  \/ exists date rest,
       s = date +:+ String " " rest /\ date <> EmptyString /\ ~ occurs " " date
       /\ extractDateFromDateTime s = date.
Proof.
  destruct (Z_le_gt_dec (indexOf " " s) 0) as [Hle|Hgt].
  - left. split; [exact Hle|]. unfold extractDateFromDateTime.
    destruct (Z.gtb_spec (indexOf " " s) 0); [lia | reflexivity].
  - right. destruct (indexOf_split " " s) as (date & rest & Hs & Hno & Hlen); [lia|].
    exists date, rest.
    assert (Hne : date <> EmptyString).
    { intros ->. unfold strlen in Hlen. simpl in Hlen. lia. }
    split; [exact Hs|]. split; [exact Hne|]. split; [exact Hno|].
    rewrite Hs. apply extractDate_prefix; assumption.
Qed.


Lemma occurs_Unknown : ~ occurs " " "Unknown".
Proof. unfold occurs. simpl. intros H. repeat (destruct H as [H|H]; [discriminate H|]). exact H. Qed.

Lemma extractDate_result (s : string) :
  extractDateFromDateTime s <> EmptyString /\ ~ occurs " " (extractDateFromDateTime s).
Proof.
  destruct (extractDate_cases s) as [(_ & ->) | (date & rest & _ & Hne & Hno & ->)].
  - split; [discriminate | exact occurs_Unknown].
  - split; assumption.
Qed.

(** ** [getTimeFromSIM7600] *)

Lemma String_substring_ordered (s : string) (left right : nat) :
  (left <= right)%nat -> String_substring s left right = substring left (right - left) s.
Proof.
  intros H. unfold String_substring.
  destruct (Nat.ltb_spec right left); [lia | reflexivity].
Qed.

Lemma String_substring_length (s : string) (left right : nat) :
  (left <= right)%nat -> (right <= String.length s)%nat ->
  String.length (String_substring s left right) = (right - left)%nat.
Proof.
  intros H1 H2. rewrite String_substring_ordered by exact H1.
  apply substring_length. lia.
Qed.

Lemma formatClock_shape (timeStr : string) :
  exists rest, formatClock timeStr = String "2" (String "0" rest) /\ occurs " " rest.
Proof.
  unfold formatClock. cbv zeta.
  eexists. split; [rewrite !append_assoc; reflexivity|].
  rewrite !occurs_append. right. right. right. right. right. left.
  left. reflexivity.
Qed.

Lemma formatClock_length (timeStr : string) :
  17 <= strlen timeStr -> strlen (formatClock timeStr) = 23.
Proof.
  intros H. unfold strlen in H. unfold formatClock. cbv zeta.
  rewrite !strlen_append. unfold strlen.
  rewrite !String_substring_length by lia. reflexivity.
Qed.

Lemma parseClock_shape (response t : string) :
  parseClock response = Some t ->
  strlen t = 23 /\ exists rest, t = String "2" (String "0" rest) /\ occurs " " rest.
Proof.
  unfold parseClock. cbv zeta.
  destruct (_ && _); [|discriminate].
  destruct (Z.geb_spec (strlen (String_substring response
              (Z.to_nat (indexOf (ascii_of_nat 34) response + 1))
              (Z.to_nat (indexOfFrom (ascii_of_nat 34) response
                           (indexOf (ascii_of_nat 34) response + 1))))) 17) as [Hlen|];
    [|discriminate].
  intros H. injection H as <-.
  split; [apply formatClock_length; exact Hlen | apply formatClock_shape].
Qed.

Lemma clockAttempts_cases responses attempt remaining :
  (clockAttempts responses attempt remaining = "Time unavailable"%string
   /\ forall k, (k < remaining)%nat -> parseClock (responses (attempt + k)%nat) = None)
  \/ exists k, (k < remaining)%nat
       /\ parseClock (responses (attempt + k)%nat)
          = Some (clockAttempts responses attempt remaining)
       /\ forall j, (j < k)%nat -> parseClock (responses (attempt + j)%nat) = None.
Proof.
  revert attempt. induction remaining as [|n IH]; intros attempt.
  - left. split; [reflexivity | intros k Hk; lia].
  - simpl. destruct (parseClock (responses attempt)) as [t|] eqn:Hp.
    + right. exists 0%nat. rewrite Nat.add_0_r. split; [lia|]. split; [exact Hp|].
      intros j Hj. lia.
    + destruct (IH (S attempt)) as [(Hs & Hall) | (k & Hk & Hsome & Hbefore)].
      * left. split; [exact Hs|]. intros k Hk. destruct k as [|k].
        -- rewrite Nat.add_0_r. exact Hp.
        -- replace (attempt + S k)%nat with (S attempt + k)%nat by lia. apply Hall. lia.
      * right. exists (S k). split; [lia|].
        replace (attempt + S k)%nat with (S attempt + k)%nat by lia.
        split; [exact Hsome|]. intros j Hj. destruct j as [|j].
        -- rewrite Nat.add_0_r. exact Hp.
        -- replace (attempt + S j)%nat with (S attempt + j)%nat by lia. apply Hbefore. lia.
Qed.

Lemma formatted_not_sentinel (t : string) :
  strlen t = 23 -> t <> "Time unavailable"%string.
Proof. intros Hlen ->. discriminate Hlen. Qed.

Lemma extractDate_formatted (rest : string) :
  occurs " " rest ->
  exists date, extractDateFromDateTime (String "2" (String "0" rest))
               = String "2" (String "0" date).
Proof.
  intros Hocc. unfold extractDateFromDateTime.
  assert (H0 : occurs " " (String "0" rest)) by (rewrite occurs_cons; right; exact Hocc).
  rewrite (indexOf_skip " " "2" _ ltac:(discriminate) H0).
  rewrite (indexOf_skip " " "0" _ ltac:(discriminate) Hocc).
  destruct (indexOf_bounds " " rest) as (Hlow & _).
  assert (Hnn : 0 <= indexOf " " rest).
  { destruct (Z_lt_le_dec (indexOf " " rest) 0) as [Hneg|]; [|assumption].
    exfalso. assert (Hm : indexOf " " rest = -1) by lia.
    apply indexOf_absent in Hm. exact (Hm Hocc). }
  destruct (Z.gtb_spec (indexOf " " rest + 1 + 1) 0); [|lia].
  replace (Z.to_nat (indexOf " " rest + 1 + 1))
    with (S (S (Z.to_nat (indexOf " " rest)))) by lia.
  rewrite !substring_cons. eexists. reflexivity.
Qed.

Lemma parseClock_quoted (pre t post : string) :
  ~ occurs (ascii_of_nat 34) pre ->
  ~ occurs (ascii_of_nat 34) t ->
  17 <= strlen t ->
  parseClock (pre +:+ dq +:+ t +:+ dq +:+ post) = Some (formatClock t).
Proof.
  intros Hpre Ht Hlen. unfold parseClock. cbv zeta.
  set (q := ascii_of_nat 34) in *.
  set (response := pre +:+ dq +:+ t +:+ dq +:+ post).
  assert (Hresp : response = (pre +:+ dq) +:+ t +:+ String q post).
  { unfold response. rewrite append_assoc. reflexivity. }
  assert (Hstart : indexOf q response = strlen pre).
  { unfold response. apply (indexOf_first q pre (t +:+ dq +:+ post) Hpre). }
  assert (Hlenq : String.length (pre +:+ dq) = S (String.length pre)).
  { rewrite length_append. simpl. lia. }
  assert (Htotal : strlen response = strlen pre + 1 + strlen t + 1 + strlen post).
  { rewrite Hresp, !strlen_append, strlen_cons. unfold dq. rewrite strlen_cons.
    change (strlen EmptyString) with 0. lia. }
  pose proof (strlen_nonneg pre) as Hp0. pose proof (strlen_nonneg post) as Hq0.
  assert (Hnat : Z.to_nat (strlen pre + 1) = String.length (pre +:+ dq)).
  { rewrite Hlenq. unfold strlen. lia. }
  assert (Hend : indexOfFrom q response (indexOf q response + 1)
                 = strlen pre + 1 + strlen t).
  { unfold indexOfFrom. rewrite Hstart.
    destruct (Z.ltb_spec (strlen pre + 1) 0); [lia|].
    destruct (Z.geb_spec (strlen pre + 1) (strlen response)); [lia|].
    cbv [orb]. rewrite Hnat.
    assert (Hdrop : substring (String.length (pre +:+ dq)) (String.length response) response
                    = t +:+ String q post).
    { rewrite Hresp, substring_skip. apply substring_all.
      rewrite !length_append. lia. }
    rewrite Hdrop, (indexOf_first q t post Ht).
    destruct (Z.ltb_spec (strlen t) 0); [lia | reflexivity]. }
  rewrite Hend, Hstart.
  destruct (Z.gtb_spec (strlen pre + 1) 0); [|lia].
  destruct (Z.gtb_spec (strlen pre + 1 + strlen t) (strlen pre + 1)); [|lia].
  cbv [andb].
  assert (Hsub : String_substring response (Z.to_nat (strlen pre + 1))
                   (Z.to_nat (strlen pre + 1 + strlen t)) = t).
  { rewrite String_substring_ordered by lia.
    replace (Z.to_nat (strlen pre + 1 + strlen t) - Z.to_nat (strlen pre + 1))%nat
      with (String.length t) by (unfold strlen; lia).
    rewrite Hnat, Hresp. apply substring_middle. }
  rewrite Hsub.
  destruct (Z.geb_spec (strlen t) 17); [reflexivity | lia].
Qed.

Lemma formatClock_fields (yy MM dd time tz : string) (s1 s2 s3 : ascii) :
  String.length yy = 2%nat -> String.length MM = 2%nat -> String.length dd = 2%nat ->
  String.length time = 8%nat ->
  formatClock (yy +:+ String s1 (MM +:+ String s2 (dd +:+ String s3 (time +:+ tz))))
  = "20" +:+ yy +:+ "-" +:+ MM +:+ "-" +:+ dd +:+ " " +:+ time +:+ " UTC".
Proof.
  intros Hy Hm Hd Ht.
  destruct yy as [|y1 [|y2 [|? ?]]]; try discriminate Hy.
  destruct MM as [|m1 [|m2 [|? ?]]]; try discriminate Hm.
  destruct dd as [|d1 [|d2 [|? ?]]]; try discriminate Hd.
  destruct time as [|t1 [|t2 [|t3 [|t4 [|t5 [|t6 [|t7 [|t8 [|? ?]]]]]]]]];
    try discriminate Ht.
  unfold formatClock, String_substring. cbv zeta. simpl Nat.ltb. cbv iota.
  rewrite !append_cons, !append_nil. simpl substring.
  destruct tz; reflexivity.
Qed.

(** ** Dates and clock answers: the properties *)

(** X1.  Date then time, separated by a space, gives the date back: for a
    non-empty date without a space, [extractDateFromDateTime] returns
    exactly the date, whatever follows the first space. *)
Theorem extractDate_round_trip (date rest : string) :
  date <> EmptyString ->
  ~ occurs " " date ->
  extractDateFromDateTime (date +:+ " " +:+ rest) = date.
Proof. intros Hne Hno. apply (extractDate_prefix date rest Hne Hno). Qed.

Lemma extractDate_round_trip_witness :
  "2025-12-02"%string <> EmptyString
  /\ ~ occurs " " "2025-12-02"
  /\ extractDateFromDateTime ("2025-12-02" +:+ " " +:+ "14:30:45 UTC") = "2025-12-02"%string.
Proof.
  assert (Hne : "2025-12-02"%string <> EmptyString) by discriminate.
  assert (Hno : ~ occurs " " "2025-12-02").
  { unfold occurs. simpl. intros H.
    repeat (destruct H as [H|H]; [discriminate H|]). exact H. }
  split; [exact Hne|]. split; [exact Hno|].
  apply (extractDate_round_trip "2025-12-02" "14:30:45 UTC" Hne Hno).
Defined.


Lemma getTime_first_answer
    (responses : nat -> string) (pre post yy MM dd time tz : string) (s1 s2 s3 : ascii) :
  let timeStr := yy +:+ String s1 (MM +:+ String s2 (dd +:+ String s3 (time +:+ tz))) in
  responses 0%nat = pre +:+ dq +:+ timeStr +:+ dq +:+ post ->
  ~ occurs (ascii_of_nat 34) pre ->
  ~ occurs (ascii_of_nat 34) timeStr ->
  String.length yy = 2%nat -> String.length MM = 2%nat -> String.length dd = 2%nat ->
  String.length time = 8%nat ->
  getTimeFromSIM7600 responses
  = "20" +:+ yy +:+ "-" +:+ MM +:+ "-" +:+ dd +:+ " " +:+ time +:+ " UTC".
Proof.
  intros timeStr Hresp Hpre Ht Hy Hm Hd Htime.
  assert (Hlen : 17 <= strlen timeStr).
  { unfold timeStr. repeat (rewrite ?strlen_append, ?strlen_cons).
    pose proof (strlen_nonneg tz). unfold strlen in *. lia. }
  unfold getTimeFromSIM7600. simpl clockAttempts.
  rewrite Hresp, (parseClock_quoted pre timeStr post Hpre Ht Hlen).
  apply formatClock_fields; assumption.
Qed.

(** X3.  A well-formed answer of the modem is reformatted field by field:
    when the first answer holds, between its first two double quotes,
    [yy?MM?dd?hh:mm:ss] followed by anything, with two characters for each
    of year, month and day and eight for the time, [getTimeFromSIM7600]
    returns [20yy-MM-dd hh:mm:ss UTC]; the separators are not looked at. *)
Theorem getTime_well_formed
    (responses : nat -> string) (pre post yy MM dd time tz : string) (s1 s2 s3 : ascii) :
  let timeStr := yy +:+ String s1 (MM +:+ String s2 (dd +:+ String s3 (time +:+ tz))) in
  responses 0%nat = pre +:+ dq +:+ timeStr +:+ dq +:+ post ->
  ~ occurs (ascii_of_nat 34) pre ->
  ~ occurs (ascii_of_nat 34) timeStr ->
  String.length yy = 2%nat -> String.length MM = 2%nat -> String.length dd = 2%nat ->
  String.length time = 8%nat ->
  getTimeFromSIM7600 responses
  = "20" +:+ yy +:+ "-" +:+ MM +:+ "-" +:+ dd +:+ " " +:+ time +:+ " UTC".
Proof.
  intros timeStr Hresp Hpre Ht Hy Hm Hd Htime.
  apply (getTime_first_answer responses pre post yy MM dd time tz s1 s2 s3);
    assumption.
Qed.

Lemma getTime_well_formed_witness :
  promptModem 0%nat
    = "+CCLK: " +:+ dq +:+ ("25" +:+ String "/" ("12" +:+ String "/" ("02" +:+ String ","
        ("10:30:45" +:+ "+00")))) +:+ dq +:+ EmptyString
  /\ getTimeFromSIM7600 promptModem = "2025-12-02 10:30:45 UTC"%string.
Proof.
  assert (Hresp : promptModem 0%nat
    = "+CCLK: " +:+ dq +:+ ("25" +:+ String "/" ("12" +:+ String "/" ("02" +:+ String ","
        ("10:30:45" +:+ "+00")))) +:+ dq +:+ EmptyString) by reflexivity.
  split; [exact Hresp|].
  apply (getTime_well_formed promptModem "+CCLK: " EmptyString "25" "12" "02"
           "10:30:45" "+00" "/" "/" "," Hresp); try reflexivity.
  - unfold occurs. simpl. intros H.
    repeat (destruct H as [H|H]; [discriminate H|]). exact H.
  - unfold occurs. simpl. intros H.
    repeat (destruct H as [H|H]; [discriminate H|]). exact H.
Defined.

(** X4.  [getTimeFromSIM7600] returns "Time unavailable" exactly when none
    of its three attempts finds a quoted text of 17 characters or more;
    otherwise it returns what the first such attempt gives, a text of 23
    characters that starts with "20".  It reads three answers, no more. *)
Theorem getTime_sentinel_exact (responses others : nat -> string) :
  (getTimeFromSIM7600 responses = "Time unavailable"%string
   <-> parseClock (responses 0%nat) = None /\ parseClock (responses 1%nat) = None
       /\ parseClock (responses 2%nat) = None)
  /\ (getTimeFromSIM7600 responses = "Time unavailable"%string
      \/ (strlen (getTimeFromSIM7600 responses) = 23
          /\ (exists rest, getTimeFromSIM7600 responses = "20" +:+ rest)
          /\ exists k, (k < 3)%nat
               /\ parseClock (responses k) = Some (getTimeFromSIM7600 responses)
               /\ forall j, (j < k)%nat -> parseClock (responses j) = None))
  /\ ((responses 0%nat = others 0%nat /\ responses 1%nat = others 1%nat
       /\ responses 2%nat = others 2%nat)
      -> getTimeFromSIM7600 responses = getTimeFromSIM7600 others).
Proof.
  assert (Hcases := clockAttempts_cases responses 0 3).
  fold (getTimeFromSIM7600 responses) in Hcases. simpl in Hcases.
  split; [|split].
  - split.
    + intros Hs. destruct Hcases as [(_ & Hall) | (k & Hk & Hsome & _)].
      * repeat split; apply Hall; lia.
      * exfalso. destruct (parseClock_shape _ _ Hsome) as (Hlen & _).
        exact (formatted_not_sentinel _ Hlen Hs).
    + intros (H0 & H1 & H2). unfold getTimeFromSIM7600. simpl.
      rewrite H0, H1, H2. reflexivity.
  - destruct Hcases as [(Hs & _) | (k & Hk & Hsome & Hbefore)]; [left; exact Hs|].
    right. destruct (parseClock_shape _ _ Hsome) as (Hlen & rest & Hshape & _).
    split; [exact Hlen|]. split; [exists rest; exact Hshape|].
    exists k. split; [exact Hk|]. split; [exact Hsome | exact Hbefore].
  - intros (H0 & H1 & H2). unfold getTimeFromSIM7600. simpl.
    rewrite H0, H1, H2. reflexivity.
Qed.

Lemma getTime_sentinel_exact_witness :
  getTimeFromSIM7600 silentModem = "Time unavailable"%string
  /\ getTimeFromSIM7600 slowModem = "2025-12-02 10:30:45 UTC"%string
  /\ getTimeFromSIM7600 (fun n => match n with 3%nat => clockAnswer | _ => slowModem n end)
     = getTimeFromSIM7600 slowModem.
Proof.
  destruct (getTime_sentinel_exact silentModem silentModem) as (Hiff & _ & _).
  destruct (getTime_sentinel_exact
              (fun n => match n with 3%nat => clockAnswer | _ => slowModem n end) slowModem)
    as (_ & _ & Hsame).
  split; [apply Hiff; repeat split; reflexivity|].
  split; [vm_compute; reflexivity|].
  apply Hsame. repeat split; reflexivity.
Defined.

Lemma clockDate_cases (responses : nat -> string) :
  (getTimeFromSIM7600 responses = "Time unavailable"%string
   /\ extractDateFromDateTime (getTimeFromSIM7600 responses) = "Time"%string)
  \/ (getTimeFromSIM7600 responses <> "Time unavailable"%string
      /\ exists date,
           extractDateFromDateTime (getTimeFromSIM7600 responses) = "20" +:+ date).
Proof.
  pose proof (clockAttempts_cases responses 0 3) as Hc.
  change (clockAttempts responses 0 3) with (getTimeFromSIM7600 responses) in Hc.
  destruct Hc as [(Hs & _) | (k & _ & Hsome & _)].
  - left. split; [exact Hs|]. rewrite Hs. reflexivity.
  - right. destruct (parseClock_shape _ _ Hsome) as (Hlen & rest & Hshape & Hocc).
    split; [exact (formatted_not_sentinel _ Hlen)|].
    rewrite Hshape. destruct (extractDate_formatted rest Hocc) as (date & Hd).
    exists date. exact Hd.
Qed.

(** X5.  Whatever the modem answers, the date taken from the result of
    [getTimeFromSIM7600] is never "Unknown" and never empty: it is "Time"
    for the sentinel and starts with "20" otherwise.  The first half of
    the validity test in [reportAnalytics] therefore never fails on its
    own, and the test amounts to the comparison with the sentinel. *)
Theorem clock_date_never_unknown (responses : nat -> string) :
  let currentDateTime := getTimeFromSIM7600 responses in
  let newDate := extractDateFromDateTime currentDateTime in
  newDate <> "Unknown"%string
  /\ newDate <> EmptyString
  /\ ((currentDateTime = "Time unavailable"%string /\ newDate = "Time"%string)
      \/ (currentDateTime <> "Time unavailable"%string
          /\ exists date, newDate = "20" +:+ date))
  /\ negb (String.eqb newDate "Unknown")
     && negb (String.eqb currentDateTime "Time unavailable")
     = negb (String.eqb currentDateTime "Time unavailable").
Proof.
  intros currentDateTime newDate.
  pose proof (clockDate_cases responses) as Hcases.
  fold currentDateTime in Hcases. fold newDate in Hcases.
  assert (Hknown : newDate <> "Unknown"%string).
  { destruct Hcases as [(_ & ->) | (_ & date & ->)]; discriminate. }
  split; [exact Hknown|]. split; [apply extractDate_result|]. split; [exact Hcases|].
  apply String.eqb_neq in Hknown. rewrite Hknown. reflexivity.
Qed.

(** ** The invariant of the cycle counters *)

Lemma cycleInv_initial : cycleInv initialGlobals.
Proof.
  unfold cycleInv, SCANS_PER_UPLOAD, MAX_NETWORKS_PER_SCAN.
  change (currentCycleHashes initialGlobals) with (∅ : gset string).
  change (previousCycleHashes initialGlobals) with (∅ : gset string).
  rewrite size_empty. repeat split; simpl; lia.
Qed.

(** The part of the invariant a scan acts on, one scan further. *)
Lemma performWiFiScan_inv sc st (k : Z) :
  0 <= k < SCANS_PER_UPLOAD ->
  impressionCount st = wifiNetworksThisCycle st ->
  uniqueWifiNetworks st = Z.of_nat (size (currentCycleHashes st)) ->
  0 <= repeatedWifiNetworks st ->
  uniqueWifiNetworks st + repeatedWifiNetworks st <= MAX_NETWORKS_PER_SCAN * k ->
  let st' := performWiFiScan sc st in
  impressionCount st' = wifiNetworksThisCycle st'
  /\ uniqueWifiNetworks st' = Z.of_nat (size (currentCycleHashes st'))
  /\ 0 <= repeatedWifiNetworks st'
  /\ uniqueWifiNetworks st' + repeatedWifiNetworks st' <= MAX_NETWORKS_PER_SCAN * (k + 1).
Proof.
  intros Hk Himp Hu Hr Hsum st'. unfold SCANS_PER_UPLOAD, MAX_NETWORKS_PER_SCAN in *.
  destruct (Z.lt_trichotomy (networksFound sc) 0) as [H|[H|H]].
  - unfold st'. rewrite performWiFiScan_error by exact H. simpl. repeat split; lia.
  - unfold st'. rewrite performWiFiScan_none by exact H. simpl. repeat split; lia.
  - pose proof (performWiFiScan_found sc st H) as Hf. cbv zeta in Hf.
    set (hs := scanHashes sc (ephemeralSalt st)
                 (Z.to_nat (processCountOf (networksFound sc)))) in *.
    set (cur := currentCycleHashes st) in *.
    assert (Hfresh : (size (list_to_set hs ∖ cur : gset string) <= length hs)%nat)
      by apply fresh_bound.
    assert (Hlen : Z.of_nat (length hs) = processCountOf (networksFound sc)).
    { unfold hs. rewrite scanHashes_length.
      destruct (processCountOf_range _ H) as (? & _). lia. }
    destruct (processCountOf_range _ H) as ((Hp1 & Hp2) & _).
    unfold MAX_NETWORKS_PER_SCAN in Hp2.
    assert (Hsize : size (list_to_set hs ∪ cur : gset string)
                    = (size cur + size (list_to_set hs ∖ cur : gset string))%nat).
    { rewrite (union_comm_L (list_to_set hs) cur). apply size_union_alt. }
    set (fresh := size (list_to_set hs ∖ cur : gset string)) in *.
    assert (Hcur : currentCycleHashes st' = list_to_set hs ∪ cur)
      by (unfold st'; rewrite Hf; reflexivity).
    assert (Hu' : uniqueWifiNetworks st' = wrap32 (uniqueWifiNetworks st + Z.of_nat fresh))
      by (unfold st'; rewrite Hf; reflexivity).
    assert (Hr' : repeatedWifiNetworks st'
                  = wrap32 (repeatedWifiNetworks st
                            + (processCountOf (networksFound sc) - Z.of_nat fresh)))
      by (unfold st'; rewrite Hf; reflexivity).
    assert (Hi' : impressionCount st' = wrap32 (impressionCount st + networksFound sc))
      by (unfold st'; rewrite Hf; reflexivity).
    assert (Hw' : wifiNetworksThisCycle st'
                  = wrap32 (wifiNetworksThisCycle st + networksFound sc))
      by (unfold st'; rewrite Hf; reflexivity).
    assert (Hsz : 0 <= Z.of_nat (size cur)) by lia.
    rewrite wrap32_small in Hu' by (unfold is_uint32; lia).
    rewrite wrap32_small in Hr' by (unfold is_uint32; lia).
    rewrite Hi', Hw', Hu', Hr', Hcur, Hsize, Himp. repeat split; lia.
Qed.

Lemma loop_cycleInv inp st st' calls :
  cycleInv st -> loop inp st = Some (st', calls) -> cycleInv st'.
Proof.
  unfold cycleInv. intros (Hk & Himp & Hu & Hr & Hsum & Hprev) Hloop.
  destruct (performWiFiScan_inv (scanned inp) st (scanCounter st) Hk Himp Hu Hr Hsum)
    as (Himp' & Hu' & Hr' & Hsum').
  destruct (performWiFiScan_sets (scanned inp) st) as (_ & Hp').
  unfold SCANS_PER_UPLOAD, MAX_NETWORKS_PER_SCAN in *.
  assert (Hnext : incr32 (scanCounter st) = scanCounter st + 1).
  { unfold incr32. apply wrap32_small. unfold is_uint32. lia. }
  destruct (loop_cases inp st st' calls Hloop)
    as [(_ & -> & _) | [(_ & Hmore & -> & _) | (_ & Hmore & Heq)]].
  - repeat split; assumption || lia.
  - rewrite Hnext in Hmore. unfold SCANS_PER_UPLOAD in Hmore.
    rewrite Z.geb_leb in Hmore. apply Z.leb_gt in Hmore.
    unfold afterScan. cbn [scanCounter impressionCount wifiNetworksThisCycle
      uniqueWifiNetworks currentCycleHashes repeatedWifiNetworks previousCycleHashes
      set_scanCounter set_lastScanTime].
    rewrite performWiFiScan_scanCounter, Hnext, Hp'.
    repeat split; assumption || lia.
  - assert (Hst : st' = (endOfCycle (reportEnv inp) (afterScan inp st)).1)
      by (rewrite <- Heq; reflexivity).
    destruct (endOfCycle_sets (reportEnv inp) (afterScan inp st)) as (Hc & Hp).
    destruct (endOfCycle_reset (reportEnv inp) (afterScan inp st))
      as (Hw0 & Hr0 & Hu0 & Hi0 & Hs0).
    rewrite <- Hst in Hc, Hp, Hw0, Hr0, Hu0, Hi0, Hs0.
    rewrite Hc, Hp, Hw0, Hr0, Hu0, Hi0, Hs0, size_empty.
    change (currentCycleHashes (afterScan inp st))
      with (currentCycleHashes (performWiFiScan (scanned inp) st)).
    repeat split; try lia.
Qed.

Lemma reaches_cycleInv st st' : cycleInv st -> reaches st st' -> cycleInv st'.
Proof.
  intros Hinv Hreach. induction Hreach as [|st inp st1 calls st2 Hstep _ IH]; [exact Hinv|].
  apply IH. eapply loop_cycleInv; eassumption.
Qed.

(** ** [setup] *)

Lemma setup_counting ID env : sameCounting initialGlobals (globalsOf (setup ID env).1).
Proof.
  unfold sameCounting, setup, loadExistingImpressions.
  destruct (modemInit env), (networkFound env), (gprsConnected env); cbn [negb];
    try (repeat split; reflexivity).
  destruct (gpsFix env) as [[lat lon]|], (appReady (remote env));
    cbv zeta; try (repeat split; reflexivity);
    destruct (_ && _); repeat split; reflexivity.
Qed.

Lemma setup_cycleInv ID env : cycleInv (globalsOf (setup ID env).1).
Proof.
  pose proof (setup_counting ID env) as Hsame. unfold sameCounting in Hsame.
  destruct Hsame as (Hw & Hr & Hu & Hi & _ & _ & Hc & Hp & Hs & _).
  pose proof cycleInv_initial as Hinit. unfold cycleInv in *.
  rewrite Hw, Hr, Hu, Hi, Hc, Hp, Hs. exact Hinit.
Qed.

Lemma inService_cycleInv ID env st : inService ID env st -> cycleInv st.
Proof. intros H. exact (reaches_cycleInv _ _ (setup_cycleInv ID env) H). Qed.

Lemma inService_start ID env : inService ID env (globalsOf (setup ID env).1).
Proof. apply reaches_refl. Qed.

Lemma reaches_trans st1 st2 st3 : reaches st1 st2 -> reaches st2 st3 -> reaches st1 st3.
Proof.
  intros H12 H23. induction H12 as [|st inp st' calls st'' Hstep _ IH]; [exact H23|].
  eapply reaches_step; [exact Hstep | exact (IH H23)].
Qed.

Lemma inService_step ID env inp st st' calls :
  inService ID env st -> loop inp st = Some (st', calls) -> inService ID env st'.
Proof.
  intros Hs Hloop. unfold inService in *.
  eapply reaches_trans; [exact Hs|].
  eapply reaches_step; [exact Hloop | apply reaches_refl].
Qed.

Lemma inService_afterFirstPass : inService "BB01" goodBoot afterFirstPass.
Proof.
  apply (inService_step "BB01" goodBoot firstPass (globalsOf (setup "BB01" goodBoot).1)
           afterFirstPass []).
  - apply inService_start.
  - vm_compute. reflexivity.
Defined.

Lemma performWiFiScan_raw sc st :
  impressionCount (performWiFiScan sc st)
    = (if 0 <? networksFound sc then wrap32 (impressionCount st + networksFound sc)
       else impressionCount st)
  /\ wifiNetworksThisCycle (performWiFiScan sc st)
     = (if 0 <? networksFound sc then wrap32 (wifiNetworksThisCycle st + networksFound sc)
        else wifiNetworksThisCycle st).
Proof.
  destruct (Z.lt_trichotomy (networksFound sc) 0) as [H|[H|H]].
  - rewrite performWiFiScan_error by exact H.
    destruct (Z.ltb_spec 0 (networksFound sc)); [lia|]. split; reflexivity.
  - rewrite performWiFiScan_none by exact H.
    destruct (Z.ltb_spec 0 (networksFound sc)); [lia|]. split; reflexivity.
  - rewrite performWiFiScan_found by exact H.
    destruct (Z.ltb_spec 0 (networksFound sc)); [|lia]. split; reflexivity.
Qed.

(** ** Counters and sets over the life of a process: the properties *)

(** X6.  A report is made on every tenth scan and at no other time: in a
    pass of [loop] that does not restart, the scan counter goes up by one
    when a scan is due, and from 9 back to 0 with one more report; a pass
    in which no scan is due, or whose scan is not the tenth, makes no
    remote call and no report.  Failed and empty scans count like any
    other. *)
Theorem report_every_tenth_scan
    (BILLBOARD_ID : string) (env : SetupEnv)
    (inp : LoopInput) (st st' : State) (calls : list RemoteCall) :
  inService BILLBOARD_ID env st ->
  loop inp st = Some (st', calls) ->
  scanCounter st'
    = (if scanDue inp st
       then (if scanCounter st =? 9 then 0 else scanCounter st + 1)
       else scanCounter st)
  /\ totalReportsGenerated st'
     = (if scanDue inp st && (scanCounter st =? 9)
        then incr32 (totalReportsGenerated st) else totalReportsGenerated st)
  /\ totalScansPerformed st'
     = (if scanDue inp st then incr32 (totalScansPerformed st) else totalScansPerformed st)
  /\ (scanDue inp st && (scanCounter st =? 9) = false -> calls = [])
  /\ 0 <= scanCounter st' <= 9.
Proof.
  intros Hservice Hloop.
  pose proof (inService_cycleInv _ _ _ Hservice) as Hinv.
  pose proof (loop_cycleInv inp st st' calls Hinv Hloop) as ((Hk1 & Hk2) & _).
  destruct Hinv as ((Hk & Hk') & _). unfold SCANS_PER_UPLOAD in *.
  assert (Hnext : incr32 (scanCounter st) = scanCounter st + 1).
  { unfold incr32. apply wrap32_small. unfold is_uint32. lia. }
  destruct (performWiFiScan_cumulative (scanned inp) st) as (Hscans & Hreports & _).
  unfold scanDue.
  destruct (loop_cases inp st st' calls Hloop)
    as [(Hdue & -> & ->) | [(Hdue & Hmore & -> & ->) | (Hdue & Hmore & Heq)]];
    rewrite Hdue.
  - repeat split; lia.
  - rewrite Hnext in Hmore. unfold SCANS_PER_UPLOAD in Hmore.
    rewrite Z.geb_leb in Hmore. apply Z.leb_gt in Hmore.
    destruct (Z.eqb_spec (scanCounter st) 9) as [H9|H9]; [lia|].
    rewrite afterScan_scanCounter, Hnext.
    unfold afterScan. cbn [totalReportsGenerated totalScansPerformed set_scanCounter
      set_lastScanTime andb]. rewrite Hscans, Hreports.
    repeat split; lia.
  - rewrite Hnext in Hmore. unfold SCANS_PER_UPLOAD in Hmore.
    rewrite Z.geb_leb in Hmore. apply Z.leb_le in Hmore.
    destruct (Z.eqb_spec (scanCounter st) 9) as [H9|H9]; [|lia].
    assert (Hst : st' = (endOfCycle (reportEnv inp) (afterScan inp st)).1)
      by (rewrite <- Heq; reflexivity).
    destruct (endOfCycle_reset (reportEnv inp) (afterScan inp st)) as (_ & _ & _ & _ & Hs0).
    rewrite <- Hst in Hs0.
    assert (Hr : totalReportsGenerated st' = incr32 (totalReportsGenerated st)
                 /\ totalScansPerformed st' = incr32 (totalScansPerformed st)).
    { rewrite Hst, endOfCycle_report.
      change (totalReportsGenerated (resetCycleTracking ?s)) with (totalReportsGenerated s).
      change (totalScansPerformed (resetCycleTracking ?s)) with (totalScansPerformed s).
      destruct (reportAnalytics_reports (reportEnv inp) (afterScan inp st)) as (-> & _).
      pose proof (reportAnalytics_counting (reportEnv inp) (afterScan inp st)) as Hsame.
      destruct Hsame as (_ & _ & _ & _ & _ & -> & _).
      unfold afterScan. cbn [totalReportsGenerated totalScansPerformed set_scanCounter
        set_lastScanTime]. rewrite Hscans, Hreports. split; reflexivity. }
    destruct Hr as (-> & ->). rewrite Hs0. cbn [andb].
    repeat split; try lia; try reflexivity; intros H; discriminate H.
Qed.

Lemma report_every_tenth_scan_witness :
  inService "BB01" goodBoot (globalsOf (setup "BB01" goodBoot).1)
  /\ loop firstPass (globalsOf (setup "BB01" goodBoot).1) = Some (afterFirstPass, [])
  /\ scanDue firstPass (globalsOf (setup "BB01" goodBoot).1) = true
  /\ scanCounter afterFirstPass = 1
  /\ totalReportsGenerated afterFirstPass = 0.
Proof.
  assert (Hs : inService "BB01" goodBoot (globalsOf (setup "BB01" goodBoot).1))
    by apply inService_start.
  assert (Hloop : loop firstPass (globalsOf (setup "BB01" goodBoot).1)
                  = Some (afterFirstPass, [])) by (vm_compute; reflexivity).
  destruct (report_every_tenth_scan "BB01" goodBoot firstPass _ afterFirstPass [] Hs Hloop)
    as (Hc & Hr & _).
  split; [exact Hs|]. split; [exact Hloop|]. split; [vm_compute; reflexivity|].
  split; [exact Hc | exact Hr].
Defined.

(** X7.  The two raw counters of a cycle are one and the same number:
    in a process in service [impressionCount] and [wifiNetworksThisCycle]
    are always equal, for they start equal, receive the same additions
    and are reset together. *)
Theorem raw_counters_agree (BILLBOARD_ID : string) (env : SetupEnv) (st : State) :
  inService BILLBOARD_ID env st ->
  impressionCount st = wifiNetworksThisCycle st.
Proof.
  intros Hservice. destruct (inService_cycleInv _ _ _ Hservice) as (_ & Hagree & _).
  exact Hagree.
Qed.

Lemma raw_counters_agree_witness :
  inService "BB01" goodBoot afterFirstPass
  /\ impressionCount afterFirstPass = 3
  /\ impressionCount afterFirstPass = wifiNetworksThisCycle afterFirstPass.
Proof.
  split; [exact inService_afterFirstPass|]. split; [vm_compute; reflexivity|].
  apply (raw_counters_agree "BB01" goodBoot afterFirstPass inService_afterFirstPass).
Defined.

(** X8.  In a process in service the unique counter of the cycle is the
    number of fingerprints held in the current set, and unique plus
    repeated is at most twenty per scan made so far in the cycle: no
    counter of the classification wraps around. *)
Theorem unique_counts_current_set (BILLBOARD_ID : string) (env : SetupEnv) (st : State) :
  inService BILLBOARD_ID env st ->
  uniqueWifiNetworks st = Z.of_nat (size (currentCycleHashes st))
  /\ 0 <= repeatedWifiNetworks st
  /\ uniqueWifiNetworks st + repeatedWifiNetworks st
     <= MAX_NETWORKS_PER_SCAN * scanCounter st.
Proof.
  intros Hservice.
  destruct (inService_cycleInv _ _ _ Hservice) as (_ & _ & Hu & Hr & Hsum & _).
  repeat split; assumption.
Qed.

Lemma unique_counts_current_set_witness :
  inService "BB01" goodBoot afterFirstPass
  /\ uniqueWifiNetworks afterFirstPass = 2
  /\ uniqueWifiNetworks afterFirstPass = Z.of_nat (size (currentCycleHashes afterFirstPass)).
Proof.
  split; [exact inService_afterFirstPass|]. split; [vm_compute; reflexivity|].
  apply (unique_counts_current_set "BB01" goodBoot afterFirstPass inService_afterFirstPass).
Defined.

(** X9.  The memory of the de-duplicator is bounded: in a process in
    service the current set holds at most twenty fingerprints per scan
    made so far in the cycle, hence at most 180 between passes, and the
    previous set at most 200. *)
Theorem generation_sets_bounded (BILLBOARD_ID : string) (env : SetupEnv) (st : State) :
  inService BILLBOARD_ID env st ->
  Z.of_nat (size (currentCycleHashes st)) <= MAX_NETWORKS_PER_SCAN * scanCounter st
  /\ Z.of_nat (size (currentCycleHashes st)) <= 180
  /\ Z.of_nat (size (previousCycleHashes st)) <= 200.
Proof.
  intros Hservice.
  destruct (inService_cycleInv _ _ _ Hservice) as (Hk & _ & Hu & Hr & Hsum & Hprev).
  unfold MAX_NETWORKS_PER_SCAN, SCANS_PER_UPLOAD in *. repeat split; lia.
Qed.

Lemma generation_sets_bounded_witness :
  inService "BB01" goodBoot afterFirstPass
  /\ Z.of_nat (size (currentCycleHashes afterFirstPass)) <= 180
  /\ Z.of_nat (size (previousCycleHashes afterFirstPass)) <= 200.
Proof.
  destruct (generation_sets_bounded "BB01" goodBoot afterFirstPass inService_afterFirstPass)
    as (_ & Hc & Hp).
  split; [exact inService_afterFirstPass|]. split; [exact Hc | exact Hp].
Defined.

Lemma dayChanged_afterScan inp st :
  dayChanged (reportEnv inp) (afterScan inp st) = dayChanged (reportEnv inp) st.
Proof.
  destruct (performWiFiScan_daily (scanned inp) st) as (_ & Hc).
  unfold dayChanged, afterScan. cbn [currentDate set_scanCounter set_lastScanTime].
  rewrite Hc. reflexivity.
Qed.

Lemma wrap32_elapsed (a d : Z) : 0 <= d < 2 ^ 32 -> wrap32 (wrap32 (a + d) - a) = d.
Proof.
  intros Hd. unfold wrap32. rewrite Zminus_mod_idemp_l.
  replace (a + d - a) with d by lia. apply Z.mod_small. exact Hd.
Qed.

Lemma loop_lastScanTime inp st st' calls :
  loop inp st = Some (st', calls) ->
  lastScanTime st' = (if scanDue inp st then currentTime inp else lastScanTime st).
Proof.
  intros Hloop. unfold scanDue.
  destruct (loop_cases inp st st' calls Hloop)
    as [(Hdue & -> & _) | [(Hdue & _ & -> & _) | (Hdue & _ & Heq)]]; rewrite Hdue.
  - reflexivity.
  - reflexivity.
  - assert (Hst : st' = (endOfCycle (reportEnv inp) (afterScan inp st)).1)
      by (rewrite <- Heq; reflexivity).
    rewrite Hst, endOfCycle_report.
    change (lastScanTime (resetCycleTracking ?s)) with (lastScanTime s).
    destruct (reportAnalytics_fixed (reportEnv inp) (afterScan inp st)) as (_ & _ & _ & ->).
    reflexivity.
Qed.

(** X10.  No impression is lost or counted twice on the way to the daily
    tally: over any pass of [loop] that does not detect a day change, the
    tally plus the impressions still pending in the cycle grows by exactly
    the raw count of the scan made in the pass (nothing for a failed or
    empty scan, nothing when no scan was due), whether or not the pass
    also reported and reset the cycle.  The sum is taken in 32 bits. *)
Theorem impressions_conserved
    (inp : LoopInput) (st st' : State) (calls : list RemoteCall) :
  loop inp st = Some (st', calls) ->
  dayChanged (reportEnv inp) st = false ->
  wrap32 (dailyImpressions st' + impressionCount st')
  = wrap32 (dailyImpressions st + impressionCount st
            + (if scanDue inp st then rawDetections (scanned inp) else 0)).
Proof.
  intros Hloop Hday. unfold scanDue, rawDetections.
  destruct (performWiFiScan_raw (scanned inp) st) as (Hi & _).
  destruct (performWiFiScan_daily (scanned inp) st) as (Hd & _).
  assert (Hscan : wrap32 (dailyImpressions st + impressionCount (performWiFiScan (scanned inp) st))
                  = wrap32 (dailyImpressions st + impressionCount st
                            + Z.max 0 (networksFound (scanned inp)))).
  { rewrite Hi. destruct (Z.ltb_spec 0 (networksFound (scanned inp))).
    - rewrite Z.max_r by lia.
      rewrite (Z.add_comm (dailyImpressions st)), wrap32_add_l. f_equal. lia.
    - rewrite Z.max_l by lia. f_equal. lia. }
  destruct (loop_cases inp st st' calls Hloop)
    as [(Hdue & -> & _) | [(Hdue & _ & -> & _) | (Hdue & _ & Heq)]]; rewrite Hdue.
  - f_equal. lia.
  - unfold afterScan. cbn [dailyImpressions impressionCount set_scanCounter set_lastScanTime].
    rewrite Hd. exact Hscan.
  - assert (Hst : st' = (endOfCycle (reportEnv inp) (afterScan inp st)).1)
      by (rewrite <- Heq; reflexivity).
    destruct (endOfCycle_reset (reportEnv inp) (afterScan inp st)) as (_ & _ & _ & Hi0 & _).
    rewrite <- Hst in Hi0. rewrite Hi0, Hst, endOfCycle_report.
    change (dailyImpressions (resetCycleTracking ?s)) with (dailyImpressions s).
    rewrite reportAnalytics_daily, dayChanged_afterScan, Hday.
    unfold afterScan. cbn [dailyImpressions impressionCount set_scanCounter set_lastScanTime].
    rewrite Hd, Z.add_0_r, wrap32_idem. exact Hscan.
Qed.

Lemma impressions_conserved_witness :
  loop tenthPass ninePasses = Some (afterTenPasses, tenthPassCalls)
  /\ dayChanged (reportEnv tenthPass) ninePasses = false
  /\ wrap32 (dailyImpressions afterTenPasses + impressionCount afterTenPasses)
     = wrap32 (dailyImpressions ninePasses + impressionCount ninePasses
               + (if scanDue tenthPass ninePasses
                  then rawDetections (scanned tenthPass) else 0)).
Proof.
  assert (Hloop : loop tenthPass ninePasses = Some (afterTenPasses, tenthPassCalls))
    by (vm_compute; reflexivity).
  assert (Hday : dayChanged (reportEnv tenthPass) ninePasses = false)
    by (vm_compute; reflexivity).
  split; [exact Hloop|]. split; [exact Hday|].
  apply (impressions_conserved tenthPass ninePasses afterTenPasses tenthPassCalls Hloop Hday).
Defined.

(** X11.  The timing of [loop] survives the wrap-around of [millis()]:
    with the clock [sinceStart] milliseconds past the start of the system
    and [sinceScan] past the last scan, both counted modulo 2^32, the pass
    restarts the device exactly when [sinceStart] has reached twelve
    hours; otherwise it does nothing at all when [sinceScan] is below five
    seconds, and scans, stamping the time of the scan, when it is not. *)
Theorem scan_timing_wraps_safely (inp : LoopInput) (st : State) (sinceStart sinceScan : Z) :
  0 <= sinceStart < 2 ^ 32 ->
  0 <= sinceScan < 2 ^ 32 ->
  currentTime inp = wrap32 (systemStartTime st + sinceStart) ->
  currentTime inp = wrap32 (lastScanTime st + sinceScan) ->
  (loop inp st = None <-> RESTART_AFTER_MS <= sinceStart)
  /\ (sinceStart < RESTART_AFTER_MS ->
      (sinceScan < SCAN_INTERVAL_MS -> loop inp st = Some (st, []))
      /\ (SCAN_INTERVAL_MS <= sinceScan ->
          exists st' calls,
            loop inp st = Some (st', calls)
            /\ lastScanTime st' = currentTime inp
            /\ totalScansPerformed st' = incr32 (totalScansPerformed st))).
Proof.
  intros Hstart Hscan Hnow1 Hnow2.
  assert (Hup : wrap32 (currentTime inp - systemStartTime st) = sinceStart)
    by (rewrite Hnow1; apply wrap32_elapsed; exact Hstart).
  assert (Hel : wrap32 (currentTime inp - lastScanTime st) = sinceScan)
    by (rewrite Hnow2; apply wrap32_elapsed; exact Hscan).
  assert (Hnone : loop inp st = None <-> RESTART_AFTER_MS <= sinceStart).
  { unfold loop. rewrite Hup, Hel.
    destruct (Z.geb_spec sinceStart RESTART_AFTER_MS) as [Hge|Hlt].
    + split; [intros _; exact Hge | reflexivity].
    + split; [|lia]. destruct (sinceScan >=? SCAN_INTERVAL_MS); cbv zeta;
        [destruct (_ >=? SCANS_PER_UPLOAD)|]; discriminate. }
  split; [exact Hnone|].
  intros Hlt. split.
  - intros Hsoon. unfold loop. rewrite Hup, Hel.
    destruct (Z.geb_spec sinceStart RESTART_AFTER_MS); [lia|].
    destruct (Z.geb_spec sinceScan SCAN_INTERVAL_MS); [lia | reflexivity].
  - intros Hdue.
    assert (Hsome : exists st' calls, loop inp st = Some (st', calls)).
    { destruct (loop inp st) as [[st' calls]|] eqn:Hl; [eauto|].
      exfalso. assert (RESTART_AFTER_MS <= sinceStart) by (apply Hnone; reflexivity).
      lia. }
    destruct Hsome as (st' & calls & Hloop). exists st', calls.
    split; [exact Hloop|].
    assert (Hd : scanDue inp st = true).
    { unfold scanDue. rewrite Hel. apply Z.geb_le. exact Hdue. }
    split.
    + rewrite (loop_lastScanTime inp st st' calls Hloop), Hd. reflexivity.
    + destruct (performWiFiScan_cumulative (scanned inp) st) as (Hs & _).
      unfold scanDue in Hd.
      destruct (loop_cases inp st st' calls Hloop)
        as [(Hnd & _) | [(_ & _ & -> & _) | (_ & _ & Heq)]].
      * congruence.
      * unfold afterScan. cbn [totalScansPerformed set_scanCounter set_lastScanTime].
        exact Hs.
      * assert (Hst : st' = (endOfCycle (reportEnv inp) (afterScan inp st)).1)
          by (rewrite <- Heq; reflexivity).
        rewrite Hst, endOfCycle_report.
        change (totalScansPerformed (resetCycleTracking ?s)) with (totalScansPerformed s).
        pose proof (reportAnalytics_counting (reportEnv inp) (afterScan inp st)) as Hsame.
        destruct Hsame as (_ & _ & _ & _ & _ & -> & _).
        unfold afterScan. cbn [totalScansPerformed set_scanCounter set_lastScanTime].
        exact Hs.
Qed.

Lemma scan_timing_wraps_safely_witness :
  currentTime samplePass = wrap32 (systemStartTime bootedGlobals + 5000)
  /\ currentTime samplePass = wrap32 (lastScanTime bootedGlobals + 7000)
  /\ (loop samplePass bootedGlobals = None <-> RESTART_AFTER_MS <= 5000)
  /\ exists st' calls,
       loop samplePass bootedGlobals = Some (st', calls)
       /\ lastScanTime st' = currentTime samplePass
       /\ totalScansPerformed st' = incr32 (totalScansPerformed bootedGlobals).
Proof.
  assert (H1 : currentTime samplePass = wrap32 (systemStartTime bootedGlobals + 5000))
    by reflexivity.
  assert (H2 : currentTime samplePass = wrap32 (lastScanTime bootedGlobals + 7000))
    by reflexivity.
  destruct (scan_timing_wraps_safely samplePass bootedGlobals 5000 7000) as (Hnone & Hrun);
    [lia | lia | exact H1 | exact H2 |].
  split; [exact H1|]. split; [exact H2|]. split; [exact Hnone|].
  destruct Hrun as (_ & Hscan); [reflexivity|].
  apply Hscan. discriminate.
Defined.

(** ** What a report publishes *)

Lemma reportAnalytics_unfold env st :
  reportAnalytics env st =
  if appReady env then
    if clockValid env then
      let '(s2, fetched) :=
        dayChange env (extractDateFromDateTime (simTime env))
                  (set_currentDateTime (simTime env) (reportPreamble env st)) in
      let '(s3, published) := uploadDaily s2 in
      (s3, fetched ++ published)
    else (set_currentDateTime (simTime env) (reportPreamble env st), [])
  else (reportPreamble env st, []).
Proof. reflexivity. Qed.

Lemma reportPreamble_kept env st :
  currentDate (reportPreamble env st) = currentDate st
  /\ combinedBillboardId (reportPreamble env st) = combinedBillboardId st
  /\ totalDataSent (reportPreamble env st) = totalDataSent st.
Proof.
  unfold reportPreamble, updateGPSLocation.
  destruct (gpsRefresh env) as [[lat lon]|]; repeat split.
Qed.

Lemma uploadDaily_spec s :
  uploadDaily s =
  (if dateUsable s
   then set_totalDataSent
          (wrap32 (totalDataSent s
                   + (strlen (buildDailyDataJSON s) + strlen (locationJSON s) + 400))) s
   else s,
   if dateUsable s
   then [DbSet (dailyPathOf s) (buildDailyDataJSON s) "dailyDataTask";
         DbSet (locationPathOf s) (locationJSON s) "locationUpdateTask"]
   else []).
Proof. unfold uploadDaily, dateUsable. destruct (_ && _); reflexivity. Qed.

Lemma dayChange_spec env newDate s :
  (dayChange env newDate s).2
  = (if negb (String.eqb newDate (currentDate s)) && (strlen (currentDate s) >? 0)
     then [DbGet (newDayPath s newDate)] else [])
  /\ totalDataSent (dayChange env newDate s).1 = totalDataSent s.
Proof.
  unfold dayChange, newDayPath, impressionsPathOf.
  destruct (negb (newDate =? currentDate s)%string && (strlen (currentDate s) >? 0)).
  - cbv zeta. cbn [combinedBillboardId currentDate set_currentDate].
    destruct (_ && _); split; reflexivity.
  - destruct (strlen (currentDate s) =? 0); split; reflexivity.
Qed.

(** X12.  What a report sends is what it keeps.  The calls of
    [reportAnalytics] are, in this order: one read of the tally of the new
    day when a day change is detected, then, when the client is ready,
    the clock answered and the stored date is usable, the upload of the
    daily record and of the position.  The record is built from the
    globals as the report leaves them (the tally after any replacement,
    the date after any change) and goes to the path of that same date;
    the count of bytes sent grows only with an upload. *)
Theorem report_publishes_final_state (env : ReportEnv) (st : State) :
  let st' := (reportAnalytics env st).1 in
  let published := appReady env && clockValid env && dateUsable st' in
  (reportAnalytics env st).2
  = (if dayChanged env st
     then [DbGet (newDayPath st (extractDateFromDateTime (simTime env)))] else [])
    ++ (if published
        then [DbSet (dailyPathOf st') (buildDailyDataJSON st') "dailyDataTask";
              DbSet (locationPathOf st') (locationJSON st') "locationUpdateTask"]
        else [])
  /\ totalDataSent st'
     = (if published
        then wrap32 (totalDataSent st
                     + (strlen (buildDailyDataJSON st') + strlen (locationJSON st') + 400))
        else totalDataSent st).
Proof.
  intros st' published. subst published st'.
  destruct (reportPreamble_kept env st) as (Hdate & Hid & Hsent).
  rewrite reportAnalytics_unfold. unfold dayChanged. fold (clockValid env).
  destruct (appReady env); [|split; [reflexivity | exact Hsent]].
  destruct (clockValid env); [|split; [reflexivity | exact Hsent]].
  set (s1 := set_currentDateTime (simTime env) (reportPreamble env st)).
  set (newDate := extractDateFromDateTime (simTime env)).
  destruct (dayChange_spec env newDate s1) as (Hfetch & Hsent1).
  destruct (dayChange env newDate s1) as [s2 fetched]. simpl in Hfetch, Hsent1.
  change (currentDate s1) with (currentDate (reportPreamble env st)) in Hfetch.
  rewrite Hdate in Hfetch.
  assert (Hpath : newDayPath s1 newDate = newDayPath st newDate).
  { unfold newDayPath. change (combinedBillboardId s1)
      with (combinedBillboardId (reportPreamble env st)). rewrite Hid. reflexivity. }
  rewrite Hpath in Hfetch.
  change (totalDataSent s1) with (totalDataSent (reportPreamble env st)) in Hsent1.
  rewrite Hsent in Hsent1.
  rewrite (uploadDaily_spec s2). cbn [fst snd andb]. rewrite Hfetch.
  destruct (dateUsable s2) eqn:Husable.
  - change (dateUsable (set_totalDataSent _ s2)) with (dateUsable s2).
    rewrite Husable, Hsent1. split; reflexivity.
  - rewrite Husable, Hsent1. split; reflexivity.
Qed.

(** ** Fingerprints that cannot collide *)

Lemma mix_range h b : 0 <= mix h b < 2 ^ 64.
Proof. unfold mix, wrap64. apply Z.mod_pos_bound. lia. Qed.

Lemma lxor_range h b : 0 <= h < 2 ^ 64 -> 0 <= b < 2 ^ 64 -> 0 <= Z.lxor h b < 2 ^ 64.
Proof.
  intros Hh Hb.
  assert (Hnn : 0 <= Z.lxor h b) by (apply Z.lxor_nonneg; lia).
  split; [exact Hnn|].
  destruct (Z.eq_dec (Z.lxor h b) 0) as [->|Hnz]; [lia|].
  apply Z.log2_lt_pow2; [lia|].
  assert (Hlog : forall a, 0 <= a < 2 ^ 64 -> Z.log2 a < 64).
  { intros a Ha. destruct (Z.eq_dec a 0) as [->|Hne]; [reflexivity|].
    apply Z.log2_lt_pow2; lia. }
  pose proof (Z.log2_lxor h b ltac:(lia) ltac:(lia)) as Hmax.
  pose proof (Hlog h Hh). pose proof (Hlog b Hb). lia.
Qed.

Lemma mul_prime_inj x y :
  0 <= x < 2 ^ 64 -> 0 <= y < 2 ^ 64 ->
  wrap64 (x * FNV_PRIME) = wrap64 (y * FNV_PRIME) -> x = y.
Proof.
  intros Hx Hy H. unfold wrap64 in H.
  apply (f_equal (fun z => (z * FNV_PRIME_INVERSE) mod 2 ^ 64)) in H.
  rewrite !Z.mul_mod_idemp_l, <- !Z.mul_assoc in H by lia.
  rewrite <- (Z.mul_mod_idemp_r x), <- (Z.mul_mod_idemp_r y) in H by lia.
  change ((FNV_PRIME * FNV_PRIME_INVERSE) mod 2 ^ 64) with 1 in H.
  rewrite !Z.mul_1_r, !Z.mod_small in H by lia. exact H.
Qed.

Lemma lxor_cancel h b b' : Z.lxor h b = Z.lxor h b' -> b = b'.
Proof.
  intros H. apply (f_equal (Z.lxor h)) in H.
  rewrite <- !Z.lxor_assoc, Z.lxor_nilpotent, !Z.lxor_0_l in H. exact H.
Qed.

Lemma lxor_cancel_r h h' b : Z.lxor h b = Z.lxor h' b -> h = h'.
Proof. rewrite !(Z.lxor_comm _ b). apply lxor_cancel. Qed.

Lemma mix_inj_byte h b b' :
  0 <= h < 2 ^ 64 -> 0 <= b < 2 ^ 64 -> 0 <= b' < 2 ^ 64 ->
  mix h b = mix h b' -> b = b'.
Proof.
  intros Hh Hb Hb' H. unfold mix in H.
  apply mul_prime_inj in H; [|apply lxor_range; assumption ..].
  exact (lxor_cancel _ _ _ H).
Qed.

Lemma mix_inj_state h h' b :
  0 <= h < 2 ^ 64 -> 0 <= h' < 2 ^ 64 -> 0 <= b < 2 ^ 64 ->
  mix h b = mix h' b -> h = h'.
Proof.
  intros Hh Hh' Hb H. unfold mix in H.
  apply mul_prime_inj in H; [|apply lxor_range; assumption ..].
  exact (lxor_cancel_r _ _ _ H).
Qed.

Lemma fold_mix_range (bs : list Z) h :
  0 <= h < 2 ^ 64 -> 0 <= fold_left mix bs h < 2 ^ 64.
Proof.
  revert h. induction bs as [|b bs IH]; intros h Hh; [exact Hh|].
  simpl. apply IH, mix_range.
Qed.

Lemma fold_mix_inj (bs : list Z) h h' :
  Forall is_byte bs -> 0 <= h < 2 ^ 64 -> 0 <= h' < 2 ^ 64 ->
  fold_left mix bs h = fold_left mix bs h' -> h = h'.
Proof.
  intros Hbs. revert h h'. induction Hbs as [|b bs Hb _ IH]; intros h h' Hh Hh' H.
  - exact H.
  - simpl in H. apply IH in H; [|apply mix_range ..].
    unfold is_byte in Hb. apply (mix_inj_state h h' b); try assumption. lia.
Qed.

Lemma fnv1a_64_one_byte (pre suf : list Z) (b b' : Z) :
  is_byte b -> is_byte b' -> Forall is_byte suf -> b <> b' ->
  fnv1a_64 (pre ++ b :: suf) <> fnv1a_64 (pre ++ b' :: suf).
Proof.
  intros Hb Hb' Hsuf Hne H.
  change (fold_left mix (pre ++ b :: suf) FNV_OFFSET_BASIS
          = fold_left mix (pre ++ b' :: suf) FNV_OFFSET_BASIS) in H.
  rewrite !fold_left_app in H. simpl in H.
  assert (Hh : 0 <= fold_left mix pre FNV_OFFSET_BASIS < 2 ^ 64).
  { apply fold_mix_range. unfold FNV_OFFSET_BASIS. lia. }
  apply fold_mix_inj in H; [|exact Hsuf | apply mix_range ..].
  unfold is_byte in *. apply mix_inj_byte in H; [contradiction | assumption | lia | lia].
Qed.

Lemma u8_is_byte (b : byte) : is_byte (u8 b).
Proof.
  unfold is_byte, u8. pose proof (Byte.to_N_bounded b) as H. lia.
Qed.

Lemma map_u8_bytes (l : list byte) : Forall is_byte (map u8 l).
Proof. induction l as [|b l IH]; simpl; constructor; [apply u8_is_byte | exact IH]. Qed.

Lemma u8_inj (b b' : byte) : u8 b = u8 b' -> b = b'.
Proof.
  unfold u8. intros H. apply N2Z.inj in H.
  pose proof (Byte.of_to_N b) as Hb. rewrite H, Byte.of_to_N in Hb. congruence.
Qed.

Lemma salt_bytes_are_bytes salt : Forall is_byte (salt_bytes salt).
Proof.
  assert (Hland : forall x, is_byte (Z.land x 255)).
  { intros x. unfold is_byte. change 255 with (Z.ones 8). rewrite Z.land_ones by lia.
    apply Z.mod_pos_bound. lia. }
  unfold salt_bytes. repeat constructor; apply Hland.
Qed.

(** X13.  Two identifiers that differ in exactly one of their six bytes
    never get the same fingerprint under the same salt: every round of the
    hash is a bijection of the running value, so a single changed byte
    cannot be undone by the equal bytes and the salt that follow.  Access
    points with neighbouring addresses are therefore never merged by the
    de-duplication. *)
Theorem one_byte_apart_never_collide (salt : Z) (pre suf : list byte) (b b' : byte) :
  length (pre ++ b :: suf) = 6%nat ->
  b <> b' ->
  hashMAC salt (pre ++ b :: suf) <> hashMAC salt (pre ++ b' :: suf).
Proof.
  intros Hlen Hne H.
  assert (Hlen' : length (pre ++ b' :: suf) = 6%nat).
  { rewrite length_app in *. simpl in *. exact Hlen. }
  apply hashMAC_eq_iff in H.
  rewrite !hashMAC_value_fnv1a in H by assumption.
  rewrite !map_app, !map_cons, <- !app_assoc, <- !app_comm_cons in H.
  revert H. apply fnv1a_64_one_byte.
  - apply u8_is_byte.
  - apply u8_is_byte.
  - apply Forall_app. split; [apply map_u8_bytes | apply salt_bytes_are_bytes].
  - intros Heq. apply Hne, u8_inj, Heq.
Qed.

Lemma one_byte_apart_never_collide_witness :
  length ([x00; x11; x22; x33; x44] ++ x55 :: []) = 6%nat
  /\ x55 <> x56
  /\ hashMAC 0x1234abcd [x00; x11; x22; x33; x44; x55]
     <> hashMAC 0x1234abcd [x00; x11; x22; x33; x44; x56].
Proof.
  assert (Hlen : length ([x00; x11; x22; x33; x44] ++ x55 :: []) = 6%nat) by reflexivity.
  assert (Hne : x55 <> x56) by discriminate.
  split; [exact Hlen|]. split; [exact Hne|].
  apply (one_byte_apart_never_collide 0x1234abcd [x00; x11; x22; x33; x44] [] x55 x56
           Hlen Hne).
Defined.

(** X14.  The same identifier under two salts whose four bytes differ in
    exactly one place never gets the same fingerprint. *)
Theorem one_salt_byte_apart_never_collide
    (salt salt' : Z) (macAddr : list byte) (pre suf : list Z) (x x' : Z) :
  length macAddr = 6%nat ->
  salt_bytes salt = pre ++ x :: suf ->
  salt_bytes salt' = pre ++ x' :: suf ->
  x <> x' ->
  hashMAC salt macAddr <> hashMAC salt' macAddr.
Proof.
  intros Hlen Hs Hs' Hne H.
  apply hashMAC_eq_iff in H.
  rewrite !hashMAC_value_fnv1a in H by assumption.
  pose proof (salt_bytes_are_bytes salt) as Hb.
  pose proof (salt_bytes_are_bytes salt') as Hb'.
  rewrite Hs in H, Hb. rewrite Hs' in H, Hb'.
  rewrite !app_assoc in H. revert H.
  apply Forall_app in Hb as (_ & Hb). apply Forall_app in Hb' as (_ & Hb').
  apply fnv1a_64_one_byte.
  - apply (Forall_inv Hb).
  - apply (Forall_inv Hb').
  - apply (Forall_inv_tail Hb).
  - exact Hne.
Qed.

Lemma one_salt_byte_apart_never_collide_witness :
  length macA = 6%nat
  /\ salt_bytes 0x1234abcd = [0xcd] ++ 0xab :: [0x34; 0x12]
  /\ salt_bytes 0x1234accd = [0xcd] ++ 0xac :: [0x34; 0x12]
  /\ hashMAC 0x1234abcd macA <> hashMAC 0x1234accd macA.
Proof.
  assert (Hlen : length macA = 6%nat) by reflexivity.
  assert (Hs : salt_bytes 0x1234abcd = [0xcd] ++ 0xab :: [0x34; 0x12]) by reflexivity.
  assert (Hs' : salt_bytes 0x1234accd = [0xcd] ++ 0xac :: [0x34; 0x12]) by reflexivity.
  split; [exact Hlen|]. split; [exact Hs|]. split; [exact Hs'|].
  apply (one_salt_byte_apart_never_collide 0x1234abcd 0x1234accd macA
           [0xcd] [0x34; 0x12] 0xab 0xac Hlen Hs Hs').
  discriminate.
Defined.

(** ** Start-up: the properties *)

Example setup_goodBoot :
  (setup "BB01" goodBoot).2
  = [DbGet "/devices/BB01_001122334455/data/2025-12-02/daily_impressions";
     DbSet "/devices/BB01_001122334455/device_info"
       (buildDeviceInfoJSON "BB01" "001122334455" (globalsOf (setup "BB01" goodBoot).1))
       "deviceInfoTask"]
  /\ dailyImpressions (globalsOf (setup "BB01" goodBoot).1) = 42
  /\ deviceAccessKey (setup "BB01" goodBoot).1 = "BB01_00112233_2100"%string.
Proof. vm_compute. repeat split; reflexivity. Qed.

Lemma setup_modem_ok ID env :
  modemInit env = true -> networkFound env = true -> gprsConnected env = true ->
  let now := getTimeFromSIM7600 (clockResponses env) in
  let st0 := globalsOf (setup ID env).1 in
  currentDateTime st0 = now
  /\ currentDate st0 = extractDateFromDateTime now
  /\ combinedBillboardId st0 = ID +:+ "_" +:+ getMacAddress (baseMac env).
Proof.
  intros H1 H2 H3. unfold setup, loadExistingImpressions. rewrite H1, H2, H3. cbn [negb].
  destruct (gpsFix env) as [[lat lon]|], (appReady (remote env));
    cbv zeta; try (repeat split; reflexivity);
    destruct (_ && _); repeat split; reflexivity.
Qed.

(** X15.  A start-up in which a step of the modem fails stops there: it
    makes no remote call, leaves the stored date and time empty and the
    daily tally at zero, and does not upload the device record; the salt,
    the start time and the identity of the device are set all the same. *)
Theorem setup_without_modem (BILLBOARD_ID : string) (env : SetupEnv) :
  modemInit env && networkFound env && gprsConnected env = false ->
  let device := (setup BILLBOARD_ID env).1 in
  (setup BILLBOARD_ID env).2 = []
  /\ currentDate (globalsOf device) = EmptyString
  /\ currentDateTime (globalsOf device) = EmptyString
  /\ dailyImpressions (globalsOf device) = 0
  /\ deviceInfoUploaded device = false
  /\ gpsFixAcquired (globalsOf device) = false
  /\ ephemeralSalt (globalsOf device) = wrap32 (drawnSalt env)
  /\ systemStartTime (globalsOf device) = bootMillis env
  /\ combinedBillboardId (globalsOf device)
     = BILLBOARD_ID +:+ "_" +:+ getMacAddress (baseMac env).
Proof.
  intros Hfail device. subst device. unfold setup.
  destruct (modemInit env); cbn [negb]; [|repeat split; reflexivity].
  destruct (networkFound env); cbn [negb]; [|repeat split; reflexivity].
  destruct (gprsConnected env); cbn [negb]; [discriminate Hfail|].
  repeat split; reflexivity.
Qed.

Lemma setup_without_modem_witness :
  modemInit noModemBoot && networkFound noModemBoot && gprsConnected noModemBoot = false
  /\ (setup "BB01" noModemBoot).2 = []
  /\ currentDate (globalsOf (setup "BB01" noModemBoot).1) = EmptyString
  /\ combinedBillboardId (globalsOf (setup "BB01" noModemBoot).1)
     = "BB01_001122334455"%string.
Proof.
  assert (Hfail : modemInit noModemBoot && networkFound noModemBoot
                  && gprsConnected noModemBoot = false) by reflexivity.
  pose proof (setup_without_modem "BB01" noModemBoot Hfail) as H. cbv zeta in H.
  destruct H as (Hcalls & Hdate & _ & _ & _ & _ & _ & _ & Hid).
  split; [exact Hfail|]. split; [exact Hcalls|]. split; [exact Hdate|].
  rewrite Hid. vm_compute. reflexivity.
Defined.

(** X16.  The resume of the daily tally at start-up.  When the modem
    steps succeed and the database client is ready, [setup] reads the
    tally stored for the date it took from the clock, starts from that
    value when the read succeeded with a value above zero and from zero
    otherwise, and then uploads the device record; these are its only
    remote calls, in this order.  When the client is not ready it makes
    no call and starts from zero. *)
Theorem setup_resumes_tally (BILLBOARD_ID : string) (env : SetupEnv) :
  modemInit env = true -> networkFound env = true -> gprsConnected env = true ->
  let device := (setup BILLBOARD_ID env).1 in
  let st0 := globalsOf device in
  let path := "/devices/" +:+ (BILLBOARD_ID +:+ "_" +:+ getMacAddress (baseMac env))
              +:+ "/data/"
              +:+ extractDateFromDateTime (getTimeFromSIM7600 (clockResponses env))
              +:+ "/daily_impressions" in
  is_int (dbValue (remote env) path) ->
  (appReady (remote env) = true ->
     (setup BILLBOARD_ID env).2
     = [DbGet path;
        DbSet (devicePathOf st0) (buildDeviceInfoJSON BILLBOARD_ID (deviceMacAddress device) st0)
          "deviceInfoTask"]
     /\ dailyImpressions st0
        = (if (dbErrorCode (remote env) path =? 0) && (dbValue (remote env) path >? 0)
           then dbValue (remote env) path else 0)
     /\ deviceInfoUploaded device = true)
  /\ (appReady (remote env) = false ->
      (setup BILLBOARD_ID env).2 = []
      /\ dailyImpressions st0 = 0
      /\ deviceInfoUploaded device = false).
Proof.
  intros H1 H2 H3 device st0 path Hint. subst device st0.
  unfold setup, loadExistingImpressions, impressionsPathOf. rewrite H1, H2, H3.
  cbn [negb]. cbv zeta.
  split; intros Hready; rewrite Hready.
  - destruct (gpsFix env) as [[lat lon]|];
      cbn [combinedBillboardId currentDate currentDateTime set_gpsFixAcquired
           set_gpsLongitude set_gpsLatitude set_currentDate set_currentDateTime
           set_combinedBillboardId];
      fold path;
      (destruct (dbErrorCode (remote env) path =? 0); cbn [andb];
       [destruct (Z.gtb_spec (dbValue (remote env) path) 0)|]);
      cbn [fst snd globalsOf deviceMacAddress deviceInfoUploaded dailyImpressions
           set_dailyImpressions app];
      repeat split; try reflexivity;
      apply wrap32_small; unfold is_int in Hint; unfold is_uint32; lia.
  - destruct (gpsFix env) as [[lat lon]|]; repeat split; reflexivity.
Qed.

Lemma setup_resumes_tally_witness :
  modemInit goodBoot = true /\ networkFound goodBoot = true /\ gprsConnected goodBoot = true
  /\ appReady (remote goodBoot) = true
  /\ dailyImpressions (globalsOf (setup "BB01" goodBoot).1) = 42
  /\ deviceInfoUploaded (setup "BB01" goodBoot).1 = true.
Proof.
  pose proof (setup_resumes_tally "BB01" goodBoot eq_refl eq_refl eq_refl) as H.
  cbv zeta in H.
  assert (Hint : is_int 42) by (unfold is_int; lia).
  destruct (H Hint) as (Hready & _).
  destruct (Hready eq_refl) as (_ & Hdaily & Hup).
  do 4 (split; [reflexivity|]). split; [exact Hdaily | exact Hup].
Defined.

(** ** The stored date over the life of a process *)

Lemma loop_tenth inp st st' calls :
  loop inp st = Some (st', calls) ->
  scanDue inp st = true -> scanCounter st = 9 ->
  st' = resetCycleTracking (reportAnalytics (reportEnv inp) (afterScan inp st)).1
  /\ calls = (reportAnalytics (reportEnv inp) (afterScan inp st)).2.
Proof.
  intros Hloop Hdue H9. unfold scanDue in Hdue.
  destruct (loop_cases inp st st' calls Hloop)
    as [(Hno & _) | [(_ & Hmore & _) | (_ & _ & Heq)]].
  - rewrite Hno in Hdue. discriminate Hdue.
  - rewrite H9 in Hmore. discriminate Hmore.
  - unfold endOfCycle in Heq.
    destruct (reportAnalytics (reportEnv inp) (afterScan inp st)) as [s c].
    injection Heq as -> ->. split; reflexivity.
Qed.

Lemma loop_not_tenth inp st st' calls :
  loop inp st = Some (st', calls) ->
  0 <= scanCounter st < 9 ->
  currentDate st' = currentDate st /\ dailyImpressions st' = dailyImpressions st.
Proof.
  intros Hloop Hk.
  destruct (performWiFiScan_daily (scanned inp) st) as (Hd & Hc).
  destruct (loop_cases inp st st' calls Hloop)
    as [(_ & -> & _) | [(_ & _ & -> & _) | (_ & Hmore & _)]].
  - split; reflexivity.
  - unfold afterScan. cbn [currentDate dailyImpressions set_scanCounter set_lastScanTime].
    split; assumption.
  - exfalso. unfold incr32 in Hmore. rewrite wrap32_small in Hmore
      by (unfold is_uint32; lia).
    unfold SCANS_PER_UPLOAD in Hmore. rewrite Z.geb_leb in Hmore.
    apply Z.leb_le in Hmore. lia.
Qed.

Lemma afterScan_dates inp st :
  currentDate (afterScan inp st) = currentDate st
  /\ combinedBillboardId (afterScan inp st) = combinedBillboardId st.
Proof.
  destruct (performWiFiScan_daily (scanned inp) st) as (_ & Hc).
  split; [unfold afterScan; cbn [currentDate set_scanCounter set_lastScanTime]; exact Hc|].
  destruct (Z.lt_trichotomy (networksFound (scanned inp)) 0) as [H|[H|H]]; unfold afterScan;
    cbn [combinedBillboardId set_scanCounter set_lastScanTime].
  - rewrite performWiFiScan_error by exact H. reflexivity.
  - rewrite performWiFiScan_none by exact H. reflexivity.
  - rewrite performWiFiScan_found by exact H. reflexivity.
Qed.

Lemma dateUsable_iff st :
  dateUsable st = true <-> currentDate st <> EmptyString /\ currentDate st <> "Unknown"%string.
Proof.
  unfold dateUsable. rewrite andb_true_iff, negb_true_iff, String.eqb_neq.
  split; intros (H1 & H2); (split; [|exact H2]).
  - intros He. rewrite He in H1. discriminate H1.
  - apply strlen_pos. exact H1.
Qed.

Lemma clockValid_iff env :
  clockValid env = true
  <-> extractDateFromDateTime (simTime env) <> "Unknown"%string
      /\ simTime env <> "Time unavailable"%string.
Proof.
  unfold clockValid. rewrite andb_true_iff, !negb_true_iff, !String.eqb_neq. reflexivity.
Qed.

(** The stored date after a report: the one before, or the date of a
    clock that passed the validity test. *)
Lemma reportAnalytics_currentDate env st :
  currentDate (reportAnalytics env st).1 = currentDate st
  \/ (appReady env = true /\ clockValid env = true
      /\ currentDate (reportAnalytics env st).1 = extractDateFromDateTime (simTime env)).
Proof.
  rewrite reportAnalytics_unfold.
  destruct (reportPreamble_kept env st) as (Hd & _).
  destruct (appReady env); [|left; exact Hd].
  destruct (clockValid env); [|left; exact Hd].
  set (s1 := set_currentDateTime (simTime env) (reportPreamble env st)).
  assert (Hd1 : currentDate s1 = currentDate st) by exact Hd.
  unfold dayChange.
  destruct (negb (_ =? currentDate s1)%string && (strlen (currentDate s1) >? 0)).
  - right. split; [reflexivity|]. split; [reflexivity|].
    cbv zeta. destruct (_ && _); rewrite uploadDaily_spec; destruct (dateUsable _);
      reflexivity.
  - destruct (strlen (currentDate s1) =? 0).
    + right. split; [reflexivity|]. split; [reflexivity|].
      rewrite uploadDaily_spec; destruct (dateUsable _); reflexivity.
    + left. rewrite uploadDaily_spec; destruct (dateUsable _); exact Hd1.
Qed.

Lemma loop_currentDate inp st st' calls :
  loop inp st = Some (st', calls) ->
  currentDate st' = currentDate st
  \/ (clockValid (reportEnv inp) = true
      /\ currentDate st' = extractDateFromDateTime (simTime (reportEnv inp))).
Proof.
  intros Hloop. destruct (afterScan_dates inp st) as (Hc & _).
  destruct (loop_cases inp st st' calls Hloop)
    as [(_ & -> & _) | [(_ & _ & -> & _) | (_ & _ & Heq)]].
  - left. reflexivity.
  - left. exact Hc.
  - assert (Hst : st' = (endOfCycle (reportEnv inp) (afterScan inp st)).1)
      by (rewrite <- Heq; reflexivity).
    rewrite Hst, endOfCycle_report.
    change (currentDate (resetCycleTracking ?s)) with (currentDate s).
    destruct (reportAnalytics_currentDate (reportEnv inp) (afterScan inp st))
      as [H | (_ & Hv & H)].
    + left. rewrite H. exact Hc.
    + right. split; assumption.
Qed.

Lemma reaches_date_known st st' :
  reaches st st' -> currentDate st <> "Unknown"%string -> currentDate st' <> "Unknown"%string.
Proof.
  induction 1 as [|st inp st1 calls st2 Hstep _ IH]; intros Hk; [exact Hk|].
  apply IH. destruct (loop_currentDate inp st st1 calls Hstep) as [-> | (Hv & ->)];
    [exact Hk|]. apply clockValid_iff in Hv. apply Hv.
Qed.

Lemma reaches_date_set st st' :
  reaches st st' -> currentDate st <> EmptyString -> currentDate st' <> EmptyString.
Proof.
  induction 1 as [|st inp st1 calls st2 Hstep _ IH]; intros Hk; [exact Hk|].
  apply IH. destruct (loop_currentDate inp st st1 calls Hstep) as [-> | (_ & ->)];
    [exact Hk|]. apply extractDate_result.
Qed.

Lemma setup_date_known ID env : currentDate (globalsOf (setup ID env).1) <> "Unknown"%string.
Proof.
  destruct (modemInit env && networkFound env && gprsConnected env) eqn:Hm.
  - apply andb_prop in Hm as (Hm & H3). apply andb_prop in Hm as (H1 & H2).
    destruct (setup_modem_ok ID env H1 H2 H3) as (_ & -> & _).
    destruct (clockDate_cases (clockResponses env)) as [(_ & ->) | (_ & date & ->)];
      discriminate.
  - unfold setup.
    destruct (modemInit env); cbn [negb]; [|discriminate].
    destruct (networkFound env); cbn [negb]; [|discriminate].
    destruct (gprsConnected env); cbn [negb]; [discriminate Hm | discriminate].
Qed.

(** What a report with a ready client and a valid clock sends, from
    globals whose stored date is usable. *)
Lemma reportAnalytics_valid env s :
  appReady env = true -> clockValid env = true -> dateUsable s = true ->
  let s' := (reportAnalytics env s).1 in
  dateUsable s' = true
  /\ currentDate s'
     = (if dayChanged env s then extractDateFromDateTime (simTime env) else currentDate s)
  /\ (reportAnalytics env s).2
     = (if dayChanged env s
        then [DbGet (newDayPath s (extractDateFromDateTime (simTime env)))] else [])
       ++ [DbSet (dailyPathOf s') (buildDailyDataJSON s') "dailyDataTask";
           DbSet (locationPathOf s') (locationJSON s') "locationUpdateTask"].
Proof.
  intros Hready Hvalid Huse. cbv zeta.
  rewrite reportAnalytics_unfold. unfold dayChanged. fold (clockValid env).
  rewrite Hready, Hvalid. cbn [andb].
  destruct (reportPreamble_kept env s) as (Hd & Hid & _).
  set (s1 := set_currentDateTime (simTime env) (reportPreamble env s)).
  assert (Hd1 : currentDate s1 = currentDate s) by exact Hd.
  assert (Hid1 : combinedBillboardId s1 = combinedBillboardId s) by exact Hid.
  apply clockValid_iff in Hvalid as (Hknown & _).
  pose proof (proj1 (extractDate_result (simTime env))) as Hne.
  set (newDate := extractDateFromDateTime (simTime env)) in *.
  assert (Hnew : forall x, currentDate x = newDate -> dateUsable x = true).
  { intros x Hx. apply dateUsable_iff. rewrite Hx. split; assumption. }
  unfold dayChange, newDayPath, impressionsPathOf. rewrite Hd1.
  destruct (negb (newDate =? currentDate s)%string && (strlen (currentDate s) >? 0)).
  - cbv zeta. cbn [combinedBillboardId currentDate set_currentDate]. rewrite Hid1.
    destruct (_ && _);
      match goal with
      | |- context [uploadDaily ?x] =>
          rewrite (uploadDaily_spec x), (Hnew x eq_refl); cbn [fst snd app]; split;
          [exact (Hnew x eq_refl) | split; reflexivity]
      end.
  - apply dateUsable_iff in Huse as Huse'. destruct Huse' as (Hset & _).
    pose proof (strlen_pos _ Hset) as Hpos.
    destruct (Z.eqb_spec (strlen (currentDate s)) 0) as [H0|_];
      [rewrite H0 in Hpos; discriminate Hpos|].
    assert (Hu1 : dateUsable s1 = true) by (unfold dateUsable; rewrite Hd1; exact Huse).
    rewrite uploadDaily_spec, Hu1. cbn [fst snd app].
    split; [exact Hu1 | split; [exact Hd1 | reflexivity]].
Qed.

Lemma setup_calls ID env :
  modemInit env = true -> networkFound env = true -> gprsConnected env = true ->
  appReady (remote env) = true ->
  let device := (setup ID env).1 in
  (setup ID env).2
  = [DbGet (impressionsPathOf (globalsOf device));
     DbSet (devicePathOf (globalsOf device))
       (buildDeviceInfoJSON ID (deviceMacAddress device) (globalsOf device))
       "deviceInfoTask"].
Proof.
  intros H1 H2 H3 Hready. cbv zeta.
  unfold setup, loadExistingImpressions. rewrite H1, H2, H3, Hready. cbn [negb]. cbv zeta.
  destruct (gpsFix env) as [[lat lon]|]; destruct (_ && _); reflexivity.
Qed.

(** ** The stored date over the life of a process: the properties *)

(** X17.  A start-up in which the modem steps succeed but the clock does
    not answer keeps the sentinel as date and time and stores its first
    word, "Time", as the date: the date is then usable for the upload
    test, and with a ready client the daily tally is read from the record
    of the date "Time". *)
Theorem setup_without_clock (BILLBOARD_ID : string) (env : SetupEnv) :
  modemInit env = true -> networkFound env = true -> gprsConnected env = true ->
  getTimeFromSIM7600 (clockResponses env) = "Time unavailable"%string ->
  let st0 := globalsOf (setup BILLBOARD_ID env).1 in
  currentDateTime st0 = "Time unavailable"%string
  /\ currentDate st0 = "Time"%string
  /\ dateUsable st0 = true
  /\ (appReady (remote env) = true ->
      exists upload,
        (setup BILLBOARD_ID env).2
        = [DbGet ("/devices/" +:+ combinedBillboardId st0 +:+ "/data/Time/daily_impressions");
           upload]).
Proof.
  intros H1 H2 H3 Hclock st0.
  destruct (setup_modem_ok BILLBOARD_ID env H1 H2 H3) as (Htime & Hdate & _).
  fold st0 in Htime, Hdate. rewrite Hclock in Htime, Hdate.
  change (extractDateFromDateTime "Time unavailable") with "Time"%string in Hdate.
  split; [exact Htime|]. split; [exact Hdate|].
  split; [apply dateUsable_iff; rewrite Hdate; split; discriminate|].
  intros Hready. rewrite (setup_calls BILLBOARD_ID env H1 H2 H3 Hready).
  fold st0. unfold impressionsPathOf. rewrite Hdate. eexists. reflexivity.
Qed.

Lemma setup_without_clock_witness :
  getTimeFromSIM7600 (clockResponses noClockBoot) = "Time unavailable"%string
  /\ currentDate (globalsOf (setup "BB01" noClockBoot).1) = "Time"%string
  /\ dateUsable (globalsOf (setup "BB01" noClockBoot).1) = true.
Proof.
  assert (Hclock : getTimeFromSIM7600 (clockResponses noClockBoot) = "Time unavailable"%string)
    by reflexivity.
  pose proof (setup_without_clock "BB01" noClockBoot eq_refl eq_refl eq_refl Hclock) as H.
  cbv zeta in H. destruct H as (_ & Hdate & Huse & _).
  split; [exact Hclock|]. split; [exact Hdate | exact Huse].
Defined.

(** X18.  The date "Time" ends with the first report in which the client
    is ready and the clock answers.  That report, the tenth scan of its
    cycle, takes the answer for a new day: the stored date becomes the
    date of the clock, the daily tally is replaced by the stored tally of
    that date, or by zero, so that what was counted under "Time" does not
    reach the new record, and the record of the new date is uploaded. *)
Theorem placeholder_date_dropped
    (inp : LoopInput) (st st' : State) (calls : list RemoteCall) (responses : nat -> string) :
  currentDate st = "Time"%string ->
  scanCounter st = 9 ->
  loop inp st = Some (st', calls) ->
  scanDue inp st = true ->
  appReady (reportEnv inp) = true ->
  simTime (reportEnv inp) = getTimeFromSIM7600 responses ->
  simTime (reportEnv inp) <> "Time unavailable"%string ->
  let newDate := extractDateFromDateTime (simTime (reportEnv inp)) in
  let path := newDayPath st newDate in
  newDate <> "Time"%string
  /\ currentDate st' = newDate
  /\ dailyImpressions st'
     = (if (dbErrorCode (reportEnv inp) path =? 0) && (dbValue (reportEnv inp) path >? 0)
        then wrap32 (dbValue (reportEnv inp) path) else 0)
  /\ calls
     = [DbGet path;
        DbSet (dailyPathOf st') (buildDailyDataJSON st') "dailyDataTask";
        DbSet (locationPathOf st') (locationJSON st') "locationUpdateTask"].
Proof.
  intros Hdate H9 Hloop Hdue Hready Hclock Hanswer newDate path.
  destruct (loop_tenth inp st st' calls Hloop Hdue H9) as (Hst & Hcalls).
  destruct (afterScan_dates inp st) as (Hd & Hid).
  set (s := afterScan inp st) in *. set (env := reportEnv inp) in *.
  assert (Hshape : newDate <> "Unknown"%string /\ newDate <> "Time"%string).
  { subst newDate. rewrite Hclock.
    destruct (clockDate_cases responses) as [(Hs & _) | (_ & date & ->)].
    - exfalso. apply Hanswer. rewrite Hclock. exact Hs.
    - split; discriminate. }
  destruct Hshape as (Hknown & Hnot).
  assert (Hchanged : dayChanged env s = true).
  { apply dayChanged_true; try assumption.
    - rewrite Hd, Hdate. exact Hnot.
    - rewrite Hd, Hdate. discriminate. }
  assert (Hvalid : clockValid env = true) by (apply clockValid_iff; split; assumption).
  assert (Huse : dateUsable s = true).
  { apply dateUsable_iff. rewrite Hd, Hdate. split; discriminate. }
  assert (Hpath : newDayPath s newDate = path).
  { unfold path, newDayPath. rewrite Hid. reflexivity. }
  destruct (reportAnalytics_valid env s Hready Hvalid Huse) as (_ & Hcur & Hsent).
  rewrite Hchanged in Hcur, Hsent. fold newDate in Hcur, Hsent. rewrite Hpath in Hsent.
  pose proof (reportAnalytics_daily env s) as Hdaily.
  rewrite Hchanged in Hdaily. cbv zeta in Hdaily. fold newDate in Hdaily.
  rewrite Hpath in Hdaily.
  split; [exact Hnot|]. rewrite Hst, Hcalls.
  split; [exact Hcur|]. split; [exact Hdaily | exact Hsent].
Qed.

Lemma placeholder_date_dropped_witness :
  currentDate noClockNine = "Time"%string
  /\ scanCounter noClockNine = 9
  /\ loop clockBackPass noClockNine = Some (afterClockBack, clockBackCalls)
  /\ currentDate afterClockBack = "2025-12-02"%string
  /\ dailyImpressions afterClockBack = 0.
Proof.
  assert (Hdate : currentDate noClockNine = "Time"%string) by (vm_compute; reflexivity).
  assert (H9 : scanCounter noClockNine = 9) by (vm_compute; reflexivity).
  assert (Hloop : loop clockBackPass noClockNine = Some (afterClockBack, clockBackCalls))
    by (vm_compute; reflexivity).
  assert (Hdue : scanDue clockBackPass noClockNine = true) by (vm_compute; reflexivity).
  assert (Hanswer : simTime (reportEnv clockBackPass) <> "Time unavailable"%string)
    by (vm_compute; discriminate).
  pose proof (placeholder_date_dropped clockBackPass noClockNine afterClockBack clockBackCalls
                promptModem Hdate H9 Hloop Hdue eq_refl eq_refl Hanswer) as H.
  cbv zeta in H. destruct H as (_ & Hcur & Hdaily & _).
  split; [exact Hdate|]. split; [exact H9|]. split; [exact Hloop|].
  split; [rewrite Hcur; vm_compute; reflexivity | rewrite Hdaily; reflexivity].
Defined.

Lemma inService_dateUsable ID env st :
  modemInit env = true -> networkFound env = true -> gprsConnected env = true ->
  inService ID env st -> currentDate st <> EmptyString /\ dateUsable st = true.
Proof.
  intros H1 H2 H3 Hservice.
  assert (Hset : currentDate st <> EmptyString).
  { apply (reaches_date_set _ _ Hservice).
    destruct (setup_modem_ok ID env H1 H2 H3) as (_ & -> & _).
    apply extractDate_result. }
  split; [exact Hset|]. apply dateUsable_iff. split; [exact Hset|].
  exact (reaches_date_known _ _ Hservice (setup_date_known ID env)).
Qed.

(** X19.  The stored date of a process in service is never "Unknown",
    whatever the clock answers; after a start-up in which the modem steps
    succeeded it is never empty either, so it always passes the test made
    before the upload. *)
Theorem stored_date_never_unknown (BILLBOARD_ID : string) (env : SetupEnv) (st : State) :
  inService BILLBOARD_ID env st ->
  currentDate st <> "Unknown"%string
  /\ (modemInit env && networkFound env && gprsConnected env = true ->
      currentDate st <> EmptyString /\ dateUsable st = true).
Proof.
  intros Hservice.
  split; [exact (reaches_date_known _ _ Hservice (setup_date_known BILLBOARD_ID env))|].
  intros Hm.
  apply andb_prop in Hm as (Hm & H3). apply andb_prop in Hm as (H1 & H2).
  exact (inService_dateUsable BILLBOARD_ID env st H1 H2 H3 Hservice).
Qed.

Lemma stored_date_never_unknown_witness :
  inService "BB01" goodBoot afterFirstPass
  /\ currentDate afterFirstPass <> "Unknown"%string
  /\ dateUsable afterFirstPass = true.
Proof.
  destruct (stored_date_never_unknown "BB01" goodBoot afterFirstPass inService_afterFirstPass)
    as (Hknown & Hrest).
  split; [exact inService_afterFirstPass|]. split; [exact Hknown|].
  exact (proj2 (Hrest eq_refl)).
Defined.

(** X20.  After a start-up in which the modem steps succeeded, a report
    made with a ready client and a valid answer of the clock always
    uploads: the branch that skips the upload for want of a date, and the
    one that adopts a date without reading the remote tally, are never
    taken.  The calls of the pass are the read of the new day's tally
    when a day change is detected, then the daily record and the
    position, built from the globals the pass leaves; the stored date
    changes only with a day change. *)
Theorem valid_report_always_uploads
    (BILLBOARD_ID : string) (env : SetupEnv)
    (inp : LoopInput) (st st' : State) (calls : list RemoteCall) :
  modemInit env = true -> networkFound env = true -> gprsConnected env = true ->
  inService BILLBOARD_ID env st ->
  loop inp st = Some (st', calls) ->
  scanDue inp st = true -> scanCounter st = 9 ->
  appReady (reportEnv inp) = true -> clockValid (reportEnv inp) = true ->
  let newDate := extractDateFromDateTime (simTime (reportEnv inp)) in
  calls
  = (if dayChanged (reportEnv inp) st then [DbGet (newDayPath st newDate)] else [])
    ++ [DbSet (dailyPathOf st') (buildDailyDataJSON st') "dailyDataTask";
        DbSet (locationPathOf st') (locationJSON st') "locationUpdateTask"]
  /\ currentDate st' = (if dayChanged (reportEnv inp) st then newDate else currentDate st)
  /\ dateUsable st' = true.
Proof.
  intros H1 H2 H3 Hservice Hloop Hdue H9 Hready Hvalid newDate.
  destruct (loop_tenth inp st st' calls Hloop Hdue H9) as (Hst & Hcalls).
  destruct (afterScan_dates inp st) as (Hd & Hid).
  destruct (inService_dateUsable BILLBOARD_ID env st H1 H2 H3 Hservice) as (_ & Huse0).
  assert (Huse : dateUsable (afterScan inp st) = true)
    by (unfold dateUsable; rewrite Hd; exact Huse0).
  pose proof (dayChanged_afterScan inp st) as Hsame.
  assert (Hpath : newDayPath (afterScan inp st) newDate = newDayPath st newDate)
    by (unfold newDayPath; rewrite Hid; reflexivity).
  destruct (reportAnalytics_valid (reportEnv inp) (afterScan inp st) Hready Hvalid Huse)
    as (Hu & Hcur & Hsent).
  fold newDate in Hcur, Hsent. rewrite Hsame, Hpath in Hsent. rewrite Hsame, Hd in Hcur.
  rewrite Hst, Hcalls.
  split; [exact Hsent|]. split; [exact Hcur | exact Hu].
Qed.

Lemma valid_report_always_uploads_witness :
  inService "BB01" noClockBoot noClockNine
  /\ loop clockBackPass noClockNine = Some (afterClockBack, clockBackCalls)
  /\ length clockBackCalls = 3%nat
  /\ dateUsable afterClockBack = true.
Proof.
  assert (Hs : inService "BB01" noClockBoot noClockNine)
    by (apply (runLoop_reaches nineBlindScans); vm_compute; reflexivity).
  assert (Hloop : loop clockBackPass noClockNine = Some (afterClockBack, clockBackCalls))
    by (vm_compute; reflexivity).
  assert (Hdue : scanDue clockBackPass noClockNine = true) by (vm_compute; reflexivity).
  assert (H9 : scanCounter noClockNine = 9) by (vm_compute; reflexivity).
  assert (Hvalid : clockValid (reportEnv clockBackPass) = true) by (vm_compute; reflexivity).
  pose proof (valid_report_always_uploads "BB01" noClockBoot clockBackPass noClockNine
                afterClockBack clockBackCalls eq_refl eq_refl eq_refl Hs Hloop Hdue H9
                eq_refl Hvalid) as H.
  cbv zeta in H. destruct H as (Hcalls & _ & Huse).
  split; [exact Hs|]. split; [exact Hloop|]. split; [|exact Huse].
  rewrite Hcalls. vm_compute. reflexivity.
Defined.

(** ** The identity of the device *)

Lemma hexDigitUpper_inj a b :
  0 <= a < 16 -> 0 <= b < 16 -> hexDigitUpper a = hexDigitUpper b -> a = b.
Proof.
  intros Ha Hb.
  assert (Ea : a = 0 \/ a = 1 \/ a = 2 \/ a = 3 \/ a = 4 \/ a = 5 \/ a = 6 \/ a = 7 \/ a = 8
               \/ a = 9 \/ a = 10 \/ a = 11 \/ a = 12 \/ a = 13 \/ a = 14 \/ a = 15) by lia.
  assert (Eb : b = 0 \/ b = 1 \/ b = 2 \/ b = 3 \/ b = 4 \/ b = 5 \/ b = 6 \/ b = 7 \/ b = 8
               \/ b = 9 \/ b = 10 \/ b = 11 \/ b = 12 \/ b = 13 \/ b = 14 \/ b = 15) by lia.
  repeat (destruct Ea as [->|Ea]); try subst a;
    repeat (destruct Eb as [->|Eb]); try subst b;
    intros H; first [reflexivity | discriminate H].
Qed.

Lemma nibbles (b : byte) :
  0 <= Z.shiftr (u8 b) 4 < 16 /\ 0 <= Z.land (u8 b) 15 < 16
  /\ u8 b = 16 * Z.shiftr (u8 b) 4 + Z.land (u8 b) 15.
Proof.
  pose proof (u8_is_byte b) as Hb. unfold is_byte in Hb.
  rewrite Z.shiftr_div_pow2 by lia. change 15 with (Z.ones 4).
  rewrite Z.land_ones by lia. change (2 ^ 4) with 16.
  pose proof (Z.div_mod (u8 b) 16). pose proof (Z.mod_pos_bound (u8 b) 16).
  assert (0 <= u8 b / 16 < 16) by (split; [apply Z.div_pos; lia | apply Z.div_lt_upper_bound; lia]).
  lia.
Qed.

Lemma hex2Upper_inj (b b' : byte) : hex2Upper b = hex2Upper b' -> b = b'.
Proof.
  unfold hex2Upper. intros H. injection H as Hhi Hlo.
  destruct (nibbles b) as (Hh & Hl & Hb), (nibbles b') as (Hh' & Hl' & Hb').
  apply hexDigitUpper_inj in Hhi; [|assumption..].
  apply hexDigitUpper_inj in Hlo; [|assumption..].
  apply u8_inj. lia.
Qed.

Lemma getMacAddress_six (b0 b1 b2 b3 b4 b5 : byte) :
  getMacAddress [b0; b1; b2; b3; b4; b5]
  = hex2Upper b0 +:+ hex2Upper b1 +:+ hex2Upper b2 +:+ hex2Upper b3 +:+ hex2Upper b4
      +:+ hex2Upper b5.
Proof. reflexivity. Qed.

Lemma hex2Upper_append_inj (b b' : byte) (s s' : string) :
  hex2Upper b +:+ s = hex2Upper b' +:+ s' -> b = b' /\ s = s'.
Proof.
  unfold hex2Upper. rewrite !append_cons, !append_nil. intros H.
  injection H as Hhi Hlo Hs. split; [|exact Hs].
  apply hex2Upper_inj. unfold hex2Upper. rewrite Hhi, Hlo. reflexivity.
Qed.

Lemma getMacAddress_inj (m m' : list byte) :
  length m = 6%nat -> length m' = 6%nat -> getMacAddress m = getMacAddress m' -> m = m'.
Proof.
  intros Hm Hm'.
  destruct m as [|b0 [|b1 [|b2 [|b3 [|b4 [|b5 [|b6 rest]]]]]]]; try discriminate Hm.
  destruct m' as [|c0 [|c1 [|c2 [|c3 [|c4 [|c5 [|c6 rest']]]]]]]; try discriminate Hm'.
  rewrite !getMacAddress_six. intros H.
  apply hex2Upper_append_inj in H as (-> & H).
  apply hex2Upper_append_inj in H as (-> & H).
  apply hex2Upper_append_inj in H as (-> & H).
  apply hex2Upper_append_inj in H as (-> & H).
  apply hex2Upper_append_inj in H as (-> & H).
  apply hex2Upper_inj in H as ->. reflexivity.
Qed.

Lemma getMacAddress_length (m : list byte) : strlen (getMacAddress m) = 12.
Proof. reflexivity. Qed.

Lemma append_inj_l (a b c : string) : a +:+ b = a +:+ c -> b = c.
Proof.
  induction a as [|x a IH]; [rewrite !append_nil; trivial|].
  rewrite !append_cons. intros H. injection H as H. exact (IH H).
Qed.

Lemma setup_identity ID env :
  let device := (setup ID env).1 in
  combinedBillboardId (globalsOf device) = ID +:+ "_" +:+ getMacAddress (baseMac env)
  /\ deviceMacAddress device = getMacAddress (baseMac env)
  /\ deviceAccessKey device
     = generateAccessKey ID (getMacAddress (baseMac env)) (keyMillis env)
  /\ ephemeralSalt (globalsOf device) = wrap32 (drawnSalt env)
  /\ systemStartTime (globalsOf device) = bootMillis env.
Proof.
  cbv zeta. unfold setup, loadExistingImpressions.
  destruct (modemInit env); cbn [negb]; [|repeat split; reflexivity].
  destruct (networkFound env); cbn [negb]; [|repeat split; reflexivity].
  destruct (gprsConnected env); cbn [negb]; [|repeat split; reflexivity].
  destruct (gpsFix env) as [[lat lon]|], (appReady (remote env));
    cbv zeta; try (repeat split; reflexivity);
    destruct (_ && _); repeat split; reflexivity.
Qed.

(** X21.  The identity [setup] gives a device.  Whatever else happens at
    start-up, the combined identifier is the billboard identifier, an
    underscore and the twelve upper-case hexadecimal digits of the
    hardware address; under one billboard identifier two devices have the
    same combined identifier, and so the same remote paths, only if their
    hardware addresses are the same. *)
Theorem combined_id_identifies_device (BILLBOARD_ID : string) (env env' : SetupEnv) :
  length (baseMac env) = 6%nat -> length (baseMac env') = 6%nat ->
  let st0 := globalsOf (setup BILLBOARD_ID env).1 in
  let st0' := globalsOf (setup BILLBOARD_ID env').1 in
  combinedBillboardId st0 = BILLBOARD_ID +:+ "_" +:+ getMacAddress (baseMac env)
  /\ strlen (getMacAddress (baseMac env)) = 12
  /\ (combinedBillboardId st0 = combinedBillboardId st0' <-> baseMac env = baseMac env').
Proof.
  intros Hm Hm' st0 st0'.
  destruct (setup_identity BILLBOARD_ID env) as (Hid & _).
  destruct (setup_identity BILLBOARD_ID env') as (Hid' & _).
  fold st0 in Hid. fold st0' in Hid'.
  split; [exact Hid|]. split; [apply getMacAddress_length|].
  rewrite Hid, Hid'. split.
  - intros H. apply append_inj_l in H. apply append_inj_l in H.
    exact (getMacAddress_inj _ _ Hm Hm' H).
  - intros ->. reflexivity.
Qed.

Lemma combined_id_identifies_device_witness :
  length (baseMac goodBoot) = 6%nat /\ length (baseMac noModemBoot) = 6%nat
  /\ combinedBillboardId (globalsOf (setup "BB01" goodBoot).1)
     = combinedBillboardId (globalsOf (setup "BB01" noModemBoot).1).
Proof.
  pose proof (combined_id_identifies_device "BB01" goodBoot noModemBoot eq_refl eq_refl) as H.
  cbv zeta in H. destruct H as (_ & _ & Hiff).
  split; [reflexivity|]. split; [reflexivity|]. apply Hiff. reflexivity.
Defined.

(** X22.  The access key looks at the first four bytes of the hardware
    address only: for one billboard identifier and one reading of the
    millisecond clock, two devices get the same key exactly when their
    addresses agree on the first four bytes, whatever the last two. *)
Theorem access_key_uses_four_bytes
    (BILLBOARD_ID : string) (m m' : list byte) (now : Z) :
  length m = 6%nat -> length m' = 6%nat ->
  generateAccessKey BILLBOARD_ID (getMacAddress m) now
  = generateAccessKey BILLBOARD_ID (getMacAddress m') now
  <-> firstn 4 m = firstn 4 m'.
Proof.
  intros Hm Hm'.
  destruct m as [|b0 [|b1 [|b2 [|b3 [|b4 [|b5 [|b6 rest]]]]]]]; try discriminate Hm.
  destruct m' as [|c0 [|c1 [|c2 [|c3 [|c4 [|c5 [|c6 rest']]]]]]]; try discriminate Hm'.
  unfold generateAccessKey.
  assert (Hsub : forall d0 d1 d2 d3 d4 d5,
             String_substring (getMacAddress [d0; d1; d2; d3; d4; d5]) 0 8
             = hex2Upper d0 +:+ hex2Upper d1 +:+ hex2Upper d2 +:+ hex2Upper d3)
    by reflexivity.
  rewrite !Hsub. cbn [firstn]. split.
  - intros H. apply append_inj_l in H. apply append_inj_l in H.
    rewrite !append_assoc in H.
    apply hex2Upper_append_inj in H as (-> & H).
    apply hex2Upper_append_inj in H as (-> & H).
    apply hex2Upper_append_inj in H as (-> & H).
    apply hex2Upper_append_inj in H as (-> & _). reflexivity.
  - intros H. injection H as -> -> -> ->. reflexivity.
Qed.

Lemma access_key_uses_four_bytes_witness :
  length macA = 6%nat /\ length macA' = 6%nat /\ macA <> macA'
  /\ generateAccessKey "BB01" (getMacAddress macA) 2100
     = generateAccessKey "BB01" (getMacAddress macA') 2100.
Proof.
  split; [reflexivity|]. split; [reflexivity|]. split; [discriminate|].
  apply (access_key_uses_four_bytes "BB01" macA macA' 2100 eq_refl eq_refl). reflexivity.
Defined.
